(** * Internal_LLM: the Wi-Fi 7 RAG evaluation harness

    A shallow embedding of [src/internal_llm.py]: the question-file loader
    ([carregar_perguntas]), the two responders ([generate_response],
    [generate_raw_response]), the index set-up ([setup_rag_system]) and the
    two harness modes ([benchmark_interativo], [executar_bateria_testes])
    and the interactive functions ([select_model], [main]), followed by the
    properties the specification states about them and by further
    properties of the code.

    Conventions of the embedding.
    - A Python [str] is the list of its Unicode code points.
    - Every function that prints, reads the clock, calls the model backend or
      touches the disk is a computation in the monad [M]: it takes the
      mutable part of the world ([State]), and returns a value or a raised
      exception together with the new state.  What the program can only
      read (the question file, the corpus directory, the answers of the
      backend, the clock, the embedding model) is the record [Env].
    - The third-party libraries the program calls (the text splitter and
      the vector store of langchain) are not in the sources: their
      definitions are modelled from the specification, and say so.
    - The console is a log of [printed] events, one constructor per [print]
      statement of the source, carrying the interpolated values.
    - Wall-clock readings and elapsed times are rationals: Python floats
      are idealised as the numbers they stand for. *)

From Stdlib Require Import String Ascii Strings.Byte DecimalString.
From Stdlib Require Import List Bool Arith ZArith NArith QArith Qround Qabs Lia Lqa.
From Stdlib Require Import Permutation Sorted.
Import ListNotations.
Close Scope Q_scope.

(* ================================================================== *)
(** ** Python strings *)
(* ================================================================== *)

Module Py.

(** A code point. *)
Definition char := N.

(** [str]: a sequence of code points; [len] is [length], [s[:n]] is
    [firstn n s], [+] is [++]. *)
Definition str := list char.

(** Literals are written [py "..."]: the UTF-8 bytes of the Rocq literal are
    decoded to code points, so that [py "Página"] has 6 characters. *)
Fixpoint utf8_decode (bs : list N) : str :=
  match bs with
  | [] => []
  | b0 :: r0 =>
    if (b0 <? 128)%N then b0 :: utf8_decode r0
    else
      match r0 with
      | [] => []
      | b1 :: r1 =>
        if (b0 <? 224)%N then ((b0 - 192) * 64 + (b1 - 128))%N :: utf8_decode r1
        else
          match r1 with
          | [] => []
          | b2 :: r2 =>
            if (b0 <? 240)%N
            then (((b0 - 224) * 64 + (b1 - 128)) * 64 + (b2 - 128))%N :: utf8_decode r2
            else
              match r2 with
              | [] => []
              | b3 :: r3 =>
                ((((b0 - 240) * 64 + (b1 - 128)) * 64 + (b2 - 128)) * 64 + (b3 - 128))%N
                  :: utf8_decode r3
              end
          end
      end
  end.

Definition py (s : string) : str :=
  utf8_decode (map Byte.to_N (list_byte_of_string s)).

(** The line feed, ["\n"]. *)
Definition LF : char := 10%N.

(** [a == b] on strings. *)
Fixpoint str_eqb (a b : str) : bool :=
  match a, b with
  | [], [] => true
  | x :: a', y :: b' => (x =? y)%N && str_eqb a' b'
  | _, _ => false
  end.

(** [c.isspace()]: the code points CPython's [_PyUnicode_IsWhitespace]
    accepts (tab to carriage return, the four separators 0x1C-0x1F, space,
    NEL, no-break space, and the Unicode space separators). *)
Definition isspace (c : char) : bool :=
  ((9 <=? c) && (c <=? 13) || (28 <=? c) && (c <=? 32)
   || (c =? 133) || (c =? 160) || (c =? 5760)
   || (8192 <=? c) && (c <=? 8202)
   || (c =? 8232) || (c =? 8233) || (c =? 8239) || (c =? 8287)
   || (c =? 12288))%N.

Fixpoint lstrip (s : str) : str :=
  match s with
  | [] => []
  | c :: r => if isspace c then lstrip r else s
  end.

Definition rstrip (s : str) : str := rev (lstrip (rev s)).

(** [s.strip()] *)
Definition strip (s : str) : str := rstrip (lstrip s).

(** [c.lower()] on the letters of ASCII and Latin-1; other code points are
    left as they are (none of them lowers to an ASCII letter of ["sair"],
    the only word the program compares a lowered string with). *)
Definition lower_char (c : char) : char :=
  (if (65 <=? c) && (c <=? 90) then c + 32
   else if (192 <=? c) && (c <=? 222) && negb (c =? 215) then c + 32
   else c)%N.

Definition lower (s : str) : str := map lower_char s.

(** [s.startswith(p)] *)
Fixpoint startswith (s p : str) : bool :=
  match p, s with
  | [], _ => true
  | _ :: _, [] => false
  | x :: p', y :: s' => (x =? y)%N && startswith s' p'
  end.

(** [s.endswith(p)] *)
Definition endswith (s p : str) : bool := startswith (rev s) (rev p).

(** [sep.join(parts)] *)
Fixpoint join (sep : str) (parts : list str) : str :=
  match parts with
  | [] => []
  | p :: rest =>
    match rest with
    | [] => p
    | _ :: _ => p ++ sep ++ join sep rest
    end
  end.

(** [os.path.basename(p)] (POSIX): what follows the last ["/"]. *)
Fixpoint basename (p : str) : str :=
  match p with
  | [] => []
  | c :: r =>
    if existsb (N.eqb 47) r then basename r
    else if (c =? 47)%N then r else p
  end.

(** [str(n)] for an [int]. *)
Definition str_of_Z (z : Z) : str := py (NilZero.string_of_int (Z.to_int z)).

(** The lines a text-mode file yields when iterated: each ends with its
    ["\n"], except possibly the last.  The text is what the text layer
    delivers, line ends already translated to ["\n"]. *)
Fixpoint lines (text : str) : list str :=
  match text with
  | [] => []
  | c :: r =>
    if (c =? LF)%N then [c] :: lines r
    else
      match lines r with
      | [] => [[c]]
      | l :: ls => (c :: l) :: ls
      end
  end.

(** [round(x, ndigits)] on the number a float stands for: the closest
    multiple of [10^-ndigits], ties going to the even multiple. *)
Definition round_half_even (x : Q) : Z :=
  let f := Qfloor x in
  match (x - inject_Z f ?= 1 # 2)%Q with
  | Lt => f
  | Gt => (f + 1)%Z
  | Eq => if Z.even f then f else (f + 1)%Z
  end.

Definition round (x : Q) (ndigits : nat) : Q :=
  let scale := inject_Z (10 ^ Z.of_nat ndigits) in
  Qred (inject_Z (round_half_even (x * scale)) / scale).

(** Exceptions, all of them subclasses of [Exception]. *)
Inductive exn : Type :=
| FileNotFoundError (msg : str)
| KeyError (key : str)
| AttributeError (msg : str)
| UnboundLocalError (msg : str)
| EOFError
| Exception (msg : str).

(** [str(e)] *)
Definition str_exn (e : exn) : str :=
  match e with
  | FileNotFoundError msg => msg
  | KeyError key => py "'" ++ key ++ py "'"
  | AttributeError msg => msg
  | UnboundLocalError msg => msg
  | EOFError => []
  | Exception msg => msg
  end.

(** What a call ends with: a value, or a raised exception. *)
Inductive outcome (A : Type) : Type :=
| Ok (a : A)
| Raise (e : exn).
Arguments Ok {A} a.
Arguments Raise {A} e.

End Py.
Import Py.
Arguments py : simpl never.
Arguments firstn : simpl never.

(* ================================================================== *)
(** ** Data model *)
(* ================================================================== *)

(** A langchain [Document]: its text and the two entries of its [metadata]
    dictionary the program reads.  PyPDFLoader sets both; the program reads
    [metadata['source']] (a [KeyError] when absent) and
    [metadata.get('page', 'N/A')]. *)
Record Document : Type := {
  page_content : str;
  meta_source : option str;
  meta_page : option Z
}.

(** A fixed-dimension numeric vector. *)
Definition vector := list Q.

(** Modelled from the spec: the Embedding Index (langchain's [FAISS] vector
    store, a third-party library absent from the sources).  "A persistent
    structure mapping each Chunk to a fixed-dimension numeric vector,
    supporting nearest-neighbor lookup by vector distance."  What is
    persisted is the chunks with their vectors; a loaded or freshly built
    store also holds the embedding function it embeds queries with. *)
Definition Snapshot : Type := list (Document * vector).

(** Modelled from the spec: a vector store in memory, "built once from all
    chunks of a corpus, or loaded from a persisted snapshot". *)
Record FAISS : Type := {
  embedding_function : str -> vector;
  index_entries : Snapshot
}.

(** The two system personas (the [system=] texts of the source). *)
Inductive persona : Type :=
| PersonaAcademico   (* "Você é um assistente acadêmico especializado ..." *)
| PersonaTecnico.    (* "Você é um assistente técnico especializado ..." *)

(** An [Ollama(model=..., temperature=..., system=..., num_thread=...)]
    object: building one calls nothing, [invoke] does. *)
Record Ollama : Type := {
  model : str;
  temperature : Q;
  system : persona;
  num_thread : option nat
}.

(** A row of the exported table (the columns of [df_resultados] and the keys
    of the dictionaries of [resultados]). *)
Record Row : Type := {
  Modelo : str;
  Pergunta : str;
  Tempo : Q;
  Resposta : str;
  Fontes : str
}.

(** The folders of the disk that may hold a persisted index. *)
Definition Disk : Type := str -> option (outcome Snapshot).

(** [disk] once [snapshot] is written under [folder]. *)
Definition gravar (folder : str) (snapshot : Snapshot) (disk : Disk) : Disk :=
  fun path => if str_eqb path folder then Some (Ok snapshot) else disk path.

(** What [open('perguntas.csv', 'r', encoding='utf-8')] and the reads that
    follow find: no file, a failure of another kind (no permission, bytes
    that are not UTF-8), or the decoded text. *)
Inductive file : Type :=
| FileMissing
| FileUnreadable (e : exn)
| FileText (text : str).

(** The console: one constructor per [print] of the modelled functions. *)
Inductive printed : Type :=
(* load_documents *)
| PCarregandoProcessando            (* "📂 Carregando e processando documentos..." *)
| PProcessando (pdf_file : str)     (* "  - Processando: {pdf_file}" *)
| PErroArquivo (pdf_file e : str)   (* "❌ Erro no arquivo {pdf_file}: {str(e)}" *)
(* setup_rag_system *)
| PConfigurandoRAG                  (* "🔧 Configurando sistema RAG..." *)
| PCarregandoIndice                 (* "  - Carregando índice FAISS existente..." *)
| PCriandoIndice                    (* "  - Criando novo índice FAISS..." *)
| PInicializando (model_name : str) (* "  - Inicializando modelo {model_name}..." *)
(* benchmark_interativo *)
| PModoBenchmark                    (* "⚡ MODO BENCHMARK AUTOMÁTICO" *)
| PTestaraSequencialmente           (* "Testará sequencialmente: 1. ... 4. ..." *)
| PCarregandoDocumentos             (* "📂 Carregando documentos..." *)
| PPreparandoEmbeddings             (* "🔧 Preparando sistema de embeddings..." *)
| PConfigurandoVectorstore          (* "🔧 Configurando vectorstore..." *)
| PDigitePergunta                   (* the prompt of input(): "🔍 Digite a pergunta para comparar (ou 'sair'): " *)
| PProcessandoModelos               (* "⏳ Processando nos 4 modelos..." *)
| PTestando (nome : str)            (* "  - Testando {nome}...", end='\r' *)
| POkModelo (nome : str) (tempo : Q)  (* "✅ {nome} | {tempo}s" *)
| PFalha (nome e : str)             (* "❌ Falha em {nome}: {str(e)}" *)
| PResultados                       (* "📊 RESULTADOS:" *)
| PTabela (linhas : list (str * Q)) (* tabulate(df_resultados[["Modelo", "Tempo(s)"]], ...) *)
| PRelatorioSalvo (nome_arquivo : str)  (* "💾 Relatório salvo como: {nome_arquivo}" *)
| PNenhumDado                       (* "⚠️ Nenhum dado foi coletado" *)
(* carregar_perguntas *)
| PErroCabecalho (cabecalho : str)  (* "❌ Erro: Cabeçalho inválido. Esperado 'Perguntas', encontrado '{cabecalho}'" *)
| PErroNenhumaPergunta              (* "❌ Erro: Nenhuma pergunta encontrada no arquivo" *)
| PAvisoEsperadas100 (n : nat)      (* "⚠️ Aviso: Esperadas 100 perguntas, encontradas {len(perguntas)}" *)
| PAvisoSemEnd                      (* "⚠️ Aviso: Flag /end não encontrada no final do arquivo" *)
| PCarregadas (n : nat)             (* "✅ {len(perguntas)} perguntas carregadas com sucesso" *)
| PErroNaoEncontrado                (* "❌ Erro: Arquivo 'perguntas.csv' não encontrado" *)
| PCertifiqueSe                     (* "  Certifique-se que o arquivo está na mesma pasta do script" *)
| PErroInesperado (e : str)         (* "❌ Erro inesperado ao carregar perguntas: {str(e)}" *)
(* executar_bateria_testes *)
| PIniciandoSemDocumentos (model_name : str) (n : nat)
                                    (* "🔧 Iniciando teste com {model_name} (sem documentos) para {n} perguntas" *)
| PIniciando (model_name : str) (n : nat)
                                    (* "🔧 Iniciando teste com {model_name} para {n} perguntas" *)
| PProgresso (i total : nat)        (* "📝 Progresso: {i}/{total_perguntas}" *)
| PPergunta (trecho : str)          (* "   Pergunta: {pergunta[:70]}..." *)
| PRespondido (tempo : Q)           (* "   ✅ Respondido em {tempo}s" *)
| PErro (e : str)                   (* "   ❌ Erro: {str(e)}" *)
| PArquivoSalvo (nome_arquivo : str) (* "💾 Arquivo salvo: {nome_arquivo}" *)
| PTotalRespondidas (respondidas total : nat).
                                    (* "📊 Total de perguntas respondidas: {respondidas}/{total_perguntas}" *)

(** The messages that report an error (the ones the source marks "❌"). *)
Definition is_error (p : printed) : bool :=
  match p with
  | PErroArquivo _ _ | PFalha _ _ | PErroCabecalho _ | PErroNenhumaPergunta
  | PErroNaoEncontrado | PErroInesperado _ | PErro _ => true
  | _ => false
  end.

(** The text handed to [llm.invoke]. *)
Definition prompt := str.

(** What the program reads but does not change. *)
Record Env : Type := {
  (** the file [perguntas.csv] of the working directory *)
  perguntas_csv : file;
  (** [os.listdir(PDF_DIR)], and for each name what
      [PyPDFLoader(os.path.join(PDF_DIR, name)).load()] gives *)
  pdf_dir : list (str * outcome (list Document));
  (** [HuggingFaceEmbeddings(model_name)]: text to vector *)
  embed : str -> str -> vector;
  (** the backend: the answer to the [n]-th invocation (counted from 0) of
      [llm.invoke(prompt)], a text or a failure *)
  ollama : nat -> Ollama -> prompt -> outcome str;
  (** [time.time()]: the [n]-th reading of the clock *)
  clock : nat -> Q;
  (** [datetime.now().strftime(format)] *)
  strftime_now : str -> str
}.

(** What the program changes. *)
Record State : Type := {
  console : list printed;
  (** the invocations of the backend so far, oldest first *)
  invoked : list (Ollama * prompt);
  (** how many times the clock was read *)
  ticks : nat;
  (** the texts embedded so far to build an index, oldest first *)
  embedded : list str;
  (** the index folders on disk, by path: nothing there, or something
      that [FAISS.load_local] reads as a snapshot or fails on *)
  saved_index : Disk;
  (** the CSV files written so far, oldest first: name and rows *)
  csv_files : list (str * list Row)
}.

(** ** The monad of effects *)

Definition M (A : Type) : Type := State -> outcome A * State.

Definition ret {A} (a : A) : M A := fun st => (Ok a, st).

Definition bind {A B} (m : M A) (k : A -> M B) : M B :=
  fun st =>
    match m st with
    | (Ok a, st') => k a st'
    | (Raise e, st') => (Raise e, st')
    end.

Definition raise {A} (e : exn) : M A := fun st => (Raise e, st).

(** [try: body except Exception as e: handler(e)] *)
Definition try_except {A} (body : M A) (handler : exn -> M A) : M A :=
  fun st =>
    match body st with
    | (Ok a, st') => (Ok a, st')
    | (Raise e, st') => handler e st'
    end.

Declare Scope monad_scope.
Delimit Scope monad_scope with monad.
Notation "x <- c1 ;; c2" := (bind c1 (fun x => c2))
  (at level 61, c1 at next level, right associativity) : monad_scope.
Notation "' pat <- c1 ;; c2" := (bind c1 (fun x => match x with pat => c2 end))
  (at level 61, pat pattern, c1 at next level, right associativity) : monad_scope.
Notation "c1 ;; c2" := (bind c1 (fun _ => c2))
  (at level 61, right associativity) : monad_scope.
Open Scope monad_scope.

(** [if cond: body] with no [else]. *)
Definition when (cond : bool) (body : M unit) : M unit :=
  if cond then body else ret tt.

(** A comprehension whose element expression may raise. *)
Fixpoint map_M {A B} (f : A -> outcome B) (xs : list A) : outcome (list B) :=
  match xs with
  | [] => Ok []
  | x :: rest =>
    match f x with
    | Raise e => Raise e
    | Ok y =>
      match map_M f rest with
      | Raise e => Raise e
      | Ok ys => Ok (y :: ys)
      end
    end
  end.

Definition lift {A} (o : outcome A) : M A := fun st => (o, st).

(** ** Primitive effects *)

Definition with_console (c : list printed) (st : State) : State :=
  {| console := c; invoked := invoked st; ticks := ticks st;
     embedded := embedded st; saved_index := saved_index st;
     csv_files := csv_files st |}.

Definition with_invoked (i : list (Ollama * prompt)) (st : State) : State :=
  {| console := console st; invoked := i; ticks := ticks st;
     embedded := embedded st; saved_index := saved_index st;
     csv_files := csv_files st |}.

Definition with_ticks (n : nat) (st : State) : State :=
  {| console := console st; invoked := invoked st; ticks := n;
     embedded := embedded st; saved_index := saved_index st;
     csv_files := csv_files st |}.

Definition with_embedded (e : list str) (st : State) : State :=
  {| console := console st; invoked := invoked st; ticks := ticks st;
     embedded := e; saved_index := saved_index st;
     csv_files := csv_files st |}.

Definition with_saved_index (i : Disk) (st : State) : State :=
  {| console := console st; invoked := invoked st; ticks := ticks st;
     embedded := embedded st; saved_index := i;
     csv_files := csv_files st |}.

Definition with_csv_files (f : list (str * list Row)) (st : State) : State :=
  {| console := console st; invoked := invoked st; ticks := ticks st;
     embedded := embedded st; saved_index := saved_index st;
     csv_files := f |}.

(** [print(...)] *)
Definition print (p : printed) : M unit :=
  fun st => (Ok tt, with_console (console st ++ [p]) st).

(** [df.to_csv(nome_arquivo, index=False, encoding='utf-8-sig')] *)
Definition to_csv (rows : list Row) (nome_arquivo : str) : M unit :=
  fun st => (Ok tt, with_csv_files (csv_files st ++ [(nome_arquivo, rows)]) st).

(* ================================================================== *)
(** ** The program *)
(* ================================================================== *)

(** *** Configuration constants *)

Definition PDF_DIR : str := py "./base_tcc".
Definition FAISS_INDEX : str := py "faiss_index".
Definition CHUNK_SIZE : nat := 500.
Definition CHUNK_OVERLAP : nat := 100.
Definition EMBEDDINGS_MODEL : str := py "all-MiniLM-L6-v2".

(** *** The vector store *)

(** Modelled from the spec: the distance between two vectors (FAISS's flat
    L2 index: the squared Euclidean distance). *)
Fixpoint distance (u v : vector) : Q :=
  match u, v with
  | x :: u', y :: v' => ((x - y) * (x - y) + distance u' v')%Q
  | _, _ => 0%Q
  end.

(** Insertion in a list ordered by increasing [key]; equal keys keep the
    order of arrival. *)
Fixpoint insert_by {A} (key : A -> Q) (x : A) (l : list A) : list A :=
  match l with
  | [] => [x]
  | y :: r => if Qle_bool (key x) (key y) then x :: l else y :: insert_by key x r
  end.

Definition sort_by {A} (key : A -> Q) (l : list A) : list A :=
  fold_right (insert_by key) [] l.

(** Modelled from the spec: [vectorstore.similarity_search(query, k)],
    "returns the k nearest chunks by vector similarity, ordered from most to
    least similar" (all of them when the index holds fewer than [k]). *)
Definition similarity_search (vs : FAISS) (query : str) (k : nat) : list Document :=
  let q := embedding_function vs query in
  map fst (firstn k (sort_by (fun e => distance q (snd e)) (index_entries vs))).

(** *** The chunker *)

(** [CharacterTextSplitter(chunk_size=..., chunk_overlap=..., separator=...)] *)
Record CharacterTextSplitter : Type := {
  chunk_size : nat;
  chunk_overlap : nat;
  separator : str
}.

(** [text.split(sep)]: the units of the text between separators; [skip]
    counts the characters of a separator just met that are still to pass. *)
Fixpoint split_from (sep text : str) (skip : nat) : list str :=
  match text with
  | [] => [[]]
  | c :: r =>
    match skip with
    | S k => split_from sep r k
    | 0 =>
      if startswith text sep then [] :: split_from sep r (length sep - 1)
      else
        match split_from sep r 0 with
        | [] => [[c]]
        | u :: us => (c :: u) :: us
        end
    end
  end.

Definition split (text sep : str) : list str := split_from sep text 0.

(** A chunk in the making: the units carried over from the end of the
    previous chunk (the overlap), and the units that are new. *)
Definition Parte : Type := (list str * list str)%type.

Definition unidades (parte : Parte) : list str := fst parte ++ snd parte.

(** Modelled from the spec: what the Chunker (4.2) carries over to the next
    chunk.  The spec asks that "consecutive chunks from the same source
    overlap by the configured overlap length", with the line break as "the
    preferred split boundary".  This model cuts at line breaks only, so it
    does not always reach that length: it carries the longest run of whole
    trailing units of the chunk just closed that fits in [chunk_overlap]
    characters and leaves room, within [chunk_size], for the unit [u] that
    opens the next chunk -- fewer characters than the configured overlap,
    or none, when the trailing units are long.  How much the library
    itself carries over is not in the sources.  The properties of this
    file are stated over whatever chunks the splitter returns: none
    depends on how much is carried over. *)
Fixpoint carry_over (ts : CharacterTextSplitter) (current : list str) (u : str)
  : list str :=
  match current with
  | [] => []
  | _ :: resto =>
    if (length (join (separator ts) current) <=? chunk_overlap ts)
       && (length (join (separator ts) (current ++ [u])) <=? chunk_size ts)
    then current
    else carry_over ts resto u
  end.

(** Modelled from the spec: the Chunker (4.2; langchain's
    [CharacterTextSplitter], a third-party library absent from the
    sources).  "Splitting uses a designated separator (line break) as the
    preferred split boundary; a chunk must not exceed the configured size
    except when a single separator-delimited unit itself exceeds it (in
    which case the oversized unit is kept whole ...)."  Units are taken in
    order and never cut; a chunk grows by whole units while its text, the
    units joined by the separator, fits in [chunk_size]; when the next unit
    does not fit, the chunk is closed and the next one opens with
    [carry_over] followed by that unit. *)
Fixpoint merge_splits (ts : CharacterTextSplitter) (units : list str) (current : Parte)
  : list Parte :=
  match units with
  | [] =>
    match unidades current with
    | [] => []
    | _ :: _ => [current]
    end
  | u :: rest =>
    match unidades current with
    | [] => merge_splits ts rest ([], [u])
    | _ :: _ =>
      if chunk_size ts <? length (join (separator ts) (unidades current ++ [u]))
      then current :: merge_splits ts rest (carry_over ts (unidades current) u, [u])
      else merge_splits ts rest (fst current, snd current ++ [u])
    end
  end.

(** The chunks of a text, as runs of units. *)
Definition partes_do_texto (ts : CharacterTextSplitter) (text : str) : list Parte :=
  merge_splits ts (split text (separator ts)) ([], []).

(** [text_splitter.split_text(text)] *)
Definition split_text (ts : CharacterTextSplitter) (text : str) : list str :=
  map (fun parte => join (separator ts) (unidades parte)) (partes_do_texto ts text).

(** Modelled from the spec: [text_splitter.split_documents(documents)].
    Each document is cut on its own, and "metadata (source, page)
    propagates from the originating Document to every Chunk derived from
    it". *)
Definition split_documents (ts : CharacterTextSplitter) (documents : list Document)
  : list Document :=
  flat_map
    (fun d =>
       map (fun chunk => {| page_content := chunk; meta_source := meta_source d;
                            meta_page := meta_page d |})
           (split_text ts (page_content d)))
    documents.

Section Program.

Variable env : Env.

(** *** Primitive effects that consult the environment *)

(** [time.time()] *)
Definition time_time : M Q :=
  fun st => (Ok (clock env (ticks st)), with_ticks (S (ticks st)) st).

(** [llm.invoke(prompt)]: one call to the backend, logged. *)
Definition invoke (llm : Ollama) (p : prompt) : M str :=
  fun st =>
    (ollama env (length (invoked st)) llm p,
     with_invoked (invoked st ++ [(llm, p)]) st).

(** [HuggingFaceEmbeddings(model_name=...)] *)
Definition HuggingFaceEmbeddings (model_name : str) : str -> vector :=
  embed env model_name.

(** [os.path.exists(path)], for the path of an index folder. *)
Definition os_path_exists (path : str) : M bool :=
  fun st =>
    (Ok (match saved_index st path with Some _ => true | None => false end), st).

(** Modelled from the spec: [FAISS.load_local(folder, embeddings, ...)],
    "deserializes a previously persisted index without recomputation". *)
Definition FAISS_load_local (folder : str) (embeddings : str -> vector) : M FAISS :=
  fun st =>
    match saved_index st folder with
    | Some (Ok snapshot) =>
      (Ok {| embedding_function := embeddings; index_entries := snapshot |}, st)
    | Some (Raise e) => (Raise e, st)
    | None => (Raise (FileNotFoundError folder), st)
    end.

(** Modelled from the spec: [FAISS.from_documents(chunks, embeddings)],
    "creates a fresh index by embedding every chunk with a fixed embedding
    model and storing vectors with their originating Chunk metadata". *)
Definition FAISS_from_documents (chunks : list Document) (embeddings : str -> vector)
  : M FAISS :=
  fun st =>
    (Ok {| embedding_function := embeddings;
           index_entries := map (fun d => (d, embeddings (page_content d))) chunks |},
     with_embedded (embedded st ++ map page_content chunks) st).

(** Modelled from the spec: [vectorstore.save_local(folder)], "on first
    build, the index is saved under a configured identifier". *)
Definition save_local (vs : FAISS) (folder : str) : M unit :=
  fun st =>
    (Ok tt, with_saved_index (gravar folder (index_entries vs) (saved_index st)) st).

(** *** load_documents *)

(** The body of [for pdf_file in os.listdir(PDF_DIR)]: a file that fails to
    load is reported and skipped. *)
Fixpoint load_each (files : list (str * outcome (list Document)))
                   (documents : list Document) : M (list Document) :=
  match files with
  | [] => ret documents
  | (pdf_file, loaded) :: rest =>
    documents <-
      (if endswith pdf_file (py ".pdf") then
         try_except
           (print (PProcessando pdf_file) ;;
            pages <- lift loaded ;;
            ret (documents ++ pages))
           (fun e => print (PErroArquivo pdf_file (str_exn e)) ;; ret documents)
       else ret documents) ;;
    load_each rest documents
  end.

Definition load_documents : M (list Document) :=
  print PCarregandoProcessando ;;
  load_each (pdf_dir env) [].

(** *** setup_rag_system *)

(** [4 if model_name != "tinyllama" else 2] *)
Definition threads_for (model_name : str) : nat :=
  if negb (str_eqb model_name (py "tinyllama")) then 4 else 2.

Definition setup_rag_system (model_name : str) : M (option FAISS * option Ollama) :=
  if str_eqb model_name (py "llama2_raw") then ret (None, None)
  else
    print PConfigurandoRAG ;;
    let text_splitter :=
      {| chunk_size := CHUNK_SIZE; chunk_overlap := CHUNK_OVERLAP; separator := [LF] |} in
    documents <- load_documents ;;
    let chunks := split_documents text_splitter documents in
    let embeddings := HuggingFaceEmbeddings EMBEDDINGS_MODEL in
    exists_ <- os_path_exists FAISS_INDEX ;;
    vectorstore <-
      (if exists_ : bool then
         print PCarregandoIndice ;;
         FAISS_load_local FAISS_INDEX embeddings
       else
         print PCriandoIndice ;;
         vectorstore <- FAISS_from_documents chunks embeddings ;;
         save_local vectorstore FAISS_INDEX ;;
         ret vectorstore) ;;
    print (PInicializando model_name) ;;
    let llm := {| model := model_name; temperature := 3 # 10;
                  system := PersonaAcademico;
                  num_thread := Some (threads_for model_name) |} in
    ret (Some vectorstore, Some llm).

(** *** generate_response *)

(** [doc.metadata['source']] *)
Definition metadata_source (doc : Document) : outcome str :=
  match meta_source doc with
  | Some s => Ok s
  | None => Raise (KeyError (py "source"))
  end.

(** [doc.metadata.get('page', 'N/A')], formatted in an f-string *)
Definition metadata_page (doc : Document) : str :=
  match meta_page doc with
  | Some n => str_of_Z n
  | None => py "N/A"
  end.

(** One element of the context: "Fonte: ... (Página ...)\nConteúdo: ...\n------" *)
Definition trecho (doc : Document) : outcome str :=
  match metadata_source doc with
  | Raise e => Raise e
  | Ok source =>
    Ok (py "Fonte: " ++ basename source ++ py " (Página " ++ metadata_page doc ++ py ")"
        ++ [LF] ++ py "Conteúdo: " ++ page_content doc ++ [LF] ++ py "------")
  end.

(** The f-string of the prompt. *)
Definition montar_prompt (context question : str) : prompt :=
  py "Com base nestes trechos:" ++ [LF]
  ++ py "    " ++ context ++ [LF]
  ++ py "    Responda à pergunta abaixo com suas próprias palavras." ++ [LF]
  ++ py "    Pergunta: " ++ question.

Definition generate_response (question : str) (vectorstore : option FAISS)
                             (llm : option Ollama) : M (str * list Document * Q) :=
  start_time <- time_time ;;
  docs <- match vectorstore with
          | Some vs => ret (similarity_search vs question 5)
          | None => raise (AttributeError
                      (py "'NoneType' object has no attribute 'similarity_search'"))
          end ;;
  trechos <- lift (map_M trecho docs) ;;
  let context := join [LF; LF] trechos in
  let prompt := montar_prompt context question in
  response <- match llm with
              | Some llm => invoke llm prompt
              | None => raise (AttributeError
                          (py "'NoneType' object has no attribute 'invoke'"))
              end ;;
  now <- time_time ;;
  let elapsed_time := Py.round (now - start_time) 2 in
  ret (response, docs, elapsed_time).

(** *** generate_raw_response *)

(** [model_name] is [None] when the caller leaves the argument out: the
    default, ["llama2"], applies. *)
Definition generate_raw_response (question : str) (model_name : option str) : M (str * Q) :=
  let model_name := match model_name with Some m => m | None => py "llama2" end in
  start_time <- time_time ;;
  let llm := {| model := model_name; temperature := 3 # 10;
                system := PersonaTecnico; num_thread := None |} in
  response <- invoke llm question ;;
  now <- time_time ;;
  let elapsed_time := Py.round (now - start_time) 2 in
  ret (response, elapsed_time).

(** *** carregar_perguntas *)

(** [file.readline()]: the first line, or the empty string at end of file. *)
Definition readline (text : str) : str := hd [] (lines text).

(** The loop [for linha in file], run on the lines after the header.  It
    returns the questions and the last value of the variable [linha]
    ([None] as long as it is unbound). *)
Fixpoint ler_linhas (linhas : list str) (perguntas : list str) (linha : option str)
  : list str * option str :=
  match linhas with
  | [] => (perguntas, linha)
  | l :: resto =>
    let linha := strip l in
    if str_eqb linha (py "/end") then (perguntas, Some linha)
    else
      ler_linhas resto
        (match linha with [] => perguntas | _ :: _ => perguntas ++ [linha] end)
        (Some linha)
  end.

(** [open('perguntas.csv', 'r', encoding='utf-8')] and the reads: the text,
    or the exception raised. *)
Definition open_perguntas : M str :=
  match perguntas_csv env with
  | FileText text => ret text
  | FileMissing =>
    raise (FileNotFoundError
             (py "[Errno 2] No such file or directory: 'perguntas.csv'"))
  | FileUnreadable e => raise e
  end.

Definition carregar_perguntas : M (list str) :=
  try_except
    (text <- open_perguntas ;;
     let cabecalho := strip (readline text) in
     if negb (str_eqb cabecalho (py "Perguntas")) then
       print (PErroCabecalho cabecalho) ;;
       ret []
     else
       let '(perguntas, linha) := ler_linhas (tl (lines text)) [] None in
       match perguntas with
       | [] =>
         print PErroNenhumaPergunta ;;
         ret []
       | _ :: _ =>
         when (negb (length perguntas =? 100)) (print (PAvisoEsperadas100 (length perguntas))) ;;
         linha <- match linha with
                  | Some l => ret l
                  | None => raise (UnboundLocalError
                              (py "cannot access local variable 'linha'"))
                  end ;;
         when (negb (str_eqb linha (py "/end"))) (print PAvisoSemEnd) ;;
         print (PCarregadas (length perguntas)) ;;
         ret perguntas
       end)
    (fun e =>
       match e with
       | FileNotFoundError _ =>
         print PErroNaoEncontrado ;;
         print PCertifiqueSe ;;
         ret []
       | _ =>
         print (PErroInesperado (str_exn e)) ;;
         ret []
       end).

(** *** The exported "Fontes" field *)

(** ["; ".join(f"{os.path.basename(d.metadata['source'])} (p.{d.metadata.get('page', 'N/A')})"
    for d in docs)] *)
Definition fonte (d : Document) : outcome str :=
  match metadata_source d with
  | Raise e => Raise e
  | Ok source => Ok (basename source ++ py " (p." ++ metadata_page d ++ py ")")
  end.

Definition juntar_fontes (docs : list Document) : outcome str :=
  match map_M fonte docs with
  | Raise e => Raise e
  | Ok fontes => Ok (join (py "; ") fontes)
  end.

(** *** executar_bateria_testes *)

(** The row appended when the invocation raised. *)
Definition linha_erro (model_name pergunta : str) (e : exn) : Row :=
  {| Modelo := model_name; Pergunta := pergunta; Tempo := 0;
     Resposta := py "ERRO: " ++ str_exn e; Fontes := py "N/A" |}.

(** The [try] body of the ["llama2_raw"] branch, up to the row it appends:
    [generate_raw_response(pergunta)] is called without a model name. *)
Definition responder_raw (model_name pergunta : str) : M Row :=
  '(resposta, tempo) <- generate_raw_response pergunta None ;;
  ret {| Modelo := model_name; Pergunta := pergunta; Tempo := tempo;
         Resposta := firstn 2000 resposta;
         Fontes := py "N/A (resposta controle)" |}.

(** The [try] body of the RAG branch, up to the row it appends. *)
Definition responder_rag (model_name : str) (vectorstore : option FAISS)
                         (llm : option Ollama) (pergunta : str) : M Row :=
  start_time <- time_time ;;
  '(resposta, docs, tempo) <- generate_response pergunta vectorstore llm ;;
  fontes <- lift (juntar_fontes docs) ;;
  now <- time_time ;;
  ret {| Modelo := model_name; Pergunta := pergunta;
         Tempo := Py.round (now - start_time) 2;
         Resposta := firstn 2000 resposta; Fontes := fontes |}.

(** The loop [for i, pergunta in enumerate(perguntas, 1)], which the two
    branches of the source write out with a different [try] body
    ([responder]): the row is appended and its time printed, or the failure
    is printed and an error row appended. *)
Fixpoint bateria (responder : str -> M Row) (model_name : str)
                 (total_perguntas : nat) (i : nat)
                 (perguntas : list str) (resultados : list Row) : M (list Row) :=
  match perguntas with
  | [] => ret resultados
  | pergunta :: resto =>
    print (PProgresso i total_perguntas) ;;
    print (PPergunta (firstn 70 pergunta)) ;;
    resultados <-
      try_except
        (linha <- responder pergunta ;;
         print (PRespondido (Tempo linha)) ;;
         ret (resultados ++ [linha]))
        (fun e =>
           print (PErro (str_exn e)) ;;
           ret (resultados ++ [linha_erro model_name pergunta e])) ;;
    bateria responder model_name total_perguntas (S i) resto resultados
  end.

(** [len([r for r in resultados if not r['Resposta'].startswith('ERRO')])] *)
Definition respondidas (resultados : list Row) : nat :=
  length (filter (fun r => negb (startswith (Resposta r) (py "ERRO"))) resultados).

Definition executar_bateria_testes (model_name : str) : M unit :=
  perguntas <- carregar_perguntas ;;
  match perguntas with
  | [] => ret tt
  | _ :: _ =>
    '(resultados, total_perguntas) <-
      (if str_eqb model_name (py "llama2_raw") then
         print (PIniciandoSemDocumentos model_name (length perguntas)) ;;
         let total_perguntas := length perguntas in
         resultados <- bateria (responder_raw model_name) model_name
                               total_perguntas 1 perguntas [] ;;
         ret (resultados, total_perguntas)
       else
         '(vectorstore, llm) <- setup_rag_system model_name ;;
         print (PIniciando model_name (length perguntas)) ;;
         let total_perguntas := length perguntas in
         resultados <- bateria (responder_rag model_name vectorstore llm) model_name
                               total_perguntas 1 perguntas [] ;;
         ret (resultados, total_perguntas)) ;;
    let timestamp := strftime_now env (py "%Y%m%d_%H%M") in
    let nome_arquivo := py "resultados_" ++ model_name ++ py "_" ++ timestamp ++ py ".csv" in
    to_csv resultados nome_arquivo ;;
    print (PArquivoSalvo nome_arquivo) ;;
    print (PTotalRespondidas (respondidas resultados) total_perguntas)
  end.

(** *** benchmark_interativo *)

(** [question[:80] + ("..." if len(question) > 80 else "")] *)
Definition pergunta_truncada (question : str) : str :=
  firstn 80 question ++ (if 80 <? length question then py "..." else []).

(** [response.strip()[:500] + ("..." if len(response) > 500 else "")] *)
Definition resposta_truncada (response : str) : str :=
  firstn 500 (strip response) ++ (if 500 <? length response then py "..." else []).

(** The [try] body of step 1 (the control configuration), up to the row it
    stores. *)
Definition responder_controle (question : str) : M Row :=
  '(response, tempo) <- generate_raw_response question None ;;
  ret {| Modelo := py "llama2 (CONTROLE)";
         Pergunta := pergunta_truncada question;
         Tempo := tempo;
         Resposta := resposta_truncada response;
         Fontes := py "N/A (resposta controle)" |}.

(** The [try] body of step 2 (one RAG configuration), up to the row it
    stores. *)
Definition responder_modelo (vectorstore : FAISS) (question : str)
                            (model_name nome_exibicao : str) : M Row :=
  let llm := {| model := model_name; temperature := 3 # 10;
                system := PersonaAcademico;
                num_thread := Some (threads_for model_name) |} in
  '(response, docs, tempo) <- generate_response question (Some vectorstore) (Some llm) ;;
  fontes <- lift (juntar_fontes docs) ;;
  ret {| Modelo := nome_exibicao;
         Pergunta := pergunta_truncada question;
         Tempo := tempo;
         Resposta := resposta_truncada response;
         Fontes := fontes |}.

(** One configuration of the comparison, as both steps of the source write
    it: announce, respond, store the row and print its time; on a failure,
    print it and go on. *)
Definition testar (nome : str) (responder : M Row) (df_resultados : list Row)
  : M (list Row) :=
  try_except
    (print (PTestando nome) ;;
     linha <- responder ;;
     print (POkModelo nome (Tempo linha)) ;;
     ret (df_resultados ++ [linha]))
    (fun e =>
       print (PFalha nome (str_exn e)) ;;
       ret df_resultados).

Definition modelos_rag : list (str * str) :=
  [ (py "mistral", py "Mistral (RAG)");
    (py "llama2", py "Llama2 (RAG)");
    (py "tinyllama", py "TinyLlama (RAG)") ].

(** [for model_name, nome_exibicao in modelos_rag] *)
Fixpoint testar_modelos (vectorstore : FAISS) (question : str)
                        (modelos : list (str * str)) (df_resultados : list Row)
  : M (list Row) :=
  match modelos with
  | [] => ret df_resultados
  | (model_name, nome_exibicao) :: resto =>
    df_resultados <-
      testar nome_exibicao
             (responder_modelo vectorstore question model_name nome_exibicao)
             df_resultados ;;
    testar_modelos vectorstore question resto df_resultados
  end.

(** One question through the four configurations. *)
Definition comparar (vectorstore : FAISS) (question : str) (df_resultados : list Row)
  : M (list Row) :=
  print PProcessandoModelos ;;
  df_resultados <-
    testar (py "llama2 (CONTROLE)") (responder_controle question) df_resultados ;;
  testar_modelos vectorstore question modelos_rag df_resultados.

(** The loop [while True], on the lines that [input()] returns, in order;
    [input()] raises [EOFError] when there is none left. *)
Fixpoint loop_perguntas (vectorstore : FAISS) (entrada : list str)
                        (df_resultados : list Row) : M (list Row) :=
  print PDigitePergunta ;;
  match entrada with
  | [] => raise EOFError
  | digitado :: resto =>
    let question := strip digitado in
    if str_eqb (lower question) (py "sair") then ret df_resultados
    else
      df_resultados <- comparar vectorstore question df_resultados ;;
      loop_perguntas vectorstore resto df_resultados
  end.

(** The set-up of the comparative mode: corpus, chunks, vector store. *)
Definition preparar_benchmark : M FAISS :=
  print PModoBenchmark ;;
  print PTestaraSequencialmente ;;
  print PCarregandoDocumentos ;;
  documents <- load_documents ;;
  print PPreparandoEmbeddings ;;
  let text_splitter :=
    {| chunk_size := CHUNK_SIZE; chunk_overlap := CHUNK_OVERLAP; separator := [LF] |} in
  let chunks := split_documents text_splitter documents in
  let embeddings := HuggingFaceEmbeddings EMBEDDINGS_MODEL in
  print PConfigurandoVectorstore ;;
  exists_ <- os_path_exists FAISS_INDEX ;;
  if exists_ : bool then
    FAISS_load_local FAISS_INDEX embeddings
  else
    vectorstore <- FAISS_from_documents chunks embeddings ;;
    save_local vectorstore FAISS_INDEX ;;
    ret vectorstore.

(** The end of the comparative mode: the export. *)
Definition salvar_benchmark (df_resultados : list Row) : M unit :=
  match df_resultados with
  | _ :: _ =>
    let timestamp := strftime_now env (py "%Y%m%d_%H%M%S") in
    let nome_arquivo := py "benchmark_" ++ timestamp ++ py ".csv" in
    to_csv df_resultados nome_arquivo ;;
    print PResultados ;;
    print (PTabela (map (fun r => (Modelo r, Tempo r)) df_resultados)) ;;
    print (PRelatorioSalvo nome_arquivo)
  | [] => print PNenhumDado
  end.

(** [entrada]: the lines the user types at the prompt. *)
Definition benchmark_interativo (entrada : list str) : M unit :=
  vectorstore <- preparar_benchmark ;;
  df_resultados <- loop_perguntas vectorstore entrada [] ;;
  salvar_benchmark df_resultados.

End Program.

(* ================================================================== *)
(** ** The interactive functions *)
(* ================================================================== *)

(** [select_model] and [main] talk to the user: they read lines from the
    keyboard with [input] and print menus and answers.  Their effects on
    the terminal are kept in a record of their own, beside the [State] of
    the functions they call. *)

(** What [select_model] and [main] print: one constructor per [print] and
    per prompt of [input]. *)
Inductive exibido : Type :=
(* select_model *)
| EModelosDisponiveis                 (* "🔍 Modelos LLM disponíveis:" *)
| EModelo (i : nat) (name desc : str) (* "{i}. {name.ljust(10)} - {desc}" *)
| ESelecione (n : nat)                (* the prompt "Selecione o modelo (1-{n}): " *)
| ENaoEncontrado (selected : str)     (* "❌ Modelo '{selected}' não encontrado. Baixe com: ollama pull {selected}" *)
| EOpcaoInvalida                      (* "⚠️ Opção inválida!" *)
| EApenasNumeros                      (* "⚠️ Digite apenas números!" *)
(* main *)
| EReguaAbre                          (* "\n" + "="*50 *)
| ETitulo                             (* "SISTEMA DE COMPARAÇÃO DE MODELOS LLM".center(50) *)
| EReguaFecha                         (* "="*50 *)
| ESelecioneModo                      (* "Selecione o modo de operação:" *)
| EModoNormal                         (* "1. Modo normal (uso individual)" *)
| EModoBenchmark                      (* "2. Benchmark comparativo (testar todos os modelos)" *)
| EModoBateria                        (* "3. Bateria de testes" *)
| EModoSair                           (* "4. Sair" *)
| EDigiteModo                         (* the prompt "Digite o modo desejado (1/2/3/4): " *)
| EConfiguracao                       (* "🛠️  Configuração do Sistema" *)
| EProntoSemDocumentos (model_name : str)
                                      (* "✅ Sistema pronto! Modelo: {model_name} (sem documentos)" *)
| EPronto (model_name : str)          (* "✅ Sistema pronto! Modelo: {model_name}" *)
| EDigitePerguntas                    (* "🔍 Digite suas perguntas ou 'sair' para voltar ao menu." *)
| EPergunta                           (* the prompt "❓ Pergunta: " *)
| EProcessando                        (* "⏳ Processando..." *)
| EResposta (time_sec : Q)            (* "💡 Resposta ({time_sec}s):" *)
| ETexto (response : str)             (* print(response) *)
| EFontesUtilizadas                   (* "📚 Fontes utilizadas:" *)
| EFonte (source page : str)          (* "- {source} (página {page})" *)
| EErro (e : str)                     (* "❌ Erro: {str(e)}" *)
| EDica                               (* "Dica: Verifique se o servidor Ollama está rodando ('ollama serve')" *)
| EFalhaTestes (e : str)              (* "❌ Falha durante os testes: {str(e)}" *)
| EPossiveisCausas                    (* "Possíveis causas:" *)
| ECausaDocumentos                    (* "- Documentos não encontrados no diretório especificado" *)
| ECausaIndice                        (* "- Índice FAISS corrompido" *)
| ECausaOllama                        (* "- Problema de conexão com o Ollama" *)
| EEncerrando                         (* "👋 Encerrando o programa..." *)
| EModoInvalido.                      (* "⚠️ Opção inválida! Digite um número entre 1 e 4." *)

(** The terminal of a session. *)
Record Terminal : Type := {
  (** the lines still to come from the keyboard, each without its line end *)
  teclado : list str;
  (** what [select_model] and [main] printed, oldest first; each message
      comes with the number of messages the [console] held when it was
      printed, which places it among those of the functions called *)
  tela : list (nat * exibido);
  (** the models [select_model] tested so far, oldest first *)
  testados : list str
}.

(** ** The monad of the interactive functions *)

(** A computation on the terminal and on the state; the terminal is kept
    when an exception is raised. *)
Definition T (A : Type) : Type := Terminal -> State -> outcome A * Terminal * State.

Definition retT {A} (a : A) : T A := fun t st => (Ok a, t, st).

Definition bindT {A B} (m : T A) (k : A -> T B) : T B :=
  fun t st =>
    match m t st with
    | (Ok a, t', st') => k a t' st'
    | (Raise e, t', st') => (Raise e, t', st')
    end.

(** [try: body except Exception as e: handler(e)] *)
Definition try_exceptT {A} (body : T A) (handler : exn -> T A) : T A :=
  fun t st =>
    match body t st with
    | (Ok a, t', st') => (Ok a, t', st')
    | (Raise e, t', st') => handler e t' st'
    end.

(** A call of one of the functions above. *)
Definition correr {A} (c : M A) : T A :=
  fun t st => let '(r, st') := c st in (r, t, st').

Declare Scope terminal_scope.
Delimit Scope terminal_scope with terminal.
Notation "x <- c1 ;; c2" := (bindT c1 (fun x => c2))
  (at level 61, c1 at next level, right associativity) : terminal_scope.
Notation "' pat <- c1 ;; c2" := (bindT c1 (fun x => match x with pat => c2 end))
  (at level 61, pat pattern, c1 at next level, right associativity) : terminal_scope.
Notation "c1 ;; c2" := (bindT c1 (fun _ => c2))
  (at level 61, right associativity) : terminal_scope.
Open Scope terminal_scope.

Definition with_teclado (k : list str) (t : Terminal) : Terminal :=
  {| teclado := k; tela := tela t; testados := testados t |}.

Definition with_tela (s : list (nat * exibido)) (t : Terminal) : Terminal :=
  {| teclado := teclado t; tela := s; testados := testados t |}.

Definition with_testados (m : list str) (t : Terminal) : Terminal :=
  {| teclado := teclado t; tela := tela t; testados := m |}.

(** [print(...)] in [select_model] and [main]. *)
Definition exibir (m : exibido) : T unit :=
  fun t st => (Ok tt, with_tela (tela t ++ [(length (console st), m)]) t, st).

(** [input(prompt)]: the prompt is printed and a line is read;
    [EOFError] when the keyboard has no more lines. *)
Definition input (prompt : exibido) : T str :=
  fun t st =>
    let t := with_tela (tela t ++ [(length (console st), prompt)]) t in
    match teclado t with
    | [] => (Raise EOFError, t, st)
    | linha :: resto => (Ok linha, with_teclado resto t, st)
    end.

(** [if cond: body] with no [else]. *)
Definition whenT (cond : bool) (body : T unit) : T unit :=
  if cond then body else retT tt.

(** [for x in xs: body] *)
Fixpoint para_cada {A} (body : A -> T unit) (xs : list A) : T unit :=
  match xs with
  | [] => retT tt
  | x :: resto => body x ;; para_cada body resto
  end.

(** The rounds of a loop [while True]: a round that ends with [None] is
    followed by the next one ([continue], or the end of the body), a round
    that ends with [Some a] leaves the loop with [a] ([break], [return]). *)
Definition continue {A} : T (option A) := retT None.
Definition sair_com {A} (a : A) : T (option A) := retT (Some a).

(** At most [rounds] rounds of a loop. *)
Fixpoint voltas {A} (rounds : nat) (body : T (option A)) : T A :=
  match rounds with
  | 0 => fun t st => (Raise EOFError, t, st)
  | S rounds =>
    r <- body ;;
    match r with
    | Some a => retT a
    | None => voltas rounds body
    end
  end.

(** [while True: body], for a body that begins by reading a line, as those
    of this program all do.  Such a loop ends when its body leaves it,
    when an exception leaves its body, or when [input] finds the keyboard
    exhausted and raises [EOFError]: it runs at most one round more than
    there are lines to read. *)
Definition while_True {A} (body : T (option A)) : T A :=
  fun t st => voltas (S (length (teclado t))) body t st.

(** *** int *)

(** The characters [int] takes for white space around a number: those of
    [isspace], but for the four ASCII separators 0x1C-0x1F. *)
Definition int_isspace (c : char) : bool :=
  (isspace c && negb ((28 <=? c) && (c <=? 31)))%N.

Fixpoint int_lstrip (s : str) : str :=
  match s with
  | [] => []
  | c :: r => if int_isspace c then int_lstrip r else s
  end.

(** What [int] depends on in the interpreter that runs the program. *)
Record Interpreter : Type := {
  (** the decimal value of the code points beyond ASCII that are decimal
      digits, as the Unicode database of the interpreter gives it *)
  todecimal : char -> option Z;
  (** [sys.get_int_max_str_digits()]: the greatest number of digits [int]
      converts (4300 unless configured), or 0 when there is no limit *)
  int_max_str_digits : nat
}.

Section Inteiros.

Variable interp : Interpreter.

Definition int_digit (c : char) : option Z :=
  if (c <? 127)%N then
    if ((48 <=? c) && (c <=? 57))%N then Some (Z.of_N c - 48)%Z else None
  else if isspace c then None
  else todecimal interp c.

(** The digits of a number, with single underscores between digits, and
    the white space that may follow them: the value and the number of
    digits.  [prev] tells whether the character before was a digit. *)
Fixpoint int_digits (s : str) (acc : Z) (digits : nat) (prev : bool) : option (Z * nat) :=
  match s with
  | [] => if prev then Some (acc, digits) else None
  | c :: r =>
    if (c =? 95)%N then
      if prev then int_digits r acc digits false else None
    else
      match int_digit c with
      | Some d => int_digits r (10 * acc + d)%Z (S digits) true
      | None => if prev && forallb int_isspace s then Some (acc, digits) else None
      end
  end.

(** A number without its sign; one of more digits than the limit of the
    interpreter (which is checked beyond 640 digits) is refused. *)
Definition int_number (s : str) : option Z :=
  match int_digits s 0 0 false with
  | Some (n, digits) =>
    if (640 <? digits) && (0 <? int_max_str_digits interp)
       && (int_max_str_digits interp <? digits)
    then None
    else Some n
  | None => None
  end.

(** [int(s)] for a string, in base 10: white space, an optional sign, the
    digits, white space.  [None] stands for the [ValueError] raised on any
    other string. *)
Definition int (s : str) : option Z :=
  match int_lstrip s with
  | [] => None
  | c :: r =>
    if (c =? 43)%N then int_number r
    else if (c =? 45)%N then option_map Z.opp (int_number r)
    else int_number (c :: r)
  end.

End Inteiros.

(** *** Configuration: the models offered *)

(** [AVAILABLE_MODELS], a dictionary in the order of its keys. *)
Definition AVAILABLE_MODELS : list (str * str) :=
  [ (py "mistral", py "Mistral (4.4GB) - Melhor qualidade para tarefas complexas");
    (py "llama2", py "Llama 2 (3.8GB) - Equilíbrio entre qualidade e desempenho");
    (py "tinyllama", py "TinyLlama (637MB) - Leve e rápido, para testes rápidos");
    (py "llama2_raw", py "Llama 2 Controle (3.8GB) - Sem documentos (usa Llama 2 puro)") ].

(** [enumerate(xs, start)] *)
Fixpoint enumerate {A} (start : nat) (xs : list A) : list (nat * A) :=
  match xs with
  | [] => []
  | x :: resto => (start, x) :: enumerate (S start) resto
  end.

(** The lines that [benchmark_interativo] leaves on the keyboard: those
    that follow the first line that says "sair". *)
Fixpoint depois_de_sair (entrada : list str) : list str :=
  match entrada with
  | [] => []
  | digitado :: resto =>
    if str_eqb (lower (strip digitado)) (py "sair") then resto
    else depois_de_sair resto
  end.

Section Interativo.

Variable env : Env.

(** What the backend answers to [Ollama(model=selected).invoke("Teste")],
    the object being built with the defaults of the library for all but
    the name of the model: the answer to the [n]-th such test (counted
    from 0), a text or a failure. *)
Variable teste : nat -> str -> outcome str.

Variable interp : Interpreter.

(** [Ollama(model=selected).invoke("Teste")] *)
Definition invoke_Teste (selected : str) : T str :=
  fun t st =>
    (teste (length (testados t)) selected,
     with_testados (testados t ++ [selected]) t, st).

(** *** select_model *)

(** One round of the loop of [select_model].  The [try] catches
    [ValueError], which only [int] can raise there: the test of the model
    has a handler of its own for every exception, and the [EOFError] of
    [input] is not a [ValueError]. *)
Definition escolher : T (option str) :=
  digitado <- input (ESelecione (length AVAILABLE_MODELS)) ;;
  match int interp digitado with
  | None =>
    exibir EApenasNumeros ;;
    continue
  | Some choice =>
    if ((1 <=? choice) && (choice <=? Z.of_nat (length AVAILABLE_MODELS)))%Z then
      let selected := nth (Z.to_nat (choice - 1)) (map fst AVAILABLE_MODELS) [] in
      if str_eqb selected (py "llama2_raw") then sair_com selected
      else
        try_exceptT
          (invoke_Teste selected ;;
           sair_com selected)
          (fun _ =>
             exibir (ENaoEncontrado selected) ;;
             continue)
    else
      exibir EOpcaoInvalida ;;
      continue
  end.

Definition select_model : T str :=
  exibir EModelosDisponiveis ;;
  para_cada (fun '(i, (name, desc)) => exibir (EModelo i name desc))
            (enumerate 1 AVAILABLE_MODELS) ;;
  while_True escolher.

(** *** main *)

(** One round of the question loop of the individual mode, for the model
    "llama2_raw". *)
Definition perguntar_raw : T (option unit) :=
  digitado <- input EPergunta ;;
  let question := strip digitado in
  if str_eqb (lower question) (py "sair") then sair_com tt
  else
    try_exceptT
      (exibir EProcessando ;;
       '(response, time_sec) <- correr (generate_raw_response env question None) ;;
       exibir (EResposta time_sec) ;;
       exibir (ETexto response))
      (fun e =>
         exibir (EErro (str_exn e)) ;;
         exibir EDica) ;;
    continue.

(** [print(f"- {os.path.basename(doc.metadata['source'])} (página {doc.metadata.get('page', 'N/A')})")] *)
Definition exibir_fonte (doc : Document) : T unit :=
  source <- correr (lift (metadata_source doc)) ;;
  exibir (EFonte (basename source) (metadata_page doc)).

(** One round of the question loop of the individual mode, for a model
    with documents. *)
Definition perguntar_rag (vectorstore : option FAISS) (llm : option Ollama)
  : T (option unit) :=
  digitado <- input EPergunta ;;
  let question := strip digitado in
  if str_eqb (lower question) (py "sair") then sair_com tt
  else
    try_exceptT
      (exibir EProcessando ;;
       '(response, docs, time_sec) <-
          correr (generate_response env question vectorstore llm) ;;
       exibir (EResposta time_sec) ;;
       exibir (ETexto response) ;;
       exibir EFontesUtilizadas ;;
       para_cada exibir_fonte docs)
      (fun e =>
         exibir (EErro (str_exn e)) ;;
         exibir EDica) ;;
    continue.

(** The individual mode (choice "1"). *)
Definition modo_normal : T unit :=
  exibir EConfiguracao ;;
  model_name <- select_model ;;
  if str_eqb model_name (py "llama2_raw") then
    exibir (EProntoSemDocumentos model_name) ;;
    exibir EDigitePerguntas ;;
    while_True perguntar_raw
  else
    '(vectorstore, llm) <- correr (setup_rag_system env model_name) ;;
    exibir (EPronto model_name) ;;
    exibir EDigitePerguntas ;;
    while_True (perguntar_rag vectorstore llm).

(** The comparative mode (choice "2"): [benchmark_interativo()], which
    reads the lines up to the first that says "sair". *)
Definition modo_benchmark : T unit :=
  fun t st =>
    let '(r, st') := benchmark_interativo env (teclado t) st in
    (r, with_teclado (depois_de_sair (teclado t)) t, st').

(** The batch mode (choice "3"). *)
Definition modo_bateria : T unit :=
  model_name <- select_model ;;
  try_exceptT
    (correr (executar_bateria_testes env model_name))
    (fun e =>
       exibir (EFalhaTestes (str_exn e)) ;;
       whenT (negb (str_eqb model_name (py "llama2_raw")))
             (exibir EPossiveisCausas ;;
              exibir ECausaDocumentos ;;
              exibir ECausaIndice ;;
              exibir ECausaOllama)).

(** One round of the menu. *)
Definition menu : T (option unit) :=
  digitado <- input EDigiteModo ;;
  let escolha := strip digitado in
  if str_eqb escolha (py "1") then
    modo_normal ;;
    continue
  else if str_eqb escolha (py "2") then
    modo_benchmark ;;
    continue
  else if str_eqb escolha (py "3") then
    modo_bateria ;;
    continue
  else if str_eqb escolha (py "4") then
    exibir EEncerrando ;;
    sair_com tt
  else
    exibir EModoInvalido ;;
    continue.

Definition main : T unit :=
  exibir EReguaAbre ;;
  exibir ETitulo ;;
  exibir EReguaFecha ;;
  exibir ESelecioneModo ;;
  exibir EModoNormal ;;
  exibir EModoBenchmark ;;
  exibir EModoBateria ;;
  exibir EModoSair ;;
  while_True menu.

End Interativo.

Close Scope terminal_scope.

(* ================================================================== *)
(** ** Notions the properties are stated with *)
(* ================================================================== *)

(** An empty world: nothing printed, nothing invoked, nothing on disk. *)
Definition estado_inicial : State :=
  {| console := []; invoked := []; ticks := 0; embedded := [];
     saved_index := fun _ => None; csv_files := [] |}.

(** [s != ""] *)
Definition nao_vazia (s : str) : bool :=
  match s with
  | [] => false
  | _ :: _ => true
  end.

(** [l.strip() == "/end"] *)
Definition marca_end (l : str) : bool := str_eqb (strip l) (py "/end").

(** The lines that come before the first ["/end"] marker line. *)
Fixpoint antes_do_end (linhas : list str) : list str :=
  match linhas with
  | [] => []
  | l :: resto => if marca_end l then [] else l :: antes_do_end resto
  end.

(** The questions a file holds, as its format defines them: the lines
    after the header and before the first ["/end"] marker, stripped, the
    blank ones left out. *)
Definition perguntas_do_texto (text : str) : list str :=
  filter nao_vazia (map strip (antes_do_end (tl (lines text)))).

(** What [carregar_perguntas] prints for a file with a valid header. *)
Definition mensagens_do_texto (text : str) : list printed :=
  let perguntas := perguntas_do_texto text in
  match perguntas with
  | [] => [PErroNenhumaPergunta]
  | _ :: _ =>
    (if length perguntas =? 100 then [] else [PAvisoEsperadas100 (length perguntas)])
    ++ (if existsb marca_end (tl (lines text)) then [] else [PAvisoSemEnd])
    ++ [PCarregadas (length perguntas)]
  end.

(** The question file yields no question: it is missing or unreadable, its
    header is wrong, or it holds no question line. *)
Definition sem_perguntas (env : Env) : Prop :=
  match perguntas_csv env with
  | FileMissing => True
  | FileUnreadable _ => True
  | FileText text =>
    strip (readline text) <> py "Perguntas" \/ perguntas_do_texto text = []
  end.

(** The element of the context a document gives when its source is known. *)
Definition trecho_texto (doc : Document) : str :=
  py "Fonte: " ++ basename (match meta_source doc with Some s => s | None => [] end)
  ++ py " (Página " ++ metadata_page doc ++ py ")"
  ++ [LF] ++ py "Conteúdo: " ++ page_content doc ++ [LF] ++ py "------".

(** The "source (p.page)" pair of a document whose source is known. *)
Definition fonte_texto (d : Document) : str :=
  basename (match meta_source d with Some s => s | None => [] end)
  ++ py " (p." ++ metadata_page d ++ py ")".

(** [a] is at least as similar to the query vector [q] as [b]. *)
Definition mais_similar (q : vector) (a b : Document * vector) : Prop :=
  (distance q (snd a) <= distance q (snd b))%Q.

(** The outcomes the console reports for the configurations of the
    comparative mode, in order: each "✅ {nome} | {tempo}s" as [(nome, true)],
    each "❌ Falha em {nome}: ..." as [(nome, false)]. *)
Fixpoint desfechos (msgs : list printed) : list (str * bool) :=
  match msgs with
  | [] => []
  | POkModelo nome _ :: resto => (nome, true) :: desfechos resto
  | PFalha nome _ :: resto => (nome, false) :: desfechos resto
  | _ :: resto => desfechos resto
  end.

(** The display names of the four configurations, in the order the
    comparative mode runs them. *)
Definition nomes_exibicao : list str :=
  py "llama2 (CONTROLE)" :: map snd modelos_rag.

(** The bounds of a row of the comparative mode: 80 characters of question
    and 500 of response, each with room for the "..." mark. *)
Definition truncada (r : Row) : Prop :=
  length (Pergunta r) <= 83 /\ length (Resposta r) <= 503.

(** [c] extends the table it is given with one row for each configuration
    that answered, and no other: it returns, the console reports an outcome
    for each of [nomes] in order, and the rows added carry the names of the
    outcomes that are successes, within the bounds of [truncada]. *)
Definition regista (c : list Row -> M (list Row)) (nomes : list str) : Prop :=
  forall df st,
  exists novas msgs st',
    c df st = (Ok (df ++ novas), st')
    /\ console st' = console st ++ msgs
    /\ map fst (desfechos msgs) = nomes
    /\ map Modelo novas = map fst (filter snd (desfechos msgs))
    /\ Forall truncada novas
    /\ csv_files st' = csv_files st.

(** A responder of the comparative mode prints nothing, leaves the exports
    alone, and returns rows that carry [nome], within the bounds. *)
Definition responder_quieto (responder : M Row) (nome : str) : Prop :=
  forall st,
    console (snd (responder st)) = console st
    /\ csv_files (snd (responder st)) = csv_files st
    /\ forall linha, fst (responder st) = Ok linha ->
         Modelo linha = nome /\ truncada linha.

(** [question.lower() == 'sair'] for the line typed, stripped. *)
Definition e_sair (digitado : str) : bool :=
  str_eqb (lower (strip digitado)) (py "sair").

(** The name of the export of the comparative mode. *)
Definition nome_benchmark (env : Env) : str :=
  py "benchmark_" ++ strftime_now env (py "%Y%m%d_%H%M%S") ++ py ".csv".

(** The object [generate_raw_response] builds when no model name is given. *)
Definition llm_controle : Ollama :=
  {| model := py "llama2"; temperature := 3 # 10;
     system := PersonaTecnico; num_thread := None |}.

(** What the disk holds and what was embedded: the parts of the state that
    answering a question leaves alone. *)
Definition mesmo_disco (st st' : State) : Prop :=
  csv_files st' = csv_files st
  /\ saved_index st' = saved_index st
  /\ embedded st' = embedded st.

(** A responder is faithful to a model name when the row it returns for a
    question carries that name, that question, and a response of at most
    2000 characters, and when it leaves the disk alone whether it returns
    or raises. *)
Definition responder_fiel (responder : str -> M Row) (model_name : str) : Prop :=
  forall pergunta st,
    mesmo_disco st (snd (responder pergunta st))
    /\ forall linha, fst (responder pergunta st) = Ok linha ->
         Modelo linha = model_name /\ Pergunta linha = pergunta
         /\ length (Resposta linha) <= 2000.

(** What a row of the batch export holds as its response: at most 2000
    characters of an answer, or the error marker followed by the message. *)
Definition resposta_da_bateria (r : Row) : Prop :=
  length (Resposta r) <= 2000 \/ exists e, Resposta r = py "ERRO: " ++ str_exn e.

(** The state in which the [try] body of a question starts: the progress
    and the excerpt of the question have been printed. *)
Definition anunciada (total_perguntas i : nat) (pergunta : str) (st : State) : State :=
  with_console
    (console st ++ [PProgresso i total_perguntas; PPergunta (firstn 70 pergunta)]) st.

(** The pages of the files of the corpus directory that are PDFs and load. *)
Fixpoint documentos_do_corpus (files : list (str * outcome (list Document)))
  : list Document :=
  match files with
  | [] => []
  | (pdf_file, loaded) :: rest =>
    (if endswith pdf_file (py ".pdf")
     then match loaded with Ok pages => pages | Raise _ => [] end
     else [])
    ++ documentos_do_corpus rest
  end.

(** The chunks of the corpus, as the splitter configured by the program
    cuts them. *)
Definition chunks_do_corpus (env : Env) : list Document :=
  split_documents
    {| chunk_size := CHUNK_SIZE; chunk_overlap := CHUNK_OVERLAP; separator := [LF] |}
    (documentos_do_corpus (pdf_dir env)).

(** The store [FAISS.load_local] returns for a snapshot. *)
Definition indice_carregado (env : Env) (snapshot : Snapshot) : FAISS :=
  {| embedding_function := embed env EMBEDDINGS_MODEL; index_entries := snapshot |}.

(** The store [FAISS.from_documents] builds from the chunks of the corpus. *)
Definition indice_criado (env : Env) : FAISS :=
  {| embedding_function := embed env EMBEDDINGS_MODEL;
     index_entries :=
       map (fun d => (d, embed env EMBEDDINGS_MODEL (page_content d)))
           (chunks_do_corpus env) |}.

(** The [Ollama] object of a RAG configuration. *)
Definition llm_rag (model_name : str) : Ollama :=
  {| model := model_name; temperature := 3 # 10; system := PersonaAcademico;
     num_thread := Some (threads_for model_name) |}.

(** The name of the export. *)
Definition nome_resultados (env : Env) (model_name : str) : str :=
  py "resultados_" ++ model_name ++ py "_" ++ strftime_now env (py "%Y%m%d_%H%M")
  ++ py ".csv".

(** A line that neither starts nor ends with white space. *)
Definition limpa (l : str) : Prop := lstrip l = l /\ lstrip (rev l) = rev l.

(** The file that holds one question, a run of [n + 1] letters "a". *)
Definition pergunta_longa (n : nat) : str := repeat 97%N (S n).

(* ================================================================== *)
(** ** Example worlds *)
(* ================================================================== *)

(** A text file given by its lines. *)
Definition texto_de_linhas (linhas : list str) : str :=
  concat (map (fun l => l ++ [LF]) linhas).

Definition texto_tres_perguntas : str :=
  texto_de_linhas
    [py "Perguntas"; py "O que e o Wi-Fi 7?"; py "Qual a largura maxima de canal?";
     py "O que e MLO?"; py "/end"].

Definition texto_sem_perguntas : str := texto_de_linhas [py "Perguntas"; py "/end"].

(** Two pages of a two-file corpus. *)
Definition docA : Document :=
  {| page_content := py "Wi-Fi 7 is IEEE 802.11be";
     meta_source := Some (py "./base_tcc/doc1.pdf"); meta_page := Some 1%Z |}.

Definition docB : Document :=
  {| page_content := py "Zigbee";
     meta_source := Some (py "./base_tcc/doc2.pdf"); meta_page := Some 2%Z |}.

(** A backend that answers every prompt. *)
Definition backend_ok : nat -> Ollama -> prompt -> outcome str :=
  fun _ _ _ => Ok (py "O Wi-Fi 7 e o padrao IEEE 802.11be.").

(** A backend that cannot be reached. *)
Definition backend_fora : nat -> Ollama -> prompt -> outcome str :=
  fun _ _ _ => Raise (Exception (py "connection refused")).

(** A backend on which the model "mistral" is not provisioned. *)
Definition backend_sem_mistral : nat -> Ollama -> prompt -> outcome str :=
  fun _ llm _ =>
    if str_eqb (model llm) (py "mistral")
    then Raise (Exception (py "model 'mistral' not found"))
    else Ok (py "O Wi-Fi 7 e o padrao IEEE 802.11be.").

(** A world with the two-file corpus (and a file that is not a PDF), a
    one-dimensional embedding (the length of the text), and a clock that
    advances 1.234 s per reading. *)
Definition mundo (arquivo : file) (backend : nat -> Ollama -> prompt -> outcome str) : Env :=
  {| perguntas_csv := arquivo;
     pdf_dir := [ (py "doc2.pdf", Ok [docB]); (py "notas.txt", Ok []);
                  (py "doc1.pdf", Ok [docA]) ];
     embed := fun _ text => [inject_Z (Z.of_nat (length text))];
     ollama := backend;
     clock := fun n => (inject_Z (Z.of_nat n) * (1234 # 1000))%Q;
     strftime_now := fun _ => py "20250101_1200" |}.

(** The two-chunk index of the corpus above. *)
Definition indice_dois_chunks : FAISS :=
  {| embedding_function := fun text => [inject_Z (Z.of_nat (length text))];
     index_entries := [ (docB, [6%Q]); (docA, [24%Q]) ] |}.

(** *** Notions for the interactive functions *)

(** The terminal a computation ends with. *)
Definition terminal_de {A} (x : outcome A * Terminal * State) : Terminal := snd (fst x).

(** A computation only reads from the keyboard: what is left of it at the
    end is what was there at the start, less the lines read. *)
Definition avanca {A} (c : T A) : Prop :=
  forall t st, exists lidas, teclado t = lidas ++ teclado (terminal_de (c t st)).

(** A computation that returns has read at least one line. *)
Definition consome {A} (c : T A) : Prop :=
  forall t st a t' st',
    c t st = (Ok a, t', st') -> length (teclado t') < length (teclado t).

(** What [main] prints before its menu loop, on a console of [n] messages. *)
Definition abertura (n : nat) : list (nat * exibido) :=
  map (pair n)
      [EReguaAbre; ETitulo; EReguaFecha; ESelecioneModo;
       EModoNormal; EModoBenchmark; EModoBateria; EModoSair].

(** What [select_model] prints before its loop, on a console of [n]
    messages. *)
Definition lista_de_modelos (n : nat) : list (nat * exibido) :=
  (n, EModelosDisponiveis)
  :: map (fun '(i, (name, desc)) => (n, EModelo i name desc))
         (enumerate 1 AVAILABLE_MODELS).

(** The line typed is none of the four choices of the menu. *)
Definition modo_invalido (digitado : str) : bool :=
  negb (existsb (str_eqb (strip digitado)) [py "1"; py "2"; py "3"; py "4"]).

(** A session that starts: the lines to be typed, nothing printed and no
    model tested. *)
Definition terminal_inicial (linhas : list str) : Terminal :=
  {| teclado := linhas; tela := []; testados := [] |}.

(** A backend on which every model is installed, and one on which none is. *)
Definition teste_ok : nat -> str -> outcome str := fun _ _ => Ok (py "Teste recebido.").

Definition teste_fora : nat -> str -> outcome str :=
  fun _ _ => Raise (Exception (py "model not found")).

(** An interpreter with the default limit on digits, and a Unicode
    database reduced to ASCII. *)
Definition so_ascii : Interpreter :=
  {| todecimal := fun _ => None; int_max_str_digits := 4300 |}.

(** What a run of the loop of [select_model] comes to, from the terminal
    [t] to the terminal [t']: lines were read; the models tested before
    the last round ([falhos]) were all found missing; and either the
    keyboard is exhausted, or a listed model is returned, which, unless it
    is "llama2_raw", was tested last and answered. *)
Definition escolha_feita (teste : nat -> str -> outcome str) (t : Terminal)
           (r : outcome str) (t' : Terminal) : Prop :=
  (exists lidas, teclado t = lidas ++ teclado t')
  /\ exists falhos,
      (forall i m, nth_error falhos i = Some m ->
         exists e, teste (length (testados t) + i) m = Raise e)
      /\ match r with
         | Raise e => e = EOFError /\ teclado t' = [] /\ testados t' = testados t ++ falhos
         | Ok name =>
           In name (map fst AVAILABLE_MODELS)
           /\ if str_eqb name (py "llama2_raw")
              then testados t' = testados t ++ falhos
              else testados t' = testados t ++ falhos ++ [name]
                   /\ exists resposta,
                       teste (length (testados t) + length falhos) name = Ok resposta
         end.

(** The line [l], typed at the prompt of [select_model] on the terminal
    [t], selects the model [name]: [int] reads it as the rank of [name]
    in [AVAILABLE_MODELS], and the test of the model answers, when there
    is one. *)
Definition escolhe (teste : nat -> str -> outcome str)
           (interp : Interpreter) (t : Terminal) (l name : str) : Prop :=
  exists choice,
    int interp l = Some choice
    /\ (1 <= choice <= 4)%Z
    /\ name = nth (Z.to_nat (choice - 1)) (map fst AVAILABLE_MODELS) []
    /\ (name <> py "llama2_raw" ->
        exists resposta, teste (length (testados t)) name = Ok resposta).

(** What mode 3 of [main] prints when the batch run ends with [r]. *)
Definition relato_da_bateria (model_name : str) (r : outcome unit) : list exibido :=
  match r with
  | Ok _ => []
  | Raise e =>
    EFalhaTestes (str_exn e)
    :: (if str_eqb model_name (py "llama2_raw") then []
        else [EPossiveisCausas; ECausaDocumentos; ECausaIndice; ECausaOllama])
  end.

(** The line that [main] prints for a source, in its individual mode. *)
Definition fonte_exibida (doc : Document) : exibido :=
  EFonte (basename (match meta_source doc with Some s => s | None => [] end))
         (metadata_page doc).

(* ================================================================== *)
(** ** Strings *)
(* ================================================================== *)

Lemma str_eqb_refl (a : str) : str_eqb a a = true.
Proof.
  induction a as [|c a IH]; simpl; [reflexivity|].
  now rewrite N.eqb_refl.
Qed.

Lemma str_eqb_eq (a b : str) : str_eqb a b = true <-> a = b.
Proof.
  split.
  - revert b; induction a as [|x a IH]; intros [|y b] H; simpl in H;
      try discriminate; [reflexivity|].
    apply andb_true_iff in H as [Hxy Hab].
    apply N.eqb_eq in Hxy. f_equal; auto.
  - intros ->. apply str_eqb_refl.
Qed.

Lemma str_eqb_neq (a b : str) : str_eqb a b = false <-> a <> b.
Proof.
  rewrite <- str_eqb_eq. destruct (str_eqb a b); intuition congruence.
Qed.

(** ** The monad *)

Lemma with_console_twice (c1 c2 : list printed) (st : State) :
  with_console c2 (with_console c1 st) = with_console c2 st.
Proof. reflexivity. Qed.

Lemma with_console_same (st : State) : with_console (console st ++ []) st = st.
Proof. destruct st. unfold with_console. simpl. now rewrite app_nil_r. Qed.

Lemma console_with_console (c : list printed) (st : State) :
  console (with_console c st) = c.
Proof. reflexivity. Qed.

Lemma app_assoc_r {A} (a b c : list A) : (a ++ b) ++ c = a ++ (b ++ c).
Proof. symmetry. apply app_assoc. Qed.

(** Rewriting a state to the form [with_console (console st ++ msgs) st]. *)
Create Rewrite HintDb estado.
#[export] Hint Rewrite console_with_console with_console_twice @app_assoc_r : estado.

Lemma saved_index_with_console (c : list printed) (st : State) :
  saved_index (with_console c st) = saved_index st.
Proof. reflexivity. Qed.

Lemma invoked_with_console (c : list printed) (st : State) :
  invoked (with_console c st) = invoked st.
Proof. reflexivity. Qed.

Lemma ticks_with_console (c : list printed) (st : State) :
  ticks (with_console c st) = ticks st.
Proof. reflexivity. Qed.

Lemma csv_files_with_console (c : list printed) (st : State) :
  csv_files (with_console c st) = csv_files st.
Proof. reflexivity. Qed.

Lemma embedded_with_console (c : list printed) (st : State) :
  embedded (with_console c st) = embedded st.
Proof. reflexivity. Qed.

#[export] Hint Rewrite saved_index_with_console invoked_with_console ticks_with_console
  csv_files_with_console embedded_with_console : estado.

(* ================================================================== *)
(** ** carregar_perguntas *)
(* ================================================================== *)

Lemma ler_linhas_fst (linhas perguntas : list str) (linha : option str) :
  fst (ler_linhas linhas perguntas linha)
  = perguntas ++ filter nao_vazia (map strip (antes_do_end linhas)).
Proof.
  revert perguntas linha.
  induction linhas as [|l resto IH]; intros perguntas linha; simpl.
  - now rewrite app_nil_r.
  - unfold marca_end. destruct (str_eqb (strip l) (py "/end")); simpl.
    + now rewrite app_nil_r.
    + rewrite IH. destruct (strip l); simpl; [reflexivity|].
      now rewrite <- app_assoc.
Qed.

Lemma ler_linhas_snd (linhas perguntas : list str) (linha : option str) :
  linhas <> [] ->
  exists l, snd (ler_linhas linhas perguntas linha) = Some l
            /\ str_eqb l (py "/end") = existsb marca_end linhas.
Proof.
  revert perguntas linha.
  induction linhas as [|l resto IH]; intros perguntas linha Hne; [congruence|].
  simpl. unfold marca_end at 1.
  destruct (str_eqb (strip l) (py "/end")) eqn:E; simpl.
  - exists (strip l). auto.
  - destruct resto as [|l' resto'].
    + simpl. exists (strip l). auto.
    + apply IH. discriminate.
Qed.

(** With a valid header, the loader returns the questions of the text and
    prints [mensagens_do_texto]. *)
Lemma carregar_perguntas_texto (env : Env) (st : State) (text : str) :
  perguntas_csv env = FileText text ->
  strip (readline text) = py "Perguntas" ->
  carregar_perguntas env st
  = (Ok (perguntas_do_texto text),
     with_console (console st ++ mensagens_do_texto text) st).
Proof.
  intros Hfile Hcab.
  unfold carregar_perguntas, try_except, bind, open_perguntas.
  rewrite Hfile. unfold ret at 1. rewrite Hcab, str_eqb_refl. simpl negb. cbv iota.
  unfold mensagens_do_texto, perguntas_do_texto.
  pose proof (ler_linhas_fst (tl (lines text)) [] None) as Hfst.
  destruct (ler_linhas (tl (lines text)) [] None) as [perguntas linha] eqn:Hler.
  simpl in Hfst. rewrite <- Hfst.
  destruct perguntas as [|p ps].
  - reflexivity.
  - assert (Hne : tl (lines text) <> []).
    { intros Hnil. rewrite Hnil in Hfst. discriminate. }
    destruct (ler_linhas_snd (tl (lines text)) [] None Hne) as (l & Hl & Hend).
    rewrite Hler in Hl. simpl in Hl. subst linha. rewrite <- Hend.
    unfold when, print, ret.
    destruct (length (p :: ps) =? 100); destruct (str_eqb l (py "/end"));
      simpl; unfold with_console; simpl; rewrite <- ?app_assoc; reflexivity.
Qed.

Lemma carregar_perguntas_cabecalho (env : Env) (st : State) (text : str) :
  perguntas_csv env = FileText text ->
  strip (readline text) <> py "Perguntas" ->
  carregar_perguntas env st
  = (Ok [], with_console (console st ++ [PErroCabecalho (strip (readline text))]) st).
Proof.
  intros Hfile Hcab. apply str_eqb_neq in Hcab.
  unfold carregar_perguntas, try_except, bind, open_perguntas.
  rewrite Hfile. unfold ret at 1. rewrite Hcab. reflexivity.
Qed.

Lemma carregar_perguntas_ausente (env : Env) (st : State) :
  perguntas_csv env = FileMissing ->
  carregar_perguntas env st
  = (Ok [], with_console (console st ++ [PErroNaoEncontrado; PCertifiqueSe]) st).
Proof.
  intros Hfile.
  unfold carregar_perguntas, try_except, bind, open_perguntas.
  rewrite Hfile. unfold raise, print, ret, with_console. simpl.
  now rewrite <- app_assoc.
Qed.

Lemma carregar_perguntas_ilegivel (env : Env) (st : State) (e : exn) :
  perguntas_csv env = FileUnreadable e ->
  exists msgs,
    carregar_perguntas env st = (Ok [], with_console (console st ++ msgs) st)
    /\ existsb is_error msgs = true.
Proof.
  intros Hfile.
  unfold carregar_perguntas, try_except, bind, open_perguntas.
  rewrite Hfile. unfold raise, print, ret, with_console.
  destruct e; simpl;
    try (eexists [PErroInesperado _]; split; [reflexivity|reflexivity]).
  exists [PErroNaoEncontrado; PCertifiqueSe]. rewrite <- app_assoc. split; reflexivity.
Qed.

(** Whatever the file, the loader returns a list and changes nothing but
    the console; when the file yields no question the list is empty and an
    error was printed. *)
Lemma carregar_perguntas_total (env : Env) (st : State) :
  exists perguntas msgs,
    carregar_perguntas env st = (Ok perguntas, with_console (console st ++ msgs) st).
Proof.
  destruct (perguntas_csv env) as [| e | text] eqn:Hfile.
  - eexists _, _. exact (carregar_perguntas_ausente env st Hfile).
  - destruct (carregar_perguntas_ilegivel env st e Hfile) as (msgs & H & _).
    eexists _, _. exact H.
  - destruct (str_eqb (strip (readline text)) (py "Perguntas")) eqn:E.
    + apply str_eqb_eq in E. eexists _, _.
      exact (carregar_perguntas_texto env st text Hfile E).
    + apply str_eqb_neq in E. eexists _, _.
      exact (carregar_perguntas_cabecalho env st text Hfile E).
Qed.

Lemma carregar_perguntas_sem_perguntas (env : Env) (st : State) :
  sem_perguntas env ->
  exists msgs,
    carregar_perguntas env st = (Ok [], with_console (console st ++ msgs) st)
    /\ existsb is_error msgs = true.
Proof.
  unfold sem_perguntas. intros H.
  destruct (perguntas_csv env) as [| e | text] eqn:Hfile.
  - eexists. split; [exact (carregar_perguntas_ausente env st Hfile)|reflexivity].
  - exact (carregar_perguntas_ilegivel env st e Hfile).
  - destruct (str_eqb (strip (readline text)) (py "Perguntas")) eqn:E.
    + apply str_eqb_eq in E. destruct H as [H|H]; [congruence|].
      exists (mensagens_do_texto text). split.
      * rewrite <- H at 1. exact (carregar_perguntas_texto env st text Hfile E).
      * unfold mensagens_do_texto. now rewrite H.
    + apply str_eqb_neq in E. eexists. split;
        [exact (carregar_perguntas_cabecalho env st text Hfile E)|reflexivity].
Qed.

Lemma antes_do_end_app (antes depois : list str) (e : str) :
  marca_end e = true ->
  Forall (fun l => marca_end l = false) antes ->
  antes_do_end (antes ++ e :: depois) = antes.
Proof.
  intros He Hantes. induction Hantes as [|l antes Hl _ IH]; simpl.
  - now rewrite He.
  - now rewrite Hl, IH.
Qed.

Lemma existsb_marca_end_app (antes depois : list str) (e : str) :
  marca_end e = true -> existsb marca_end (antes ++ e :: depois) = true.
Proof.
  intros He. rewrite existsb_app. simpl. rewrite He. apply orb_true_r.
Qed.

(** C3 (as amended).  For a question file whose first line is the header
    "Perguntas", followed by 3 question lines and a final "/end" line,
    [carregar_perguntas] returns exactly those 3 questions in file order and
    prints the warning that 100 were expected (and nothing else but the
    count of questions loaded).  More generally, with a valid header, a
    question count other than 100 and other than 0 is never a rejection:
    the questions are returned, the warning is printed, no error is. *)
Theorem carregar_perguntas_contagem (env : Env) (st : State) (text : str) :
  perguntas_csv env = FileText text ->
  strip (readline text) = py "Perguntas" ->
  (forall h l1 l2 l3 e,
      lines text = [h; l1; l2; l3; e] ->
      marca_end e = true ->
      Forall (fun l => nao_vazia (strip l) = true /\ marca_end l = false) [l1; l2; l3] ->
      carregar_perguntas env st
      = (Ok [strip l1; strip l2; strip l3],
         with_console (console st ++ [PAvisoEsperadas100 3; PCarregadas 3]) st))
  /\
  (perguntas_do_texto text <> [] ->
   length (perguntas_do_texto text) <> 100 ->
   exists msgs,
     carregar_perguntas env st
     = (Ok (perguntas_do_texto text), with_console (console st ++ msgs) st)
     /\ In (PAvisoEsperadas100 (length (perguntas_do_texto text))) msgs
     /\ existsb is_error msgs = false).
Proof.
  intros Hfile Hcab.
  rewrite (carregar_perguntas_texto env st text Hfile Hcab). split.
  - intros h l1 l2 l3 e Hlines He Hq.
    inversion Hq as [|? ? [Hn1 He1] Hq']; subst.
    inversion Hq' as [|? ? [Hn2 He2] Hq'']; subst.
    inversion Hq'' as [|? ? [Hn3 He3] _]; subst.
    unfold mensagens_do_texto, perguntas_do_texto. rewrite Hlines. simpl.
    rewrite He1, He2, He3, He. simpl. rewrite Hn1, Hn2, Hn3. reflexivity.
  - intros Hne Hlen. exists (mensagens_do_texto text). split; [reflexivity|].
    unfold mensagens_do_texto.
    destruct (perguntas_do_texto text) as [|p ps] eqn:Hp; [congruence|].
    apply Nat.eqb_neq in Hlen. rewrite Hlen.
    destruct (existsb marca_end (tl (lines text))); simpl; auto.
Qed.

(** The scenario of C3 on a concrete file. *)
Lemma carregar_perguntas_contagem_witness :
  (forall h l1 l2 l3 e,
      lines texto_tres_perguntas = [h; l1; l2; l3; e] ->
      marca_end e = true ->
      Forall (fun l => nao_vazia (strip l) = true /\ marca_end l = false) [l1; l2; l3] ->
      carregar_perguntas (mundo (FileText texto_tres_perguntas) backend_ok) estado_inicial
      = (Ok [strip l1; strip l2; strip l3],
         with_console (console estado_inicial ++ [PAvisoEsperadas100 3; PCarregadas 3])
                      estado_inicial))
  /\
  (perguntas_do_texto texto_tres_perguntas <> [] ->
   length (perguntas_do_texto texto_tres_perguntas) <> 100 ->
   exists msgs,
     carregar_perguntas (mundo (FileText texto_tres_perguntas) backend_ok) estado_inicial
     = (Ok (perguntas_do_texto texto_tres_perguntas),
        with_console (console estado_inicial ++ msgs) estado_inicial)
     /\ In (PAvisoEsperadas100 (length (perguntas_do_texto texto_tres_perguntas))) msgs
     /\ existsb is_error msgs = false).
Proof.
  apply (carregar_perguntas_contagem
           (mundo (FileText texto_tres_perguntas) backend_ok) estado_inicial
           texto_tres_perguntas).
  - reflexivity.
  - vm_compute. reflexivity.
Defined.

(** The file of the scenario holds the three questions. *)
Example carregar_tres_perguntas :
  carregar_perguntas (mundo (FileText texto_tres_perguntas) backend_ok) estado_inicial
  = (Ok [py "O que e o Wi-Fi 7?"; py "Qual a largura maxima de canal?"; py "O que e MLO?"],
     with_console [PAvisoEsperadas100 3; PCarregadas 3] estado_inicial).
Proof. vm_compute. reflexivity. Qed.

(** C3 as stated fails for a count of 0: the header is valid and the count,
    0, is not 100, yet the loader prints an error and no warning. *)
Lemma carregar_perguntas_zero_rejeitado :
  perguntas_csv (mundo (FileText texto_sem_perguntas) backend_ok)
  = FileText texto_sem_perguntas
  /\ strip (readline texto_sem_perguntas) = py "Perguntas"
  /\ length (perguntas_do_texto texto_sem_perguntas) <> 100
  /\ carregar_perguntas (mundo (FileText texto_sem_perguntas) backend_ok) estado_inicial
     = (Ok [], with_console [PErroNenhumaPergunta] estado_inicial)
  /\ is_error PErroNenhumaPergunta = true.
Proof.
  split; [reflexivity|]. split; [vm_compute; reflexivity|].
  split; [vm_compute; discriminate|]. split; vm_compute; reflexivity.
Qed.

(** C9.  For every input file whose header line is "Perguntas",
    [carregar_perguntas] returns no blank line (every question returned is
    a non-empty stripped line) and nothing that comes after the first
    "/end" marker line: every question returned is a line that precedes the
    marker, and the list returned is a function of the lines that precede
    it alone. *)
Theorem carregar_perguntas_brancos_e_end (env : Env) (st : State) (text : str) :
  perguntas_csv env = FileText text ->
  strip (readline text) = py "Perguntas" ->
  exists perguntas st',
    carregar_perguntas env st = (Ok perguntas, st')
    /\ (forall q, In q perguntas ->
          q <> [] /\ exists l, In l (antes_do_end (tl (lines text))) /\ q = strip l)
    /\ (forall antes e depois,
          tl (lines text) = antes ++ e :: depois ->
          marca_end e = true ->
          Forall (fun l => marca_end l = false) antes ->
          perguntas = filter nao_vazia (map strip antes)).
Proof.
  intros Hfile Hcab.
  rewrite (carregar_perguntas_texto env st text Hfile Hcab).
  eexists _, _. split; [reflexivity|]. unfold perguntas_do_texto. split.
  - intros q Hq. apply filter_In in Hq as [Hin Hq]. split.
    + destruct q; [discriminate|congruence].
    + apply in_map_iff in Hin as (l & Hl & Hin). exists l. auto.
  - intros antes e depois Hbody He Hantes.
    now rewrite Hbody, antes_do_end_app.
Qed.

(** A file with a blank line among its questions and two lines after the
    marker. *)
Lemma carregar_perguntas_brancos_e_end_witness :
  exists perguntas st',
    carregar_perguntas
      (mundo (FileText (texto_de_linhas
                [py "Perguntas"; py "  O que e MLO?  "; py "   "; py "";
                 py "O que e OFDMA?"; py "/end"; py "Depois do fim"; py "/end"]))
             backend_ok) estado_inicial
    = (Ok perguntas, st')
    /\ (forall q, In q perguntas ->
          q <> [] /\ exists l,
            In l (antes_do_end (tl (lines (texto_de_linhas
                [py "Perguntas"; py "  O que e MLO?  "; py "   "; py "";
                 py "O que e OFDMA?"; py "/end"; py "Depois do fim"; py "/end"]))))
            /\ q = strip l)
    /\ (forall antes e depois,
          tl (lines (texto_de_linhas
                [py "Perguntas"; py "  O que e MLO?  "; py "   "; py "";
                 py "O que e OFDMA?"; py "/end"; py "Depois do fim"; py "/end"]))
          = antes ++ e :: depois ->
          marca_end e = true ->
          Forall (fun l => marca_end l = false) antes ->
          perguntas = filter nao_vazia (map strip antes)).
Proof.
  apply (carregar_perguntas_brancos_e_end
           (mundo (FileText (texto_de_linhas
                [py "Perguntas"; py "  O que e MLO?  "; py "   "; py "";
                 py "O que e OFDMA?"; py "/end"; py "Depois do fim"; py "/end"]))
                  backend_ok) estado_inicial).
  - reflexivity.
  - vm_compute. reflexivity.
Defined.

Example carregar_ignora_brancos_e_pos_end :
  fst (carregar_perguntas
         (mundo (FileText (texto_de_linhas
                   [py "Perguntas"; py "  O que e MLO?  "; py "   "; py "";
                    py "O que e OFDMA?"; py "/end"; py "Depois do fim"; py "/end"]))
                backend_ok) estado_inicial)
  = Ok [py "O que e MLO?"; py "O que e OFDMA?"].
Proof. vm_compute. reflexivity. Qed.

(* ================================================================== *)
(** ** executar_bateria_testes: an empty question set *)
(* ================================================================== *)

(** C8.  If the question file yields 0 questions (missing file, wrong
    header, or no question lines), the batch run reports an error and
    terminates without invoking any model and without producing an export
    file: only the console changes. *)
Theorem executar_bateria_testes_sem_perguntas (env : Env) (model_name : str) (st : State) :
  sem_perguntas env ->
  exists st' msgs,
    executar_bateria_testes env model_name st = (Ok tt, st')
    /\ console st' = console st ++ msgs
    /\ existsb is_error msgs = true
    /\ invoked st' = invoked st
    /\ csv_files st' = csv_files st
    /\ saved_index st' = saved_index st
    /\ embedded st' = embedded st
    /\ ticks st' = ticks st.
Proof.
  intros H.
  destruct (carregar_perguntas_sem_perguntas env st H) as (msgs & Hc & Herr).
  unfold executar_bateria_testes, bind. rewrite Hc.
  eexists _, msgs. split; [reflexivity|]. simpl. auto 10.
Qed.

Lemma executar_bateria_testes_sem_perguntas_witness :
  exists st' msgs,
    executar_bateria_testes (mundo FileMissing backend_ok) (py "mistral") estado_inicial
    = (Ok tt, st')
    /\ console st' = console estado_inicial ++ msgs
    /\ existsb is_error msgs = true
    /\ invoked st' = invoked estado_inicial
    /\ csv_files st' = csv_files estado_inicial
    /\ saved_index st' = saved_index estado_inicial
    /\ embedded st' = embedded estado_inicial
    /\ ticks st' = ticks estado_inicial.
Proof.
  apply (executar_bateria_testes_sem_perguntas
           (mundo FileMissing backend_ok) (py "mistral") estado_inicial).
  exact I.
Defined.

(** The three causes named by the claim, on concrete files. *)
Example sem_perguntas_cabecalho_errado :
  sem_perguntas (mundo (FileText (texto_de_linhas [py "Questions"; py "What?"; py "/end"]))
                       backend_ok).
Proof. left. vm_compute. discriminate. Qed.

Example sem_perguntas_sem_linhas :
  sem_perguntas (mundo (FileText texto_sem_perguntas) backend_ok).
Proof. right. vm_compute. reflexivity. Qed.

(** Conversely, a file that does not fall under [sem_perguntas] yields at
    least one question. *)
Lemma carregar_perguntas_com_perguntas (env : Env) (st : State) (text : str) :
  perguntas_csv env = FileText text ->
  strip (readline text) = py "Perguntas" ->
  perguntas_do_texto text <> [] ->
  exists p ps,
    perguntas_do_texto text = p :: ps
    /\ carregar_perguntas env st
       = (Ok (p :: ps), with_console (console st ++ mensagens_do_texto text) st).
Proof.
  intros Hfile Hcab Hne.
  destruct (perguntas_do_texto text) as [|p ps] eqn:Hp; [congruence|].
  exists p, ps. split; [reflexivity|].
  rewrite <- Hp. exact (carregar_perguntas_texto env st text Hfile Hcab).
Qed.

(* ================================================================== *)
(** ** The responders *)
(* ================================================================== *)

Lemma mesmo_disco_refl (st : State) : mesmo_disco st st.
Proof. repeat split. Qed.

Lemma mesmo_disco_trans (st1 st2 st3 : State) :
  mesmo_disco st1 st2 -> mesmo_disco st2 st3 -> mesmo_disco st1 st3.
Proof. unfold mesmo_disco. intuition congruence. Qed.

Lemma mesmo_disco_console (st st' : State) (c : list printed) :
  mesmo_disco st st' -> mesmo_disco st (with_console c st').
Proof. unfold mesmo_disco. simpl. tauto. Qed.

Lemma mesmo_disco_console_l (st st' : State) (c : list printed) :
  mesmo_disco (with_console c st) st' -> mesmo_disco st st'.
Proof. unfold mesmo_disco. simpl. tauto. Qed.

(** [generate_raw_response] without a model name: one reading of the
    clock, one invocation of the backend under the name "llama2", and on
    success a second reading. *)
Lemma generate_raw_response_default (env : Env) (question : str) (st : State) :
  generate_raw_response env question None st
  = match ollama env (length (invoked st)) llm_controle question with
    | Ok response =>
      (Ok (response,
           Py.round (clock env (S (ticks st)) - clock env (ticks st)) 2),
       with_ticks (S (S (ticks st)))
         (with_invoked (invoked st ++ [(llm_controle, question)]) st))
    | Raise e =>
      (Raise e,
       with_ticks (S (ticks st))
         (with_invoked (invoked st ++ [(llm_controle, question)]) st))
    end.
Proof.
  unfold generate_raw_response, bind, time_time, invoke, ret. simpl.
  fold llm_controle.
  destruct (ollama env (length (invoked st)) llm_controle question); reflexivity.
Qed.

Lemma responder_raw_eq (env : Env) (model_name pergunta : str) (st : State) :
  responder_raw env model_name pergunta st
  = match ollama env (length (invoked st)) llm_controle pergunta with
    | Ok resposta =>
      (Ok {| Modelo := model_name; Pergunta := pergunta;
             Tempo := Py.round (clock env (S (ticks st)) - clock env (ticks st)) 2;
             Resposta := firstn 2000 resposta;
             Fontes := py "N/A (resposta controle)" |},
       with_ticks (S (S (ticks st)))
         (with_invoked (invoked st ++ [(llm_controle, pergunta)]) st))
    | Raise e =>
      (Raise e,
       with_ticks (S (ticks st))
         (with_invoked (invoked st ++ [(llm_controle, pergunta)]) st))
    end.
Proof.
  unfold responder_raw, bind. rewrite generate_raw_response_default.
  destruct (ollama env (length (invoked st)) llm_controle pergunta); reflexivity.
Qed.

Lemma responder_raw_fiel (env : Env) (model_name : str) :
  responder_fiel (responder_raw env model_name) model_name.
Proof.
  intros pergunta st. rewrite responder_raw_eq.
  destruct (ollama env (length (invoked st)) llm_controle pergunta); simpl.
  - split; [repeat split|]. intros linha [= <-].
    cbn [Modelo Pergunta Resposta]. repeat split. apply firstn_le_length.
  - split; [repeat split|]. discriminate.
Qed.

Lemma generate_response_disco (env : Env) (question : str) (vectorstore : option FAISS)
      (llm : option Ollama) (st : State) :
  mesmo_disco st (snd (generate_response env question vectorstore llm st)).
Proof.
  unfold generate_response, bind, time_time, lift, raise, ret, invoke.
  destruct vectorstore as [vs|]; simpl; [|repeat split].
  destruct (map_M trecho (similarity_search vs question 5)); simpl; [|repeat split].
  destruct llm as [llm|]; simpl; [|repeat split].
  destruct (ollama env (length (invoked st)) llm _); simpl; repeat split.
Qed.

Lemma responder_rag_fiel (env : Env) (model_name : str) (vectorstore : option FAISS)
      (llm : option Ollama) :
  responder_fiel (responder_rag env model_name vectorstore llm) model_name.
Proof.
  intros pergunta st. unfold responder_rag, bind.
  unfold time_time at 1. simpl.
  pose proof (generate_response_disco env pergunta vectorstore llm
                (with_ticks (S (ticks st)) st)) as Hd.
  destruct (generate_response env pergunta vectorstore llm
              (with_ticks (S (ticks st)) st)) as [[[[resposta docs] tempo]|e] st1].
  - simpl in Hd. unfold lift. destruct (juntar_fontes docs); simpl.
    + split; [exact Hd|]. intros linha [= <-].
      cbn [Modelo Pergunta Resposta]. repeat split. apply firstn_le_length.
    + split; [exact Hd|]. discriminate.
  - simpl in *. split; [exact Hd|]. discriminate.
Qed.

(* ================================================================== *)
(** ** The batch loop *)
(* ================================================================== *)

(** One turn of the loop. *)
Lemma bateria_cons (responder : str -> M Row) (model_name : str) (total i : nat)
      (pergunta : str) (resto : list str) (resultados : list Row) (st : State) :
  bateria responder model_name total i (pergunta :: resto) resultados st
  = match responder pergunta (anunciada total i pergunta st) with
    | (Ok linha, st1) =>
      bateria responder model_name total (S i) resto (resultados ++ [linha])
        (with_console (console st1 ++ [PRespondido (Tempo linha)]) st1)
    | (Raise e, st1) =>
      bateria responder model_name total (S i) resto
        (resultados ++ [linha_erro model_name pergunta e])
        (with_console (console st1 ++ [PErro (str_exn e)]) st1)
    end.
Proof.
  cbn [bateria]. unfold bind, print, try_except, ret, anunciada.
  cbn [console with_console]. rewrite <- app_assoc. cbn [app].
  destruct (responder pergunta _) as [[linha|e] st1]; reflexivity.
Qed.

Lemma bateria_sucesso (responder : str -> M Row) (model_name : str) (total i : nat)
      (pergunta : str) (resto : list str) (resultados : list Row) (st st1 : State)
      (linha : Row) :
  responder pergunta (anunciada total i pergunta st) = (Ok linha, st1) ->
  bateria responder model_name total i (pergunta :: resto) resultados st
  = bateria responder model_name total (S i) resto (resultados ++ [linha])
      (with_console (console st1 ++ [PRespondido (Tempo linha)]) st1).
Proof. intros H. now rewrite bateria_cons, H. Qed.

Lemma bateria_falha (responder : str -> M Row) (model_name : str) (total i : nat)
      (pergunta : str) (resto : list str) (resultados : list Row) (st st1 : State)
      (e : exn) :
  responder pergunta (anunciada total i pergunta st) = (Raise e, st1) ->
  bateria responder model_name total i (pergunta :: resto) resultados st
  = bateria responder model_name total (S i) resto
      (resultados ++ [linha_erro model_name pergunta e])
      (with_console (console st1 ++ [PErro (str_exn e)]) st1).
Proof. intros H. now rewrite bateria_cons, H. Qed.

(** The loop never raises: it returns the rows it was given followed by one
    row per question, in the order of the questions, and leaves the disk
    alone. *)
Lemma bateria_total (responder : str -> M Row) (model_name : str) :
  responder_fiel responder model_name ->
  forall (perguntas : list str) (total i : nat) (resultados : list Row) (st : State),
  exists novas st',
    bateria responder model_name total i perguntas resultados st
    = (Ok (resultados ++ novas), st')
    /\ map Pergunta novas = perguntas
    /\ Forall (fun r => Modelo r = model_name) novas
    /\ Forall resposta_da_bateria novas
    /\ mesmo_disco st st'.
Proof.
  intros Hfiel perguntas.
  induction perguntas as [|pergunta resto IH]; intros total i resultados st.
  - exists [], st. simpl. unfold ret. rewrite app_nil_r.
    repeat split; constructor.
  - destruct (Hfiel pergunta (anunciada total i pergunta st)) as [Hd Hl].
    destruct (responder pergunta (anunciada total i pergunta st)) as [[linha|e] st1] eqn:Hr.
    + rewrite (bateria_sucesso _ _ _ _ _ _ _ _ _ _ Hr).
      destruct (IH total (S i) (resultados ++ [linha])
                   (with_console (console st1 ++ [PRespondido (Tempo linha)]) st1))
        as (novas & st' & Heq & Hp & Hm & Hres & Hd').
      destruct (Hl linha eq_refl) as (Hmod & Hperg & Hlen).
      exists (linha :: novas), st'. rewrite Heq, <- app_assoc. cbn [app map].
      split; [reflexivity|]. split; [congruence|].
      split; [constructor; assumption|].
      split; [constructor; [left; assumption|assumption]|].
      unfold mesmo_disco, anunciada in *.
      cbn [csv_files saved_index embedded with_console snd] in *.
      intuition congruence.
    + rewrite (bateria_falha _ _ _ _ _ _ _ _ _ _ Hr).
      destruct (IH total (S i) (resultados ++ [linha_erro model_name pergunta e])
                   (with_console (console st1 ++ [PErro (str_exn e)]) st1))
        as (novas & st' & Heq & Hp & Hm & Hres & Hd').
      exists (linha_erro model_name pergunta e :: novas), st'.
      rewrite Heq, <- app_assoc. cbn [app map].
      split; [reflexivity|]. split; [cbn [Pergunta linha_erro]; congruence|].
      split; [constructor; [reflexivity|assumption]|].
      split; [constructor; [right; exists e; reflexivity|assumption]|].
      unfold mesmo_disco, anunciada in *.
      cbn [csv_files saved_index embedded with_console snd] in *.
      intuition congruence.
Qed.

(** In the "llama2_raw" branch every question costs exactly one invocation
    of the backend, under the name "llama2", whether it succeeds or not. *)
Lemma bateria_raw_invoked (env : Env) (model_name : str) :
  forall (perguntas : list str) (total i : nat) (resultados : list Row) (st : State),
    invoked (snd (bateria (responder_raw env model_name) model_name
                          total i perguntas resultados st))
    = invoked st ++ map (fun pergunta => (llm_controle, pergunta)) perguntas.
Proof.
  induction perguntas as [|pergunta resto IH]; intros total i resultados st.
  - simpl. now rewrite app_nil_r.
  - destruct (responder_raw env model_name pergunta (anunciada total i pergunta st))
      as [[linha|e] st1] eqn:Hr;
      [rewrite (bateria_sucesso _ _ _ _ _ _ _ _ _ _ Hr)
      |rewrite (bateria_falha _ _ _ _ _ _ _ _ _ _ Hr)];
      rewrite IH; rewrite responder_raw_eq in Hr;
      destruct (ollama env _ llm_controle pergunta); inversion Hr; subst; simpl;
      now rewrite <- app_assoc.
Qed.

(** The error marker is what the final count looks for. *)
Lemma linha_erro_marcada (model_name pergunta : str) (e : exn) :
  startswith (Resposta (linha_erro model_name pergunta e)) (py "ERRO") = true.
Proof. reflexivity. Qed.

(* ================================================================== *)
(** ** Loading the corpus and setting up the index *)
(* ================================================================== *)

Lemma load_each_eq (files : list (str * outcome (list Document)))
      (documents : list Document) (st : State) :
  exists msgs,
    desfechos msgs = []
    /\ load_each files documents st
       = (Ok (documents ++ documentos_do_corpus files),
          with_console (console st ++ msgs) st).
Proof.
  revert documents st.
  induction files as [|[pdf_file loaded] rest IH]; intros documents st.
  - exists []. cbn [load_each documentos_do_corpus]. unfold ret.
    now rewrite app_nil_r, with_console_same.
  - cbn [load_each documentos_do_corpus]. unfold bind at 1.
    destruct (endswith pdf_file (py ".pdf")).
    + unfold try_except, bind, print, lift, ret. cbn [console with_console].
      destruct loaded as [pages|e].
      * destruct (IH (documents ++ pages)
                     (with_console (console st ++ [PProcessando pdf_file]) st))
          as (msgs & Hsil & ->).
        exists (PProcessando pdf_file :: msgs). split; [exact Hsil|].
        cbn [console with_console]. now rewrite <- !app_assoc.
      * autorewrite with estado.
        destruct (IH documents
                     (with_console
                        (console st ++ [PProcessando pdf_file]
                         ++ [PErroArquivo pdf_file (str_exn e)]) st))
          as (msgs & Hsil & ->).
        exists (PProcessando pdf_file :: PErroArquivo pdf_file (str_exn e) :: msgs).
        split; [exact Hsil|]. autorewrite with estado. reflexivity.
    + unfold ret. destruct (IH documents st) as (msgs & Hsil & ->).
      exists msgs. split; [exact Hsil|reflexivity].
Qed.

Lemma load_documents_eq (env : Env) (st : State) :
  exists msgs,
    desfechos msgs = []
    /\ load_documents env st
       = (Ok (documentos_do_corpus (pdf_dir env)), with_console (console st ++ msgs) st).
Proof.
  unfold load_documents, bind, print.
  destruct (load_each_eq (pdf_dir env) []
              (with_console (console st ++ [PCarregandoProcessando]) st))
    as (msgs & Hsil & ->).
  exists (PCarregandoProcessando :: msgs). split; [exact Hsil|].
  cbn [console with_console app]. now rewrite <- app_assoc.
Qed.

(** [setup_rag_system], the three cases of what is on disk. *)
Lemma setup_rag_system_carrega (env : Env) (model_name : str) (st : State)
      (snapshot : Snapshot) :
  str_eqb model_name (py "llama2_raw") = false ->
  saved_index st FAISS_INDEX = Some (Ok snapshot) ->
  exists msgs,
    setup_rag_system env model_name st
    = (Ok (Some (indice_carregado env snapshot), Some (llm_rag model_name)),
       with_console (console st ++ msgs) st).
Proof.
  intros Hraw Hsaved. unfold setup_rag_system. rewrite Hraw.
  unfold bind at 1. unfold print at 1. unfold bind at 1.
  destruct (load_documents_eq env (with_console (console st ++ [PConfigurandoRAG]) st))
    as (msgs & _ & ->).
  unfold bind, os_path_exists, FAISS_load_local, print, ret.
  repeat (progress (autorewrite with estado; rewrite ?Hsaved; cbv beta iota)).
  eexists. reflexivity.
Qed.

Lemma setup_rag_system_cria (env : Env) (model_name : str) (st : State) :
  str_eqb model_name (py "llama2_raw") = false ->
  saved_index st FAISS_INDEX = None ->
  exists msgs,
    setup_rag_system env model_name st
    = (Ok (Some (indice_criado env), Some (llm_rag model_name)),
       with_console (console st ++ msgs)
         (with_saved_index (gravar FAISS_INDEX (index_entries (indice_criado env)) (saved_index st))
            (with_embedded (embedded st ++ map page_content (chunks_do_corpus env)) st))).
Proof.
  intros Hraw Hsaved. unfold setup_rag_system. rewrite Hraw.
  unfold bind at 1. unfold print at 1. unfold bind at 1.
  destruct (load_documents_eq env (with_console (console st ++ [PConfigurandoRAG]) st))
    as (msgs & _ & ->).
  unfold bind, os_path_exists, FAISS_from_documents, save_local, print, ret.
  repeat (progress (autorewrite with estado; rewrite ?Hsaved; cbv beta iota)).
  exists ([PConfigurandoRAG] ++ msgs ++ [PCriandoIndice; PInicializando model_name]).
  unfold with_console, with_saved_index, with_embedded.
  cbn [console invoked ticks embedded saved_index csv_files].
  rewrite <- ?app_assoc. reflexivity.
Qed.

Lemma setup_rag_system_corrompido (env : Env) (model_name : str) (st : State) (e : exn) :
  str_eqb model_name (py "llama2_raw") = false ->
  saved_index st FAISS_INDEX = Some (Raise e) ->
  exists msgs,
    setup_rag_system env model_name st = (Raise e, with_console (console st ++ msgs) st).
Proof.
  intros Hraw Hsaved. unfold setup_rag_system. rewrite Hraw.
  unfold bind at 1. unfold print at 1. unfold bind at 1.
  destruct (load_documents_eq env (with_console (console st ++ [PConfigurandoRAG]) st))
    as (msgs & _ & ->).
  unfold bind, os_path_exists, FAISS_load_local, print, ret.
  repeat (progress (autorewrite with estado; rewrite ?Hsaved; cbv beta iota)).
  eexists. reflexivity.
Qed.

(** The set-up of the comparative mode follows the same policy. *)
Lemma preparar_benchmark_carrega (env : Env) (st : State) (snapshot : Snapshot) :
  saved_index st FAISS_INDEX = Some (Ok snapshot) ->
  exists msgs,
    preparar_benchmark env st
    = (Ok (indice_carregado env snapshot), with_console (console st ++ msgs) st).
Proof.
  intros Hsaved. unfold preparar_benchmark.
  unfold bind at 1 2 3. unfold print at 1 2 3. unfold bind at 1.
  autorewrite with estado.
  destruct (load_documents_eq env
              (with_console (console st ++ [PModoBenchmark] ++ [PTestaraSequencialmente]
                             ++ [PCarregandoDocumentos]) st))
    as (msgs & Hsil & ->).
  unfold bind, os_path_exists, FAISS_load_local, print, ret.
  repeat (progress (autorewrite with estado; rewrite ?Hsaved; cbv beta iota)).
  eexists. reflexivity.
Qed.

Lemma preparar_benchmark_cria (env : Env) (st : State) :
  saved_index st FAISS_INDEX = None ->
  exists msgs,
    preparar_benchmark env st
    = (Ok (indice_criado env),
       with_console (console st ++ msgs)
         (with_saved_index (gravar FAISS_INDEX (index_entries (indice_criado env)) (saved_index st))
            (with_embedded (embedded st ++ map page_content (chunks_do_corpus env)) st))).
Proof.
  intros Hsaved. unfold preparar_benchmark.
  unfold bind at 1 2 3. unfold print at 1 2 3. unfold bind at 1.
  autorewrite with estado.
  destruct (load_documents_eq env
              (with_console (console st ++ [PModoBenchmark] ++ [PTestaraSequencialmente]
                             ++ [PCarregandoDocumentos]) st))
    as (msgs & Hsil & ->).
  unfold bind, os_path_exists, FAISS_from_documents, save_local, print, ret.
  repeat (progress (autorewrite with estado; rewrite ?Hsaved; cbv beta iota)).
  exists ([PModoBenchmark; PTestaraSequencialmente; PCarregandoDocumentos] ++ msgs
          ++ [PPreparandoEmbeddings; PConfigurandoVectorstore]).
  unfold with_console, with_saved_index, with_embedded.
  cbn [console invoked ticks embedded saved_index csv_files].
  rewrite <- ?app_assoc. reflexivity.
Qed.

(** C6.  Index set-up for any RAG-enabled model configuration (the set-up
    of a single model and the set-up of the comparative mode alike) loads
    the persisted index whenever a snapshot exists under [FAISS_INDEX]:
    the store returned holds the entries of the snapshot whatever the
    corpus directory holds, nothing is embedded and the disk is left as it
    is.  Otherwise it builds a fresh index from the chunks of the corpus
    (every chunk embedded) and saves it under that identifier. *)
Theorem indice_carregado_ou_criado (env : Env) (st : State) :
  (forall snapshot,
      saved_index st FAISS_INDEX = Some (Ok snapshot) ->
      (forall model_name,
          str_eqb model_name (py "llama2_raw") = false ->
          exists llm st',
            setup_rag_system env model_name st
            = (Ok (Some (indice_carregado env snapshot), Some llm), st')
            /\ index_entries (indice_carregado env snapshot) = snapshot
            /\ saved_index st' = saved_index st
            /\ embedded st' = embedded st)
      /\ exists st',
          preparar_benchmark env st = (Ok (indice_carregado env snapshot), st')
          /\ saved_index st' = saved_index st
          /\ embedded st' = embedded st)
  /\
  (saved_index st FAISS_INDEX = None ->
   (forall model_name,
       str_eqb model_name (py "llama2_raw") = false ->
       exists llm st',
         setup_rag_system env model_name st
         = (Ok (Some (indice_criado env), Some llm), st')
         /\ map fst (index_entries (indice_criado env)) = chunks_do_corpus env
         /\ saved_index st' = gravar FAISS_INDEX (index_entries (indice_criado env)) (saved_index st)
         /\ embedded st' = embedded st ++ map page_content (chunks_do_corpus env))
   /\ exists st',
       preparar_benchmark env st = (Ok (indice_criado env), st')
       /\ saved_index st' = gravar FAISS_INDEX (index_entries (indice_criado env)) (saved_index st)
       /\ embedded st' = embedded st ++ map page_content (chunks_do_corpus env)).
Proof.
  split.
  - intros snapshot Hsaved. split.
    + intros model_name Hraw.
      destruct (setup_rag_system_carrega env model_name st snapshot Hraw Hsaved)
        as (msgs & ->).
      eexists _, _. repeat split.
    + destruct (preparar_benchmark_carrega env st snapshot Hsaved) as (msgs & ->).
      eexists. repeat split.
  - intros Hsaved. split.
    + intros model_name Hraw.
      destruct (setup_rag_system_cria env model_name st Hraw Hsaved) as (msgs & ->).
      eexists _, _. repeat split.
      unfold indice_criado. cbn [index_entries]. rewrite map_map. apply map_id.
    + destruct (preparar_benchmark_cria env st Hsaved) as (msgs & ->).
      eexists. repeat split.
Qed.

(** A world whose disk holds a one-chunk snapshot while the corpus has two
    pages: the snapshot is what the set-up returns. *)
Lemma indice_carregado_ou_criado_witness :
  exists llm st',
    setup_rag_system (mundo FileMissing backend_ok) (py "mistral")
                     (with_saved_index (gravar FAISS_INDEX [(docA, [24%Q])] (fun _ => None)) estado_inicial)
    = (Ok (Some (indice_carregado (mundo FileMissing backend_ok) [(docA, [24%Q])]),
           Some llm), st')
    /\ index_entries (indice_carregado (mundo FileMissing backend_ok) [(docA, [24%Q])])
       = [(docA, [24%Q])]
    /\ saved_index st' = gravar FAISS_INDEX [(docA, [24%Q])] (fun _ => None)
    /\ embedded st' = [].
Proof.
  exact (proj1 (proj1 (indice_carregado_ou_criado
                         (mundo FileMissing backend_ok)
                         (with_saved_index (gravar FAISS_INDEX [(docA, [24%Q])] (fun _ => None)) estado_inicial))
                      [(docA, [24%Q])] eq_refl)
               (py "mistral") eq_refl).
Defined.

(** With no snapshot on disk, the index is built from the two pages and
    saved. *)
Example indice_criado_do_corpus :
  exists st',
    preparar_benchmark (mundo FileMissing backend_ok) estado_inicial
    = (Ok indice_dois_chunks, st')
    /\ saved_index st' FAISS_INDEX = Some (Ok [(docB, [6%Q]); (docA, [24%Q])])
    /\ embedded st' = [page_content docB; page_content docA].
Proof. eexists. vm_compute. repeat split. Qed.

(* ================================================================== *)
(** ** executar_bateria_testes: the run *)
(* ================================================================== *)

(** The set-up of a RAG configuration returns unless what is on disk under
    [FAISS_INDEX] cannot be read; it leaves the exports alone. *)
Lemma setup_rag_system_total (env : Env) (model_name : str) (st : State) :
  str_eqb model_name (py "llama2_raw") = false ->
  (forall e, saved_index st FAISS_INDEX <> Some (Raise e)) ->
  exists vectorstore llm st',
    setup_rag_system env model_name st = (Ok (vectorstore, llm), st')
    /\ csv_files st' = csv_files st
    /\ invoked st' = invoked st.
Proof.
  intros Hraw Hsaved. destruct (saved_index st FAISS_INDEX) as [[snapshot|e]|] eqn:E.
  - destruct (setup_rag_system_carrega env model_name st snapshot Hraw E) as (msgs & ->).
    eexists _, _, _. repeat split.
  - now destruct (Hsaved e).
  - destruct (setup_rag_system_cria env model_name st Hraw E) as (msgs & ->).
    eexists _, _, _. repeat split.
Qed.

(** The end of a run, once the loop returned [resultados]. *)
Lemma executar_bateria_testes_fim (env : Env) (model_name : str) (total : nat)
      (resultados : list Row) (st : State) :
  (let timestamp := strftime_now env (py "%Y%m%d_%H%M") in
   let nome_arquivo :=
     py "resultados_" ++ model_name ++ py "_" ++ timestamp ++ py ".csv" in
   to_csv resultados nome_arquivo ;;
   print (PArquivoSalvo nome_arquivo) ;;
   print (PTotalRespondidas (respondidas resultados) total)) st
  = (Ok tt,
     with_console
       (console st ++ [PArquivoSalvo (nome_resultados env model_name);
                       PTotalRespondidas (respondidas resultados) total])
       (with_csv_files (csv_files st ++ [(nome_resultados env model_name, resultados)]) st)).
Proof.
  unfold bind, to_csv, print, nome_resultados, with_console, with_csv_files.
  cbn [console invoked ticks embedded saved_index csv_files].
  now rewrite <- app_assoc.
Qed.

(** A run on a non-empty question set whose index, if any, can be read:
    it returns, writes one export holding the rows the loop returned (one
    row per question, in the order of the questions), and ends by printing
    the count of rows whose response does not start with "ERRO" out of the
    number of questions. *)
Lemma executar_bateria_testes_relatorio (env : Env) (model_name : str) (st : State)
      (perguntas : list str) (msgs : list printed) :
  carregar_perguntas env st = (Ok perguntas, with_console (console st ++ msgs) st) ->
  perguntas <> [] ->
  (forall e, saved_index st FAISS_INDEX <> Some (Raise e)) ->
  exists resultados antes st',
    executar_bateria_testes env model_name st = (Ok tt, st')
    /\ csv_files st' = csv_files st ++ [(nome_resultados env model_name, resultados)]
    /\ map Pergunta resultados = perguntas
    /\ Forall (fun r => Modelo r = model_name) resultados
    /\ Forall resposta_da_bateria resultados
    /\ console st'
       = antes ++ [PArquivoSalvo (nome_resultados env model_name);
                   PTotalRespondidas (respondidas resultados) (length perguntas)]
    /\ exists responder st0,
        (responder = responder_raw env model_name
         \/ exists vectorstore llm,
             responder = responder_rag env model_name vectorstore llm)
        /\ fst (bateria responder model_name (length perguntas) 1 perguntas [] st0)
           = Ok resultados.
Proof.
  intros Hc Hne Hsaved. unfold executar_bateria_testes. unfold bind at 1. rewrite Hc.
  destruct perguntas as [|p ps]; [congruence|].
  unfold bind at 1. destruct (str_eqb model_name (py "llama2_raw")) eqn:Hraw.
  - unfold bind at 1 2. unfold print at 1.
    destruct (bateria_total (responder_raw env model_name) model_name
                (responder_raw_fiel env model_name) (p :: ps) (length (p :: ps)) 1 []
                (with_console
                   (console (with_console (console st ++ msgs) st)
                    ++ [PIniciandoSemDocumentos model_name (length (p :: ps))])
                   (with_console (console st ++ msgs) st)))
      as (novas & st2 & Hb & Hp & Hm & Hres & Hd).
    rewrite Hb. unfold ret at 1. rewrite executar_bateria_testes_fim.
    destruct Hd as (Hcsv & _). autorewrite with estado in Hcsv.
    eexists novas, _, _. split; [reflexivity|].
    cbn [csv_files console with_console with_csv_files app]. rewrite Hcsv.
    repeat split; try assumption; try reflexivity.
    eexists _, _. split; [left; reflexivity|]. now rewrite Hb.
  - unfold bind at 1.
    destruct (setup_rag_system_total env model_name
                (with_console (console st ++ msgs) st) Hraw Hsaved)
      as (vectorstore & llm & st1 & -> & Hcsv1 & _).
    unfold bind at 1 2. unfold print at 1.
    destruct (bateria_total (responder_rag env model_name vectorstore llm) model_name
                (responder_rag_fiel env model_name vectorstore llm)
                (p :: ps) (length (p :: ps)) 1 []
                (with_console (console st1 ++ [PIniciando model_name (length (p :: ps))]) st1))
      as (novas & st2 & Hb & Hp & Hm & Hres & Hd).
    rewrite Hb. unfold ret at 1. rewrite executar_bateria_testes_fim.
    destruct Hd as (Hcsv & _). autorewrite with estado in Hcsv, Hcsv1.
    eexists novas, _, _. split; [reflexivity|].
    cbn [csv_files console with_console with_csv_files app]. rewrite Hcsv, Hcsv1.
    repeat split; try assumption; try reflexivity.
    eexists _, _. split; [right; eexists _, _; reflexivity|]. now rewrite Hb.
Qed.

(** C5.  In batch mode, when the model invocation for a question raises a
    failure, the harness appends a result row whose response field carries
    the error marker ("ERRO: " and the message) and whose elapsed time is 0,
    and continues with the next question; the rows exported are the rows of
    that loop, one per question, and at the end the run reports the count
    of rows whose stored response does not start with the marker "ERRO" out
    of the total attempted. *)
Theorem bateria_registra_falhas (env : Env) (model_name : str) :
  (forall responder total i pergunta resto resultados st e st1,
      responder pergunta (anunciada total i pergunta st) = (Raise e, st1) ->
      bateria responder model_name total i (pergunta :: resto) resultados st
      = bateria responder model_name total (S i) resto
          (resultados
           ++ [{| Modelo := model_name; Pergunta := pergunta; Tempo := 0;
                  Resposta := py "ERRO: " ++ str_exn e; Fontes := py "N/A" |}])
          (with_console (console st1 ++ [PErro (str_exn e)]) st1)
      /\ startswith (py "ERRO: " ++ str_exn e) (py "ERRO") = true)
  /\
  (forall st text,
      perguntas_csv env = FileText text ->
      strip (readline text) = py "Perguntas" ->
      perguntas_do_texto text <> [] ->
      (forall e, saved_index st FAISS_INDEX <> Some (Raise e)) ->
      exists resultados antes st',
        executar_bateria_testes env model_name st = (Ok tt, st')
        /\ csv_files st' = csv_files st ++ [(nome_resultados env model_name, resultados)]
        /\ map Pergunta resultados = perguntas_do_texto text
        /\ console st'
           = antes
             ++ [PArquivoSalvo (nome_resultados env model_name);
                 PTotalRespondidas
                   (length (filter (fun r => negb (startswith (Resposta r) (py "ERRO")))
                                   resultados))
                   (length (perguntas_do_texto text))]
        /\ exists responder st0,
            (responder = responder_raw env model_name
             \/ exists vectorstore llm,
                 responder = responder_rag env model_name vectorstore llm)
            /\ fst (bateria responder model_name (length (perguntas_do_texto text)) 1
                            (perguntas_do_texto text) [] st0)
               = Ok resultados).
Proof.
  split.
  - intros responder total i pergunta resto resultados st e st1 H. split.
    + exact (bateria_falha responder model_name total i pergunta resto resultados
                           st st1 e H).
    + reflexivity.
  - intros st text Hfile Hcab Hne Hsaved.
    destruct (executar_bateria_testes_relatorio env model_name st
                (perguntas_do_texto text) (mensagens_do_texto text)
                (carregar_perguntas_texto env st text Hfile Hcab) Hne Hsaved)
      as (resultados & antes & st' & Hrun & Hcsv & Hp & _ & _ & Hcon & Hloop).
    exists resultados, antes, st'. auto.
Qed.

(** The scenario of the specification: the backend cannot be reached. *)
Lemma bateria_registra_falhas_witness :
  exists resultados antes st',
    executar_bateria_testes (mundo (FileText texto_tres_perguntas) backend_fora)
                            (py "llama2_raw") estado_inicial
    = (Ok tt, st')
    /\ csv_files st'
       = csv_files estado_inicial
         ++ [(nome_resultados (mundo (FileText texto_tres_perguntas) backend_fora)
                              (py "llama2_raw"), resultados)]
    /\ map Pergunta resultados = perguntas_do_texto texto_tres_perguntas
    /\ console st'
       = antes
         ++ [PArquivoSalvo (nome_resultados
                              (mundo (FileText texto_tres_perguntas) backend_fora)
                              (py "llama2_raw"));
             PTotalRespondidas
               (length (filter (fun r => negb (startswith (Resposta r) (py "ERRO")))
                               resultados))
               (length (perguntas_do_texto texto_tres_perguntas))]
    /\ exists responder st0,
        (responder = responder_raw (mundo (FileText texto_tres_perguntas) backend_fora)
                                   (py "llama2_raw")
         \/ exists vectorstore llm,
             responder = responder_rag (mundo (FileText texto_tres_perguntas) backend_fora)
                                       (py "llama2_raw") vectorstore llm)
        /\ fst (bateria responder (py "llama2_raw")
                        (length (perguntas_do_texto texto_tres_perguntas)) 1
                        (perguntas_do_texto texto_tres_perguntas) [] st0)
           = Ok resultados.
Proof.
  apply (proj2 (bateria_registra_falhas
                  (mundo (FileText texto_tres_perguntas) backend_fora) (py "llama2_raw"))
               estado_inicial texto_tres_perguntas).
  - reflexivity.
  - vm_compute. reflexivity.
  - vm_compute. discriminate.
  - intros e. vm_compute. discriminate.
Defined.

(** With the backend out of reach, every question gets its error row, and
    the run reports 0 answered out of 3. *)
Example bateria_com_backend_fora :
  exists st',
    executar_bateria_testes (mundo (FileText texto_tres_perguntas) backend_fora)
                            (py "llama2_raw") estado_inicial
    = (Ok tt, st')
    /\ csv_files st'
       = [(py "resultados_llama2_raw_20250101_1200.csv",
           map (fun pergunta =>
                  {| Modelo := py "llama2_raw"; Pergunta := pergunta; Tempo := 0;
                     Resposta := py "ERRO: connection refused"; Fontes := py "N/A" |})
               [py "O que e o Wi-Fi 7?"; py "Qual a largura maxima de canal?";
                py "O que e MLO?"])]
    /\ last (console st') PNenhumDado = PTotalRespondidas 0 3.
Proof. eexists. vm_compute. repeat split. Qed.

(** C10.  In batch mode with the "llama2_raw" configuration, the run
    invokes the backend once per question, every time with the model name
    "llama2" (the default of the control responder, on the question text
    itself), while every row of the export carries "llama2_raw" in its
    model field. *)
Theorem bateria_raw_invoca_llama2 (env : Env) (st : State) (text : str) :
  perguntas_csv env = FileText text ->
  strip (readline text) = py "Perguntas" ->
  perguntas_do_texto text <> [] ->
  exists resultados st',
    executar_bateria_testes env (py "llama2_raw") st = (Ok tt, st')
    /\ invoked st'
       = invoked st ++ map (fun pergunta => (llm_controle, pergunta)) (perguntas_do_texto text)
    /\ model llm_controle = py "llama2"
    /\ csv_files st'
       = csv_files st ++ [(nome_resultados env (py "llama2_raw"), resultados)]
    /\ map Pergunta resultados = perguntas_do_texto text
    /\ Forall (fun r => Modelo r = py "llama2_raw") resultados.
Proof.
  intros Hfile Hcab Hne.
  unfold executar_bateria_testes. unfold bind at 1.
  rewrite (carregar_perguntas_texto env st text Hfile Hcab).
  destruct (perguntas_do_texto text) as [|p ps] eqn:Hp; [congruence|].
  unfold bind at 1. rewrite str_eqb_refl.
  unfold bind at 1 2. unfold print at 1.
  set (st0 := with_console _ (with_console _ st)).
  pose proof (bateria_raw_invoked env (py "llama2_raw") (p :: ps)
                (length (p :: ps)) 1 [] st0) as Hinv.
  destruct (bateria_total (responder_raw env (py "llama2_raw")) (py "llama2_raw")
              (responder_raw_fiel env (py "llama2_raw")) (p :: ps) (length (p :: ps)) 1 [] st0)
    as (novas & st2 & Hb & Hq & Hm & _ & Hd).
  rewrite Hb in Hinv |- *. unfold ret at 1. rewrite executar_bateria_testes_fim.
  destruct Hd as (Hcsv & _). cbn [snd] in Hinv.
  exists novas. eexists. split; [reflexivity|].
  cbn [csv_files invoked with_console with_csv_files app]. rewrite Hcsv, Hinv.
  repeat split; assumption.
Qed.

Lemma bateria_raw_invoca_llama2_witness :
  exists resultados st',
    executar_bateria_testes (mundo (FileText texto_tres_perguntas) backend_ok)
                            (py "llama2_raw") estado_inicial
    = (Ok tt, st')
    /\ invoked st'
       = invoked estado_inicial
         ++ map (fun pergunta => (llm_controle, pergunta))
                (perguntas_do_texto texto_tres_perguntas)
    /\ model llm_controle = py "llama2"
    /\ csv_files st'
       = csv_files estado_inicial
         ++ [(nome_resultados (mundo (FileText texto_tres_perguntas) backend_ok)
                              (py "llama2_raw"), resultados)]
    /\ map Pergunta resultados = perguntas_do_texto texto_tres_perguntas
    /\ Forall (fun r => Modelo r = py "llama2_raw") resultados.
Proof.
  apply (bateria_raw_invoca_llama2
           (mundo (FileText texto_tres_perguntas) backend_ok) estado_inicial
           texto_tres_perguntas).
  - reflexivity.
  - vm_compute. reflexivity.
  - vm_compute. discriminate.
Defined.

(* ================================================================== *)
(** ** The comparative mode *)
(* ================================================================== *)

Lemma desfechos_app (a b : list printed) : desfechos (a ++ b) = desfechos a ++ desfechos b.
Proof.
  induction a as [|m a IH]; [reflexivity|].
  destruct m; cbn [app desfechos]; rewrite IH; reflexivity.
Qed.

Lemma preparar_benchmark_total (env : Env) (st : State) :
  (forall e, saved_index st FAISS_INDEX <> Some (Raise e)) ->
  exists vectorstore msgs st',
    preparar_benchmark env st = (Ok vectorstore, st')
    /\ console st' = console st ++ msgs
    /\ desfechos msgs = []
    /\ csv_files st' = csv_files st.
Proof.
  intros Hsaved. unfold preparar_benchmark.
  unfold bind at 1 2 3. unfold print at 1 2 3. unfold bind at 1.
  autorewrite with estado.
  destruct (load_documents_eq env
              (with_console (console st ++ [PModoBenchmark] ++ [PTestaraSequencialmente]
                             ++ [PCarregandoDocumentos]) st))
    as (msgs & Hsil & ->).
  unfold bind, os_path_exists, FAISS_load_local, FAISS_from_documents, save_local, print, ret.
  autorewrite with estado.
  destruct (saved_index st FAISS_INDEX) as [[snapshot|e]|] eqn:E.
  - repeat (progress (autorewrite with estado; rewrite ?E; cbv beta iota)).
    eexists _, _, _. split; [reflexivity|]. autorewrite with estado.
    split; [reflexivity|]. split; [|reflexivity].
    cbn [app desfechos]. rewrite desfechos_app, Hsil. reflexivity.
  - now destruct (Hsaved e).
  - repeat (progress (autorewrite with estado; rewrite ?E; cbv beta iota)).
    eexists _, _, _. split; [reflexivity|].
    unfold with_console, with_saved_index, with_embedded.
    cbn [console invoked ticks embedded saved_index csv_files].
    split; [reflexivity|]. split; [|reflexivity].
    cbn [app desfechos]. rewrite desfechos_app, Hsil. reflexivity.
Qed.

(** The two truncations. *)
Lemma pergunta_truncada_length (question : str) :
  length (pergunta_truncada question) <= 83.
Proof.
  unfold pergunta_truncada. rewrite length_app.
  pose proof (firstn_le_length 80 question).
  destruct (80 <? length question); cbn [length]; [change (length (py "...")) with 3|]; lia.
Qed.

Lemma resposta_truncada_length (response : str) :
  length (resposta_truncada response) <= 503.
Proof.
  unfold resposta_truncada. rewrite length_app.
  pose proof (firstn_le_length 500 (strip response)).
  destruct (500 <? length response); cbn [length]; [change (length (py "...")) with 3|]; lia.
Qed.

(** A short question is stored as it is; a long one as its first 80
    characters and the mark. *)
Lemma pergunta_truncada_curta (question : str) :
  length question <= 80 -> pergunta_truncada question = question.
Proof.
  intros H. unfold pergunta_truncada.
  rewrite firstn_all2 by exact H.
  replace (80 <? length question) with false
    by (symmetry; apply Nat.ltb_ge; exact H).
  apply app_nil_r.
Qed.

Lemma generate_response_quieto (env : Env) (question : str) (vectorstore : option FAISS)
      (llm : option Ollama) (st : State) :
  console (snd (generate_response env question vectorstore llm st)) = console st
  /\ csv_files (snd (generate_response env question vectorstore llm st)) = csv_files st.
Proof.
  unfold generate_response, bind, time_time, lift, raise, ret, invoke.
  destruct vectorstore as [vs|]; cbn [snd]; [|split; reflexivity].
  destruct (map_M trecho (similarity_search vs question 5)); cbn [snd];
    [|split; reflexivity].
  destruct llm as [llm|]; cbn [snd]; [|split; reflexivity].
  destruct (ollama env _ llm _); cbn [snd]; split; reflexivity.
Qed.

Lemma responder_controle_quieto (env : Env) (question : str) :
  responder_quieto (responder_controle env question) (py "llama2 (CONTROLE)").
Proof.
  intros st. unfold responder_controle, bind.
  rewrite generate_raw_response_default.
  destruct (ollama env (length (invoked st)) llm_controle question); cbn [fst snd].
  - split; [reflexivity|]. split; [reflexivity|]. intros linha [= <-].
    split; [reflexivity|].
    split; [apply pergunta_truncada_length|apply resposta_truncada_length].
  - split; [reflexivity|]. split; [reflexivity|]. discriminate.
Qed.

Lemma responder_modelo_quieto (env : Env) (vectorstore : FAISS)
      (question model_name nome_exibicao : str) :
  responder_quieto (responder_modelo env vectorstore question model_name nome_exibicao)
                   nome_exibicao.
Proof.
  intros st. unfold responder_modelo, bind.
  destruct (generate_response_quieto env question (Some vectorstore)
              (Some {| model := model_name; temperature := 3 # 10;
                       system := PersonaAcademico;
                       num_thread := Some (threads_for model_name) |}) st)
    as [Hcon Hcsv].
  destruct (generate_response env question (Some vectorstore) _ st)
    as [[[[response docs] tempo]|e] st1]; cbn [fst snd] in *.
  - unfold lift. destruct (juntar_fontes docs); cbn [fst snd].
    + split; [assumption|]. split; [assumption|]. intros linha [= <-].
      split; [reflexivity|].
      split; [apply pergunta_truncada_length|apply resposta_truncada_length].
    + split; [assumption|]. split; [assumption|]. discriminate.
  - split; [assumption|]. split; [assumption|]. discriminate.
Qed.

(** One configuration: what [testar] makes of the outcome of its responder. *)
Lemma testar_eq (nome : str) (responder : M Row) (df : list Row) (st : State) :
  testar nome responder df st
  = match responder (with_console (console st ++ [PTestando nome]) st) with
    | (Ok linha, st1) =>
      (Ok (df ++ [linha]),
       with_console (console st1 ++ [POkModelo nome (Tempo linha)]) st1)
    | (Raise e, st1) =>
      (Ok df, with_console (console st1 ++ [PFalha nome (str_exn e)]) st1)
    end.
Proof.
  unfold testar, try_except, bind, print, ret.
  destruct (responder _) as [[linha|e] st1]; reflexivity.
Qed.

Lemma regista_testar (nome : str) (responder : M Row) :
  responder_quieto responder nome -> regista (testar nome responder) [nome].
Proof.
  intros Hq df st. rewrite testar_eq.
  destruct (Hq (with_console (console st ++ [PTestando nome]) st)) as (Hcon & Hcsv & Hl).
  destruct (responder _) as [[linha|e] st1]; cbn [fst snd] in *.
  - destruct (Hl linha eq_refl) as [Hmod Htr].
    exists [linha], [PTestando nome; POkModelo nome (Tempo linha)]. eexists.
    split; [reflexivity|]. autorewrite with estado. rewrite Hcon, Hcsv.
    autorewrite with estado. cbn [app desfechos map filter fst snd].
    repeat split; try congruence. constructor; [exact Htr|constructor].
  - exists [], [PTestando nome; PFalha nome (str_exn e)]. eexists.
    rewrite app_nil_r. split; [reflexivity|]. autorewrite with estado.
    rewrite Hcon, Hcsv. autorewrite with estado.
    cbn [app desfechos map filter fst snd]. repeat split. constructor.
Qed.

Lemma regista_ret : regista (fun df => ret df) [].
Proof.
  intros df st. exists [], [], st. unfold ret.
  rewrite !app_nil_r. repeat split. constructor.
Qed.

Lemma regista_seq (c1 c2 : list Row -> M (list Row)) (nomes1 nomes2 : list str) :
  regista c1 nomes1 -> regista c2 nomes2 ->
  regista (fun df => df' <- c1 df ;; c2 df') (nomes1 ++ nomes2).
Proof.
  intros H1 H2 df st. unfold bind.
  destruct (H1 df st) as (novas1 & msgs1 & st1 & -> & Hcon1 & Hn1 & Hm1 & Ht1 & Hcsv1).
  destruct (H2 (df ++ novas1) st1)
    as (novas2 & msgs2 & st2 & -> & Hcon2 & Hn2 & Hm2 & Ht2 & Hcsv2).
  exists (novas1 ++ novas2), (msgs1 ++ msgs2), st2.
  rewrite <- app_assoc. split; [reflexivity|].
  rewrite desfechos_app, filter_app, !map_app, Hcon2, Hcon1, <- app_assoc.
  repeat split; try congruence. now apply Forall_app.
Qed.

Lemma regista_print (p : printed) (c : list Row -> M (list Row)) (nomes : list str) :
  desfechos [p] = [] -> regista c nomes -> regista (fun df => print p ;; c df) nomes.
Proof.
  intros Hp H df st. unfold bind, print.
  destruct (H df (with_console (console st ++ [p]) st))
    as (novas & msgs & st1 & -> & Hcon & Hn & Hm & Ht & Hcsv).
  exists novas, (p :: msgs), st1. split; [reflexivity|].
  autorewrite with estado in Hcon, Hcsv.
  change (p :: msgs) with ([p] ++ msgs). rewrite desfechos_app, Hp.
  repeat split; assumption.
Qed.

Lemma regista_testar_modelos (env : Env) (vectorstore : FAISS) (question : str)
      (modelos : list (str * str)) :
  regista (testar_modelos env vectorstore question modelos) (map snd modelos).
Proof.
  induction modelos as [|[model_name nome_exibicao] resto IH].
  - exact regista_ret.
  - cbn [testar_modelos map snd].
    change (nome_exibicao :: map snd resto) with ([nome_exibicao] ++ map snd resto).
    apply (regista_seq
             (testar nome_exibicao
                     (responder_modelo env vectorstore question model_name nome_exibicao))
             (testar_modelos env vectorstore question resto)).
    + apply regista_testar, responder_modelo_quieto.
    + exact IH.
Qed.

(** One question: the four configurations are all run, in order. *)
Lemma regista_comparar (env : Env) (vectorstore : FAISS) (question : str) :
  regista (comparar env vectorstore question) nomes_exibicao.
Proof.
  unfold comparar.
  apply (regista_print PProcessandoModelos
           (fun df => df' <- testar (py "llama2 (CONTROLE)")
                                    (responder_controle env question) df ;;
                      testar_modelos env vectorstore question modelos_rag df'));
    [reflexivity|].
  change nomes_exibicao with ([py "llama2 (CONTROLE)"] ++ map snd modelos_rag).
  apply (regista_seq
           (testar (py "llama2 (CONTROLE)") (responder_controle env question))
           (testar_modelos env vectorstore question modelos_rag)).
  - apply regista_testar, responder_controle_quieto.
  - apply regista_testar_modelos.
Qed.

(** The loop over the questions typed, up to the line that says "sair". *)
Lemma regista_loop_perguntas (env : Env) (vectorstore : FAISS)
      (perguntas : list str) (digitado : str) (resto : list str) :
  Forall (fun d => e_sair d = false) perguntas ->
  e_sair digitado = true ->
  regista (loop_perguntas env vectorstore (perguntas ++ digitado :: resto))
          (concat (map (fun _ => nomes_exibicao) perguntas)).
Proof.
  intros Hp Hs. induction Hp as [|d perguntas Hd _ IH].
  - cbn [app map concat loop_perguntas]. unfold e_sair in Hs. rewrite Hs.
    apply (regista_print PDigitePergunta (fun df => ret df)); [reflexivity|].
    exact regista_ret.
  - cbn [app map concat loop_perguntas]. unfold e_sair in Hd. rewrite Hd.
    apply (regista_print PDigitePergunta
             (fun df => df' <- comparar env vectorstore (strip d) df ;;
                        loop_perguntas env vectorstore (perguntas ++ digitado :: resto) df'));
      [reflexivity|].
    apply (regista_seq (comparar env vectorstore (strip d))
                       (loop_perguntas env vectorstore (perguntas ++ digitado :: resto))).
    + apply regista_comparar.
    + exact IH.
Qed.

(** The end of the comparative mode. *)
Lemma salvar_benchmark_eq (env : Env) (df : list Row) (st : State) :
  exists msgs,
    salvar_benchmark env df st
    = (Ok tt,
       with_console (console st ++ msgs)
         (with_csv_files
            (csv_files st
             ++ match df with [] => [] | _ :: _ => [(nome_benchmark env, df)] end) st))
    /\ desfechos msgs = [].
Proof.
  destruct df as [|r df].
  - exists [PNenhumDado]. unfold salvar_benchmark, print, with_console, with_csv_files.
    rewrite app_nil_r. split; reflexivity.
  - exists [PResultados;
            PTabela (map (fun r => (Modelo r, Tempo r)) (r :: df));
            PRelatorioSalvo (nome_benchmark env)].
    unfold salvar_benchmark, bind, to_csv, print, nome_benchmark,
      with_console, with_csv_files.
    cbn [console invoked ticks embedded saved_index csv_files].
    rewrite <- !app_assoc. split; reflexivity.
Qed.

(** A whole session of the comparative mode, the user typing questions
    and then "sair", on a disk whose index, if any, can be read. *)
Lemma benchmark_interativo_relatorio (env : Env) (st : State)
      (perguntas : list str) (digitado : str) (resto : list str) :
  (forall e, saved_index st FAISS_INDEX <> Some (Raise e)) ->
  Forall (fun d => e_sair d = false) perguntas ->
  e_sair digitado = true ->
  exists df msgs st',
    benchmark_interativo env (perguntas ++ digitado :: resto) st = (Ok tt, st')
    /\ console st' = console st ++ msgs
    /\ map fst (desfechos msgs) = concat (map (fun _ => nomes_exibicao) perguntas)
    /\ map Modelo df = map fst (filter snd (desfechos msgs))
    /\ Forall truncada df
    /\ csv_files st'
       = csv_files st ++ match df with [] => [] | _ :: _ => [(nome_benchmark env, df)] end.
Proof.
  intros Hsaved Hp Hs. unfold benchmark_interativo. unfold bind at 1.
  destruct (preparar_benchmark_total env st Hsaved)
    as (vectorstore & msgs0 & st0 & -> & Hcon0 & Hsil0 & Hcsv0).
  unfold bind at 1.
  destruct (regista_loop_perguntas env vectorstore perguntas digitado resto Hp Hs [] st0)
    as (df & msgs1 & st1 & -> & Hcon1 & Hn1 & Hm1 & Ht1 & Hcsv1).
  cbn [app].
  destruct (salvar_benchmark_eq env df st1) as (msgs2 & -> & Hsil2).
  exists df, (msgs0 ++ msgs1 ++ msgs2). eexists. split; [reflexivity|].
  cbn [console csv_files with_console with_csv_files].
  rewrite !desfechos_app, Hsil0, Hsil2, app_nil_r. cbn [app].
  rewrite Hcon1, Hcon0, Hcsv1, Hcsv0, <- !app_assoc.
  repeat split; assumption.
Qed.

(** C1 (as amended).  In comparative mode, for every question, if invoking
    one model configuration fails, the harness prints the failure, stores
    no row for it and continues to the next configuration: the four
    configurations are run in order whatever their outcomes, a row is
    stored for each one that answered and for no other, and the table
    exported at the end of the session holds those rows. *)
Theorem benchmark_falha_sem_linha (env : Env) :
  (forall nome responder df st e st1,
      responder (with_console (console st ++ [PTestando nome]) st) = (Raise e, st1) ->
      testar nome responder df st
      = (Ok df, with_console (console st1 ++ [PFalha nome (str_exn e)]) st1))
  /\
  (forall vectorstore question df st,
      exists novas msgs st',
        comparar env vectorstore question df st = (Ok (df ++ novas), st')
        /\ console st' = console st ++ msgs
        /\ map fst (desfechos msgs)
           = [py "llama2 (CONTROLE)"; py "Mistral (RAG)"; py "Llama2 (RAG)";
              py "TinyLlama (RAG)"]
        /\ map Modelo novas = map fst (filter snd (desfechos msgs)))
  /\
  (forall st perguntas digitado resto,
      (forall e, saved_index st FAISS_INDEX <> Some (Raise e)) ->
      Forall (fun d => e_sair d = false) perguntas ->
      e_sair digitado = true ->
      exists df msgs st',
        benchmark_interativo env (perguntas ++ digitado :: resto) st = (Ok tt, st')
        /\ console st' = console st ++ msgs
        /\ map fst (desfechos msgs) = concat (map (fun _ => nomes_exibicao) perguntas)
        /\ map Modelo df = map fst (filter snd (desfechos msgs))
        /\ csv_files st'
           = csv_files st
             ++ match df with [] => [] | _ :: _ => [(nome_benchmark env, df)] end).
Proof.
  split; [|split].
  - intros nome responder df st e st1 H. now rewrite testar_eq, H.
  - intros vectorstore question df st.
    destruct (regista_comparar env vectorstore question df st)
      as (novas & msgs & st' & H & Hcon & Hn & Hm & _ & _).
    exists novas, msgs, st'. auto.
  - intros st perguntas digitado resto Hsaved Hp Hs.
    destruct (benchmark_interativo_relatorio env st perguntas digitado resto Hsaved Hp Hs)
      as (df & msgs & st' & H & Hcon & Hn & Hm & _ & Hcsv).
    exists df, msgs, st'. auto.
Qed.

Lemma benchmark_falha_sem_linha_witness :
  exists df msgs st',
    benchmark_interativo (mundo FileMissing backend_sem_mistral)
                         ([py "O que e o Wi-Fi 7?"] ++ py " Sair " :: []) estado_inicial
    = (Ok tt, st')
    /\ console st' = console estado_inicial ++ msgs
    /\ map fst (desfechos msgs)
       = concat (map (fun _ => nomes_exibicao) [py "O que e o Wi-Fi 7?"])
    /\ map Modelo df = map fst (filter snd (desfechos msgs))
    /\ csv_files st'
       = csv_files estado_inicial
         ++ match df with
            | [] => []
            | _ :: _ => [(nome_benchmark (mundo FileMissing backend_sem_mistral), df)]
            end.
Proof.
  apply (proj2 (proj2 (benchmark_falha_sem_linha (mundo FileMissing backend_sem_mistral)))
               estado_inicial [py "O que e o Wi-Fi 7?"] (py " Sair ") []).
  - intros e. vm_compute. discriminate.
  - constructor; [vm_compute; reflexivity|constructor].
  - vm_compute. reflexivity.
Defined.

(** C1 as stated fails: with the model "mistral" not provisioned, one
    question is run through the four configurations, the failure of
    "Mistral (RAG)" is printed, and the table exported has three rows, none
    of them for that configuration. *)
Lemma benchmark_falha_nao_registrada :
  exists df st',
    benchmark_interativo (mundo FileMissing backend_sem_mistral)
                         [py "O que e o Wi-Fi 7?"; py "sair"] estado_inicial
    = (Ok tt, st')
    /\ desfechos (console st')
       = [(py "llama2 (CONTROLE)", true); (py "Mistral (RAG)", false);
          (py "Llama2 (RAG)", true); (py "TinyLlama (RAG)", true)]
    /\ csv_files st' = [(py "benchmark_20250101_1200.csv", df)]
    /\ map Modelo df = [py "llama2 (CONTROLE)"; py "Llama2 (RAG)"; py "TinyLlama (RAG)"]
    /\ length df = 3.
Proof. eexists _, _. vm_compute. repeat split. Qed.

(* ================================================================== *)
(** ** A question file written line by line *)
(* ================================================================== *)

Lemma lstrip_length (s : str) : length (lstrip s) <= length s.
Proof.
  induction s as [|c s IH]; cbn [lstrip length]; [lia|].
  destruct (isspace c); cbn [length]; lia.
Qed.

Lemma lstrip_fixo (c : char) (s : str) : lstrip (c :: s) = c :: s -> isspace c = false.
Proof.
  cbn [lstrip]. destruct (isspace c); [|reflexivity].
  intros H. pose proof (lstrip_length s) as Hl. rewrite H in Hl. cbn [length] in Hl. lia.
Qed.

Lemma strip_limpa_LF (l : str) : limpa l -> strip (l ++ [LF]) = l.
Proof.
  intros [Hl Hr]. unfold strip, rstrip.
  assert (Hleft : lstrip (l ++ [LF]) = match l with [] => [] | _ :: _ => l ++ [LF] end).
  { destruct l as [|c l]; [reflexivity|].
    cbn [app lstrip]. now rewrite (lstrip_fixo c l Hl). }
  rewrite Hleft. destruct l as [|c l]; [reflexivity|].
  rewrite rev_app_distr. cbn [rev app lstrip].
  change (isspace LF) with true. cbv iota.
  change (rev l ++ [c]) with (rev (c :: l)). rewrite Hr. apply rev_involutive.
Qed.

Lemma lines_app_LF (l rest : str) :
  ~ In LF l -> lines (l ++ LF :: rest) = (l ++ [LF]) :: lines rest.
Proof.
  induction l as [|c l IH]; intros Hnot.
  - cbn [app lines]. now rewrite N.eqb_refl.
  - cbn [app lines].
    assert (Hc : (c =? LF)%N = false).
    { apply N.eqb_neq. intros ->. apply Hnot. now left. }
    rewrite Hc, IH; [reflexivity|]. intros Hin. apply Hnot. now right.
Qed.

Lemma lines_texto_de_linhas (linhas : list str) :
  Forall (fun l => ~ In LF l) linhas ->
  lines (texto_de_linhas linhas) = map (fun l => l ++ [LF]) linhas.
Proof.
  intros H. induction H as [|l linhas Hl _ IH]; [reflexivity|].
  unfold texto_de_linhas in *. cbn [map concat].
  rewrite <- app_assoc. cbn [app]. now rewrite lines_app_LF, IH.
Qed.

Lemma pergunta_longa_limpa (n : nat) : limpa (pergunta_longa n).
Proof.
  unfold limpa, pergunta_longa. rewrite rev_repeat. split; reflexivity.
Qed.

Lemma pergunta_longa_sem_LF (n : nat) : ~ In LF (pergunta_longa n).
Proof. intros H. apply repeat_spec in H. discriminate. Qed.

Lemma perguntas_do_texto_longa (n : nat) :
  strip (readline (texto_de_linhas [py "Perguntas"; pergunta_longa n; py "/end"]))
  = py "Perguntas"
  /\ perguntas_do_texto (texto_de_linhas [py "Perguntas"; pergunta_longa n; py "/end"])
     = [pergunta_longa n].
Proof.
  assert (Hlines : lines (texto_de_linhas [py "Perguntas"; pergunta_longa n; py "/end"])
                   = [py "Perguntas" ++ [LF]; pergunta_longa n ++ [LF]; py "/end" ++ [LF]]).
  { apply (lines_texto_de_linhas [py "Perguntas"; pergunta_longa n; py "/end"]).
    repeat constructor.
    - vm_compute. intuition discriminate.
    - apply pergunta_longa_sem_LF.
    - vm_compute. intuition discriminate. }
  unfold readline, perguntas_do_texto. rewrite Hlines. cbn [hd tl].
  split; [vm_compute; reflexivity|].
  cbn [antes_do_end]. unfold marca_end.
  rewrite (strip_limpa_LF _ (pergunta_longa_limpa n)).
  change (str_eqb (pergunta_longa n) (py "/end")) with false. cbv iota.
  change (str_eqb (strip (py "/end" ++ [LF])) (py "/end")) with true. cbv iota.
  cbn [map]. rewrite (strip_limpa_LF _ (pergunta_longa_limpa n)). reflexivity.
Qed.

(** C2 (as amended).  In comparative mode every row of the export has its
    question text cut to its first 80 characters plus a "..." mark (at most
    83 characters) and its response cut to the first 500 characters of the
    stripped text plus the mark (at most 503).  In batch mode the response
    of a row is cut to its first 2000 characters when the invocation
    succeeded and is "ERRO: " followed by the whole message when it failed,
    and the question text is stored in full. *)
Theorem linhas_truncadas (env : Env) :
  (forall st perguntas digitado resto,
      (forall e, saved_index st FAISS_INDEX <> Some (Raise e)) ->
      Forall (fun d => e_sair d = false) perguntas ->
      e_sair digitado = true ->
      exists df st',
        benchmark_interativo env (perguntas ++ digitado :: resto) st = (Ok tt, st')
        /\ csv_files st'
           = csv_files st
             ++ match df with [] => [] | _ :: _ => [(nome_benchmark env, df)] end
        /\ Forall (fun r => length (Pergunta r) <= 83 /\ length (Resposta r) <= 503) df)
  /\
  (forall model_name st text,
      perguntas_csv env = FileText text ->
      strip (readline text) = py "Perguntas" ->
      perguntas_do_texto text <> [] ->
      (forall e, saved_index st FAISS_INDEX <> Some (Raise e)) ->
      exists resultados st',
        executar_bateria_testes env model_name st = (Ok tt, st')
        /\ csv_files st' = csv_files st ++ [(nome_resultados env model_name, resultados)]
        /\ map Pergunta resultados = perguntas_do_texto text
        /\ Forall (fun r => length (Resposta r) <= 2000
                            \/ exists e, Resposta r = py "ERRO: " ++ str_exn e)
                  resultados)
  /\
  (forall question,
      pergunta_truncada question
      = firstn 80 question ++ (if 80 <? length question then py "..." else [])
      /\ length (pergunta_truncada question) <= 83)
  /\
  (forall response,
      resposta_truncada response
      = firstn 500 (strip response) ++ (if 500 <? length response then py "..." else [])
      /\ length (resposta_truncada response) <= 503).
Proof.
  split; [|split; [|split]].
  - intros st perguntas digitado resto Hsaved Hp Hs.
    destruct (benchmark_interativo_relatorio env st perguntas digitado resto Hsaved Hp Hs)
      as (df & msgs & st' & H & _ & _ & _ & Ht & Hcsv).
    exists df, st'. auto.
  - intros model_name st text Hfile Hcab Hne Hsaved.
    destruct (executar_bateria_testes_relatorio env model_name st
                (perguntas_do_texto text) (mensagens_do_texto text)
                (carregar_perguntas_texto env st text Hfile Hcab) Hne Hsaved)
      as (resultados & antes & st' & Hrun & Hcsv & Hp & _ & Hres & _).
    exists resultados, st'. auto.
  - intros question. split; [reflexivity|apply pergunta_truncada_length].
  - intros response. split; [reflexivity|apply resposta_truncada_length].
Qed.

Lemma linhas_truncadas_witness :
  exists resultados st',
    executar_bateria_testes (mundo (FileText texto_tres_perguntas) backend_ok)
                            (py "mistral") estado_inicial
    = (Ok tt, st')
    /\ csv_files st'
       = csv_files estado_inicial
         ++ [(nome_resultados (mundo (FileText texto_tres_perguntas) backend_ok)
                              (py "mistral"), resultados)]
    /\ map Pergunta resultados = perguntas_do_texto texto_tres_perguntas
    /\ Forall (fun r => length (Resposta r) <= 2000
                        \/ exists e, Resposta r = py "ERRO: " ++ str_exn e)
              resultados.
Proof.
  apply (proj1 (proj2 (linhas_truncadas (mundo (FileText texto_tres_perguntas) backend_ok)))
               (py "mistral") estado_inicial texto_tres_perguntas).
  - reflexivity.
  - vm_compute. reflexivity.
  - vm_compute. discriminate.
  - intros e. vm_compute. discriminate.
Defined.

(** C2 as stated fails in batch mode: no length bounds the question text of
    the rows exported, since a question of [limite + 1] characters is stored
    whole. *)
Lemma bateria_pergunta_sem_limite :
  ~ exists limite : nat,
      forall env model_name st st' nome resultados,
        executar_bateria_testes env model_name st = (Ok tt, st') ->
        csv_files st' = csv_files st ++ [(nome, resultados)] ->
        Forall (fun r => length (Pergunta r) <= limite) resultados.
Proof.
  intros [limite H].
  set (text := texto_de_linhas [py "Perguntas"; pergunta_longa limite; py "/end"]).
  set (env := mundo (FileText text) backend_ok).
  destruct (perguntas_do_texto_longa limite) as [Hcab Hperg]. fold text in Hcab, Hperg.
  assert (Hne : perguntas_do_texto text <> []) by (rewrite Hperg; discriminate).
  assert (Hsaved : forall e, saved_index estado_inicial FAISS_INDEX <> Some (Raise e))
    by (intros e; discriminate).
  destruct (executar_bateria_testes_relatorio env (py "llama2_raw") estado_inicial
              (perguntas_do_texto text) (mensagens_do_texto text)
              (carregar_perguntas_texto env estado_inicial text eq_refl Hcab) Hne Hsaved)
    as (resultados & antes & st' & Hrun & Hcsv & Hp & _).
  specialize (H env (py "llama2_raw") estado_inicial st' _ resultados Hrun Hcsv).
  rewrite Hperg in Hp. destruct resultados as [|r [|r' rs]]; try discriminate.
  injection Hp as Hp. apply Forall_inv in H. rewrite Hp in H.
  unfold pergunta_longa in H. rewrite repeat_length in H. lia.
Qed.

(** The same question in the two modes: 100 characters are stored whole by
    the batch mode, and as 83 by the comparative mode. *)
Example pergunta_de_100_caracteres :
  length (pergunta_truncada (pergunta_longa 99)) = 83
  /\ exists resultados st',
      executar_bateria_testes
        (mundo (FileText (texto_de_linhas [py "Perguntas"; pergunta_longa 99; py "/end"]))
               backend_ok)
        (py "llama2_raw") estado_inicial
      = (Ok tt, st')
      /\ csv_files st' = [(py "resultados_llama2_raw_20250101_1200.csv", resultados)]
      /\ map (fun r => length (Pergunta r)) resultados = [100].
Proof. split; [reflexivity|]. eexists _, _. vm_compute. repeat split. Qed.

(* ================================================================== *)
(** ** Retrieval *)
(* ================================================================== *)

Section Ordenacao.

Context {A : Type} (key : A -> Q).

Let R (a b : A) : Prop := (key a <= key b)%Q.

Lemma insert_by_perm (x : A) (l : list A) : Permutation (x :: l) (insert_by key x l).
Proof.
  induction l as [|y l IH]; cbn [insert_by]; [reflexivity|].
  destruct (Qle_bool (key x) (key y)); [reflexivity|].
  rewrite perm_swap. now apply perm_skip.
Qed.

Lemma sort_by_perm (l : list A) : Permutation l (sort_by key l).
Proof.
  induction l as [|x l IH]; [reflexivity|].
  unfold sort_by in *. cbn [fold_right].
  rewrite <- insert_by_perm. now apply perm_skip.
Qed.

Lemma insert_by_sorted (x : A) (l : list A) :
  StronglySorted R l -> StronglySorted R (insert_by key x l).
Proof.
  intros Hl. induction Hl as [|y l Hl IH Hy]; cbn [insert_by].
  - constructor; constructor.
  - destruct (Qle_bool (key x) (key y)) eqn:E.
    + apply Qle_bool_iff in E. constructor; [constructor; assumption|].
      constructor; [exact E|].
      eapply Forall_impl; [|exact Hy]. intros z Hz. unfold R in *.
      eapply Qle_trans; eassumption.
    + constructor; [exact IH|].
      apply (Permutation_Forall (insert_by_perm x l)). constructor; [|exact Hy].
      unfold R. apply Qlt_le_weak, Qnot_le_lt. intros H.
      apply Qle_bool_iff in H. congruence.
Qed.

Lemma sort_by_sorted (l : list A) : StronglySorted R (sort_by key l).
Proof.
  induction l as [|x l IH]; [constructor|].
  unfold sort_by in *. cbn [fold_right]. now apply insert_by_sorted.
Qed.

Lemma sort_by_length (l : list A) : length (sort_by key l) = length l.
Proof. symmetry. apply Permutation_length, sort_by_perm. Qed.

End Ordenacao.

(** The search returns the [k] entries nearest to the query (all of them
    when the index holds fewer), nearest first. *)
Lemma similarity_search_spec (vs : FAISS) (query : str) (k : nat) :
  exists ordenadas,
    Permutation (index_entries vs) ordenadas
    /\ StronglySorted (mais_similar (embedding_function vs query)) ordenadas
    /\ similarity_search vs query k = map fst (firstn k ordenadas)
    /\ length (similarity_search vs query k) = Nat.min k (length (index_entries vs)).
Proof.
  exists (sort_by (fun e => distance (embedding_function vs query) (snd e))
                  (index_entries vs)).
  split; [apply sort_by_perm|]. split; [apply sort_by_sorted|]. split; [reflexivity|].
  unfold similarity_search. now rewrite length_map, length_firstn, sort_by_length.
Qed.

Lemma similarity_search_In (vs : FAISS) (query : str) (k : nat) (d : Document) :
  In d (similarity_search vs query k) -> In d (map fst (index_entries vs)).
Proof.
  unfold similarity_search. intros H.
  apply in_map_iff in H as ((d' & v) & <- & H).
  assert (H' : In (d', v) (sort_by (fun e => distance (embedding_function vs query) (snd e))
                                   (index_entries vs))).
  { rewrite <- (firstn_skipn k). apply in_or_app. now left. }
  clear H. rename H' into H.
  apply in_map_iff. exists (d', v). split; [reflexivity|].
  eapply Permutation_in; [symmetry; apply sort_by_perm|exact H].
Qed.

(** ** Rounding *)

Lemma round_half_even_near (x : Q) :
  (Qabs (inject_Z (round_half_even x) - x) <= 1 # 2)%Q.
Proof.
  unfold round_half_even.
  pose proof (Qfloor_le x) as Hlo. pose proof (Qlt_floor x) as Hhi.
  rewrite inject_Z_plus in Hhi. change (inject_Z 1) with 1%Q in Hhi.
  apply Qabs_Qle_condition.
  destruct (x - inject_Z (Qfloor x) ?= 1 # 2)%Q eqn:E.
  - apply Qeq_alt in E.
    destruct (Z.even (Qfloor x)); rewrite ?inject_Z_plus;
      change (inject_Z 1) with 1%Q; split; lra.
  - apply Qlt_alt in E. split; lra.
  - apply Qgt_alt in E. rewrite inject_Z_plus. change (inject_Z 1) with 1%Q. split; lra.
Qed.

(** [round(x, 2)] is a whole number of hundredths, at most half a
    hundredth away from [x]. *)
Lemma round_2 (x : Q) :
  (Py.round x 2 == round_half_even (x * 100) # 100)%Q
  /\ (Qabs (Py.round x 2 - x) <= 1 # 200)%Q.
Proof.
  unfold Py.round. change (inject_Z (10 ^ Z.of_nat 2)) with 100%Q.
  assert (Heq : (Qred (inject_Z (round_half_even (x * 100)) / 100)
                 == round_half_even (x * 100) # 100)%Q).
  { rewrite Qred_correct. unfold Qdiv, Qmult, Qinv, Qeq, inject_Z.
    cbn [Qnum Qden]. lia. }
  split; [exact Heq|]. rewrite Heq.
  pose proof (round_half_even_near (x * 100)) as H.
  apply Qabs_Qle_condition in H. apply Qabs_Qle_condition.
  assert (Hn : (round_half_even (x * 100) # 100
                == inject_Z (round_half_even (x * 100)) * (1 # 100))%Q).
  { unfold Qmult, Qeq, inject_Z. cbn [Qnum Qden]. lia. }
  rewrite Hn. split; lra.
Qed.

(* ================================================================== *)
(** ** generate_response *)
(* ================================================================== *)

Lemma map_M_trecho (docs : list Document) :
  Forall (fun d => meta_source d <> None) docs ->
  map_M trecho docs = Ok (map trecho_texto docs).
Proof.
  intros H. induction H as [|d docs Hd _ IH]; [reflexivity|].
  cbn [map_M map]. rewrite IH. unfold trecho, trecho_texto, metadata_source.
  destruct (meta_source d); [reflexivity|congruence].
Qed.

Lemma juntar_fontes_ok (docs : list Document) :
  Forall (fun d => meta_source d <> None) docs ->
  juntar_fontes docs = Ok (join (py "; ") (map fonte_texto docs)).
Proof.
  intros H. unfold juntar_fontes.
  assert (Hm : map_M fonte docs = Ok (map fonte_texto docs)).
  { induction H as [|d docs Hd _ IH]; [reflexivity|].
    cbn [map_M map]. rewrite IH. unfold fonte, fonte_texto, metadata_source.
    destruct (meta_source d); [reflexivity|congruence]. }
  now rewrite Hm.
Qed.

Lemma similarity_search_fontes (vs : FAISS) (query : str) (k : nat) :
  Forall (fun e => meta_source (fst e) <> None) (index_entries vs) ->
  Forall (fun d => meta_source d <> None) (similarity_search vs query k).
Proof.
  intros H. apply Forall_forall. intros d Hd.
  apply similarity_search_In in Hd. apply in_map_iff in Hd as (e & <- & He).
  rewrite Forall_forall in H. now apply H.
Qed.

(** When every indexed chunk has a source and the backend answers, the
    responder returns the answer, the chunks retrieved and the rounded
    elapsed time, having read the clock twice and invoked the backend once. *)
Lemma generate_response_ok (env : Env) (question : str) (vs : FAISS) (llm : Ollama)
      (st : State) (response : str) :
  Forall (fun e => meta_source (fst e) <> None) (index_entries vs) ->
  ollama env (length (invoked st)) llm
         (montar_prompt (join [LF; LF] (map trecho_texto (similarity_search vs question 5)))
                        question)
  = Ok response ->
  generate_response env question (Some vs) (Some llm) st
  = (Ok (response, similarity_search vs question 5,
         Py.round (clock env (S (ticks st)) - clock env (ticks st)) 2),
     with_ticks (S (S (ticks st)))
       (with_invoked
          (invoked st
           ++ [(llm, montar_prompt
                       (join [LF; LF] (map trecho_texto (similarity_search vs question 5)))
                       question)]) st)).
Proof.
  intros Hsrc Hans.
  unfold generate_response, bind, time_time, ret, lift, invoke.
  rewrite (map_M_trecho _ (similarity_search_fontes vs question 5 Hsrc)).
  cbn [invoked ticks with_ticks with_invoked]. rewrite Hans. reflexivity.
Qed.

(** C4 (as amended).  [generate_response] asks the index for the 5 chunks
    nearest to the question and returns what the search gives, as the cited
    chunks: the first 5 of the indexed chunks in most-to-least-similar
    order, that is 5 chunks when the index holds at least 5 and all of them
    otherwise; with them the elapsed time rounded to two decimal places (a
    whole number of hundredths, within half a hundredth of the time
    measured).  The exported sources field joins the cited chunks in that
    same order as "source (p.page)" pairs separated by "; ". *)
Theorem generate_response_cita_em_ordem (env : Env) (question : str) (vs : FAISS)
        (llm : Ollama) (st : State) (response : str) :
  Forall (fun e => meta_source (fst e) <> None) (index_entries vs) ->
  ollama env (length (invoked st)) llm
         (montar_prompt (join [LF; LF] (map trecho_texto (similarity_search vs question 5)))
                        question)
  = Ok response ->
  exists ordenadas docs elapsed_time st',
    Permutation (index_entries vs) ordenadas
    /\ StronglySorted (mais_similar (embedding_function vs question)) ordenadas
    /\ docs = map fst (firstn 5 ordenadas)
    /\ length docs = Nat.min 5 (length (index_entries vs))
    /\ generate_response env question (Some vs) (Some llm) st
       = (Ok (response, docs, elapsed_time), st')
    /\ elapsed_time = Py.round (clock env (S (ticks st)) - clock env (ticks st)) 2
    /\ (exists n : Z, elapsed_time == n # 100)%Q
    /\ (Qabs (elapsed_time - (clock env (S (ticks st)) - clock env (ticks st)))
        <= 1 # 200)%Q
    /\ juntar_fontes docs = Ok (join (py "; ") (map fonte_texto docs))
    /\ forall model_name,
        exists linha st'',
          responder_rag env model_name (Some vs) (Some llm) question st = (Ok linha, st'')
          /\ Fontes linha = join (py "; ") (map fonte_texto docs).
Proof.
  intros Hsrc Hans.
  destruct (similarity_search_spec vs question 5) as (ordenadas & Hperm & Hsort & Hdocs & Hlen).
  pose proof (round_2 (clock env (S (ticks st)) - clock env (ticks st))) as [Hcent Hnear].
  pose proof (juntar_fontes_ok _ (similarity_search_fontes vs question 5 Hsrc)) as Hf.
  exists ordenadas, (similarity_search vs question 5). eexists _, _.
  split; [exact Hperm|]. split; [exact Hsort|]. split; [exact Hdocs|].
  split; [exact Hlen|].
  split; [exact (generate_response_ok env question vs llm st response Hsrc Hans)|].
  split; [reflexivity|]. split; [eexists; exact Hcent|]. split; [exact Hnear|].
  split; [exact Hf|].
  intros model_name. unfold responder_rag, bind. unfold time_time at 1.
  rewrite (generate_response_ok env question vs llm (with_ticks (S (ticks st)) st)
             response Hsrc Hans).
  unfold lift. rewrite Hf. unfold time_time, ret. eexists _, _. split; reflexivity.
Qed.

(** The scenario of the specification: the query "What is Wi-Fi 7?"
    against the two-chunk index, where the chunk of doc1.pdf is nearer. *)
Lemma generate_response_cita_em_ordem_witness :
  exists ordenadas docs elapsed_time st',
    Permutation (index_entries indice_dois_chunks) ordenadas
    /\ StronglySorted
         (mais_similar (embedding_function indice_dois_chunks (py "What is Wi-Fi 7?")))
         ordenadas
    /\ docs = map fst (firstn 5 ordenadas)
    /\ length docs = Nat.min 5 (length (index_entries indice_dois_chunks))
    /\ generate_response (mundo FileMissing backend_ok) (py "What is Wi-Fi 7?")
                         (Some indice_dois_chunks) (Some (llm_rag (py "mistral")))
                         estado_inicial
       = (Ok (py "O Wi-Fi 7 e o padrao IEEE 802.11be.", docs, elapsed_time), st')
    /\ elapsed_time
       = Py.round (clock (mundo FileMissing backend_ok) (S (ticks estado_inicial))
                   - clock (mundo FileMissing backend_ok) (ticks estado_inicial)) 2
    /\ (exists n : Z, elapsed_time == n # 100)%Q
    /\ (Qabs (elapsed_time
              - (clock (mundo FileMissing backend_ok) (S (ticks estado_inicial))
                 - clock (mundo FileMissing backend_ok) (ticks estado_inicial)))
        <= 1 # 200)%Q
    /\ juntar_fontes docs = Ok (join (py "; ") (map fonte_texto docs))
    /\ forall model_name,
        exists linha st'',
          responder_rag (mundo FileMissing backend_ok) model_name
                        (Some indice_dois_chunks) (Some (llm_rag (py "mistral")))
                        (py "What is Wi-Fi 7?") estado_inicial
          = (Ok linha, st'')
          /\ Fontes linha = join (py "; ") (map fonte_texto docs).
Proof.
  apply (generate_response_cita_em_ordem
           (mundo FileMissing backend_ok) (py "What is Wi-Fi 7?") indice_dois_chunks
           (llm_rag (py "mistral")) estado_inicial
           (py "O Wi-Fi 7 e o padrao IEEE 802.11be.")).
  - repeat constructor; discriminate.
  - reflexivity.
Defined.

(** C4 as stated fails on the index of the scenario itself: it holds 2
    chunks, and the responder retrieves and cites those 2, not 5 -- the
    chunk of doc1.pdf first, as it is the nearer; the time measured, 1.234 s,
    comes back as 1.23. *)
Lemma generate_response_dois_chunks :
  exists st',
    generate_response (mundo FileMissing backend_ok) (py "What is Wi-Fi 7?")
                      (Some indice_dois_chunks) (Some (llm_rag (py "mistral")))
                      estado_inicial
    = (Ok (py "O Wi-Fi 7 e o padrao IEEE 802.11be.", [docA; docB], (123 # 100)%Q), st')
    /\ length [docA; docB] <> 5
    /\ juntar_fontes [docA; docB] = Ok (py "doc1.pdf (p.1); doc2.pdf (p.2)").
Proof. eexists. vm_compute. repeat split. discriminate. Qed.

(* ================================================================== *)
(** ** The question file: further properties *)
(* ================================================================== *)

Lemma lstrip_idem (s : str) : lstrip (lstrip s) = lstrip s.
Proof.
  induction s as [|c r IH]; [reflexivity|].
  simpl. destruct (isspace c) eqn:E; [exact IH|]. simpl. now rewrite E.
Qed.

Lemma lstrip_snoc (s : str) (c : char) :
  isspace c = false -> lstrip (s ++ [c]) = lstrip s ++ [c].
Proof.
  intros Hc. induction s as [|x r IH]; simpl.
  - now rewrite Hc.
  - destruct (isspace x); [exact IH|reflexivity].
Qed.

Lemma rstrip_cons (c : char) (s : str) :
  isspace c = false -> rstrip (c :: s) = c :: rstrip s.
Proof.
  intros Hc. unfold rstrip. simpl rev. rewrite lstrip_snoc by exact Hc.
  now rewrite rev_app_distr.
Qed.

Lemma rstrip_idem (s : str) : rstrip (rstrip s) = rstrip s.
Proof. unfold rstrip. now rewrite rev_involutive, lstrip_idem. Qed.

Lemma lstrip_head (s : str) :
  match lstrip s with
  | [] => True
  | c :: _ => isspace c = false
  end.
Proof.
  induction s as [|c r IH]; simpl; [exact I|].
  destruct (isspace c) eqn:E; [exact IH|exact E].
Qed.

(** [strip] leaves nothing to strip. *)
Lemma strip_idem (s : str) : strip (strip s) = strip s.
Proof.
  unfold strip. pose proof (lstrip_head s) as H.
  destruct (lstrip s) as [|c r].
  - reflexivity.
  - rewrite (rstrip_cons c r H). simpl lstrip. rewrite H.
    rewrite <- (rstrip_cons c r H). apply rstrip_idem.
Qed.

Lemma antes_do_end_sem_marca (linhas : list str) :
  Forall (fun l => marca_end l = false) (antes_do_end linhas).
Proof.
  induction linhas as [|l resto IH]; simpl; [constructor|].
  destruct (marca_end l) eqn:E; [constructor|]. constructor; assumption.
Qed.

Lemma antes_do_end_tudo (linhas : list str) :
  existsb marca_end linhas = false -> antes_do_end linhas = linhas.
Proof.
  induction linhas as [|l resto IH]; simpl; [reflexivity|].
  intros H. apply orb_false_iff in H as [Hl Hr]. rewrite Hl. now rewrite IH.
Qed.

Lemma perguntas_do_texto_limpas (text : str) :
  Forall (fun q => q <> [] /\ strip q = q /\ q <> py "/end") (perguntas_do_texto text).
Proof.
  unfold perguntas_do_texto. apply Forall_forall. intros q Hq.
  apply filter_In in Hq as [Hin Hnv]. apply in_map_iff in Hin as (l & <- & Hl).
  split; [|split].
  - intros E. rewrite E in Hnv. discriminate.
  - apply strip_idem.
  - pose proof (antes_do_end_sem_marca (tl (lines text))) as H.
    rewrite Forall_forall in H. specialize (H l Hl). unfold marca_end in H.
    now apply str_eqb_neq.
Qed.

(** X1.  Whatever the question file is (missing, unreadable, with a wrong
    header, empty, or well formed), [carregar_perguntas] raises nothing: it
    returns a list and changes nothing but the console.  An empty list
    always comes with an error message; a non-empty list comes with no
    error message and ends with the line that reports how many questions
    were loaded. *)
Theorem carregar_perguntas_lista_ou_erro (env : Env) (st : State) :
  exists perguntas msgs,
    carregar_perguntas env st = (Ok perguntas, with_console (console st ++ msgs) st)
    /\ (perguntas = [] -> existsb is_error msgs = true)
    /\ (perguntas <> [] ->
        existsb is_error msgs = false
        /\ last msgs PNenhumDado = PCarregadas (length perguntas)).
Proof.
  destruct (perguntas_csv env) as [| e | text] eqn:Hfile.
  - eexists _, _. split; [exact (carregar_perguntas_ausente env st Hfile)|].
    split; [reflexivity|congruence].
  - destruct (carregar_perguntas_ilegivel env st e Hfile) as (msgs & H & Herr).
    eexists _, _. split; [exact H|]. split; [intros _; exact Herr|congruence].
  - destruct (str_eqb (strip (readline text)) (py "Perguntas")) eqn:E.
    + apply str_eqb_eq in E. eexists _, _.
      split; [exact (carregar_perguntas_texto env st text Hfile E)|].
      unfold mensagens_do_texto.
      destruct (perguntas_do_texto text) as [|p ps]; [split; [reflexivity|congruence]|].
      split; [discriminate|]. intros _.
      destruct (length (p :: ps) =? 100);
        destruct (existsb marca_end (tl (lines text))); split; reflexivity.
    + apply str_eqb_neq in E. eexists _, _.
      split; [exact (carregar_perguntas_cabecalho env st text Hfile E)|].
      split; [reflexivity|congruence].
Qed.

(** X2.  No question that [carregar_perguntas] returns is blank, starts or
    ends with white space, or is the end marker ["/end"]. *)
Theorem carregar_perguntas_limpas (env : Env) (st : State) :
  exists perguntas st',
    carregar_perguntas env st = (Ok perguntas, st')
    /\ Forall (fun q => q <> [] /\ strip q = q /\ q <> py "/end") perguntas.
Proof.
  destruct (perguntas_csv env) as [| e | text] eqn:Hfile.
  - eexists _, _. split; [exact (carregar_perguntas_ausente env st Hfile)|constructor].
  - destruct (carregar_perguntas_ilegivel env st e Hfile) as (msgs & H & _).
    eexists _, _. split; [exact H|constructor].
  - destruct (str_eqb (strip (readline text)) (py "Perguntas")) eqn:E.
    + apply str_eqb_eq in E. eexists _, _.
      split; [exact (carregar_perguntas_texto env st text Hfile E)|].
      apply perguntas_do_texto_limpas.
    + apply str_eqb_neq in E. eexists _, _.
      split; [exact (carregar_perguntas_cabecalho env st text Hfile E)|constructor].
Qed.

(** X3.  A question file with a valid header and at least one question is
    never rejected for lacking the ["/end"] marker: the questions are
    returned all the same, and the warning "Flag /end não encontrada" is
    printed exactly when no line after the header is the marker, in which
    case every non-blank line after the header is a question. *)
Theorem carregar_perguntas_sem_end (env : Env) (st : State) (text : str) :
  perguntas_csv env = FileText text ->
  strip (readline text) = py "Perguntas" ->
  perguntas_do_texto text <> [] ->
  exists msgs,
    carregar_perguntas env st
    = (Ok (perguntas_do_texto text), with_console (console st ++ msgs) st)
    /\ existsb is_error msgs = false
    /\ (In PAvisoSemEnd msgs <-> existsb marca_end (tl (lines text)) = false)
    /\ (existsb marca_end (tl (lines text)) = false ->
        perguntas_do_texto text = filter nao_vazia (map strip (tl (lines text)))).
Proof.
  intros Hfile Hcab Hne. exists (mensagens_do_texto text).
  split; [exact (carregar_perguntas_texto env st text Hfile Hcab)|].
  unfold mensagens_do_texto.
  destruct (perguntas_do_texto text) as [|p ps] eqn:Hp; [congruence|].
  split; [|split].
  - destruct (length (p :: ps) =? 100);
      destruct (existsb marca_end (tl (lines text))); reflexivity.
  - destruct (length (p :: ps) =? 100);
      destruct (existsb marca_end (tl (lines text))); simpl; split;
      intros H; try reflexivity; try discriminate; auto;
      repeat (destruct H as [H|H]; try discriminate); try contradiction.
  - intros Hsem. rewrite <- Hp. unfold perguntas_do_texto.
    now rewrite antes_do_end_tudo.
Qed.

Lemma carregar_perguntas_sem_end_witness :
  exists msgs,
    carregar_perguntas
      (mundo (FileText (texto_de_linhas [py "Perguntas"; py "O que e MLO?"])) backend_ok)
      estado_inicial
    = (Ok (perguntas_do_texto (texto_de_linhas [py "Perguntas"; py "O que e MLO?"])),
       with_console (console estado_inicial ++ msgs) estado_inicial)
    /\ existsb is_error msgs = false
    /\ (In PAvisoSemEnd msgs
        <-> existsb marca_end
              (tl (lines (texto_de_linhas [py "Perguntas"; py "O que e MLO?"]))) = false)
    /\ (existsb marca_end
          (tl (lines (texto_de_linhas [py "Perguntas"; py "O que e MLO?"]))) = false ->
        perguntas_do_texto (texto_de_linhas [py "Perguntas"; py "O que e MLO?"])
        = filter nao_vazia
            (map strip (tl (lines (texto_de_linhas [py "Perguntas"; py "O que e MLO?"]))))).
Proof.
  apply (carregar_perguntas_sem_end
           (mundo (FileText (texto_de_linhas [py "Perguntas"; py "O que e MLO?"])) backend_ok)
           estado_inicial (texto_de_linhas [py "Perguntas"; py "O que e MLO?"])).
  - reflexivity.
  - vm_compute. reflexivity.
  - vm_compute. discriminate.
Defined.

(* ================================================================== *)
(** ** Loading the corpus: further properties *)
(* ================================================================== *)

Lemma load_each_pdfs (files : list (str * outcome (list Document)))
      (documents : list Document) (st : State) :
  load_each files documents st
  = (Ok (documents
         ++ concat (map (fun f => match snd f with Ok pages => pages | Raise _ => [] end)
                        (filter (fun f => endswith (fst f) (py ".pdf")) files))),
     with_console
       (console st
        ++ flat_map (fun f => PProcessando (fst f)
                              :: match snd f with
                                 | Ok _ => []
                                 | Raise e => [PErroArquivo (fst f) (str_exn e)]
                                 end)
                    (filter (fun f => endswith (fst f) (py ".pdf")) files)) st).
Proof.
  revert documents st.
  induction files as [|[pdf_file loaded] rest IH]; intros documents st.
  - cbn [load_each filter map concat flat_map]. unfold ret.
    now rewrite app_nil_r, with_console_same.
  - cbn [load_each filter fst snd]. unfold bind at 1.
    destruct (endswith pdf_file (py ".pdf")).
    + unfold try_except, bind, print, lift, ret. cbn [console with_console].
      destruct loaded as [pages|e].
      * rewrite IH. cbn [map concat flat_map fst snd console with_console app].
        autorewrite with estado. now rewrite <- ?app_assoc.
      * autorewrite with estado. rewrite IH.
        cbn [map concat flat_map fst snd console with_console app].
        autorewrite with estado. reflexivity.
    + unfold ret. now rewrite IH.
Qed.

(** X4.  [load_documents] raises nothing, whatever the files of the corpus
    directory are.  It returns the pages of the files whose name ends with
    ".pdf" and that load, in the order of the directory listing; a PDF that
    fails to load is announced, reported with its error and skipped, and a
    file of another type leaves no trace at all. *)
Theorem load_documents_so_pdfs (env : Env) (st : State) :
  let pdfs := filter (fun f => endswith (fst f) (py ".pdf")) (pdf_dir env) in
  load_documents env st
  = (Ok (concat (map (fun f => match snd f with Ok pages => pages | Raise _ => [] end) pdfs)),
     with_console
       (console st
        ++ PCarregandoProcessando
           :: flat_map (fun f => PProcessando (fst f)
                                 :: match snd f with
                                    | Ok _ => []
                                    | Raise e => [PErroArquivo (fst f) (str_exn e)]
                                    end) pdfs) st).
Proof.
  cbv zeta. unfold load_documents, bind, print. rewrite load_each_pdfs.
  cbn [console with_console app]. autorewrite with estado. reflexivity.
Qed.

(* ================================================================== *)
(** ** generate_response: further properties *)
(* ================================================================== *)

Lemma map_M_trecho_sem_fonte (docs : list Document) :
  (exists d, In d docs /\ meta_source d = None) ->
  map_M trecho docs = Raise (KeyError (py "source")).
Proof.
  induction docs as [|d0 rest IH]; intros (d & Hin & Hd); [contradiction|].
  cbn [map_M]. unfold trecho at 1, metadata_source.
  destruct (meta_source d0) as [s|] eqn:E; [|reflexivity].
  destruct Hin as [->|Hin]; [congruence|].
  rewrite IH; [reflexivity|]. now exists d.
Qed.

(** X5.  When one of the chunks the search returns has no 'source' entry in
    its metadata, [generate_response] raises [KeyError('source')] while it
    builds the context: the model is not invoked, nothing is printed, and
    the clock has been read once. *)
Theorem generate_response_sem_fonte (env : Env) (question : str) (vs : FAISS)
        (llm : option Ollama) (st : State) :
  (exists d, In d (similarity_search vs question 5) /\ meta_source d = None) ->
  generate_response env question (Some vs) llm st
  = (Raise (KeyError (py "source")), with_ticks (S (ticks st)) st)
  /\ invoked (with_ticks (S (ticks st)) st) = invoked st
  /\ console (with_ticks (S (ticks st)) st) = console st.
Proof.
  intros H. split; [|split; reflexivity].
  unfold generate_response, bind, time_time, ret, lift.
  now rewrite (map_M_trecho_sem_fonte _ H).
Qed.

Lemma join_contem (sep : str) (parts : list str) (t : str) :
  In t parts -> exists a b, join sep parts = a ++ t ++ b.
Proof.
  induction parts as [|p rest IH]; intros Hin; [contradiction|].
  cbn [join]. destruct rest as [|p' rest'].
  - destruct Hin as [->|[]]. exists [], []. now rewrite app_nil_r.
  - destruct Hin as [->|Hin].
    + exists [], (sep ++ join sep (p' :: rest')). reflexivity.
    + destruct (IH Hin) as (a & b & ->).
      exists (p ++ sep ++ a), b. now rewrite <- !app_assoc.
Qed.

Lemma app_dentro {A} (x1 x2 t y1 y2 : list A) :
  x1 ++ (x2 ++ t ++ y1) ++ y2 = (x1 ++ x2) ++ t ++ (y1 ++ y2).
Proof. now rewrite <- !app_assoc. Qed.

Lemma montar_prompt_termina (context question : str) :
  montar_prompt context question
  = (py "Com base nestes trechos:" ++ [LF] ++ py "    " ++ context ++ [LF]
     ++ py "    Responda à pergunta abaixo com suas próprias palavras." ++ [LF]
     ++ py "    Pergunta: ") ++ question.
Proof. unfold montar_prompt. now rewrite <- !app_assoc. Qed.

Lemma montar_prompt_contem (a t b question : str) :
  montar_prompt (a ++ t ++ b) question
  = (py "Com base nestes trechos:" ++ [LF] ++ py "    " ++ a) ++ t
    ++ (b ++ [LF] ++ py "    Responda à pergunta abaixo com suas próprias palavras."
        ++ [LF] ++ py "    Pergunta: " ++ question).
Proof. unfold montar_prompt. now rewrite <- !app_assoc. Qed.

Lemma trecho_texto_contem (d : Document) :
  trecho_texto d
  = (py "Fonte: " ++ basename (match meta_source d with Some s => s | None => [] end)
     ++ py " (Página " ++ metadata_page d ++ py ")" ++ [LF] ++ py "Conteúdo: ")
    ++ page_content d ++ ([LF] ++ py "------").
Proof. unfold trecho_texto. now rewrite <- !app_assoc. Qed.

(** X6.  When every chunk of the index carries its source,
    [generate_response] invokes the model exactly once, whether the model
    answers or fails, and prints nothing.  The prompt it sends ends with
    the question, and contains the text of every chunk the search
    returned. *)
Theorem generate_response_prompt (env : Env) (question : str) (vs : FAISS)
        (llm : Ollama) (st : State) :
  Forall (fun e => meta_source (fst e) <> None) (index_entries vs) ->
  exists p,
    invoked (snd (generate_response env question (Some vs) (Some llm) st))
    = invoked st ++ [(llm, p)]
    /\ (exists antes, p = antes ++ question)
    /\ (forall d, In d (similarity_search vs question 5) ->
          exists antes depois, p = antes ++ page_content d ++ depois)
    /\ console (snd (generate_response env question (Some vs) (Some llm) st)) = console st.
Proof.
  intros Hsrc.
  exists (montar_prompt (join [LF; LF] (map trecho_texto (similarity_search vs question 5)))
                        question).
  unfold generate_response, bind, time_time, ret, lift, invoke.
  rewrite (map_M_trecho _ (similarity_search_fontes vs question 5 Hsrc)).
  cbn [invoked with_ticks ticks].
  split; [|split; [|split]].
  - destruct (ollama env _ llm _); reflexivity.
  - eexists. apply montar_prompt_termina.
  - intros d Hd.
    destruct (join_contem [LF; LF] (map trecho_texto (similarity_search vs question 5))
                          (trecho_texto d) (in_map _ _ _ Hd)) as (a & b & ->).
    rewrite montar_prompt_contem, trecho_texto_contem.
    eexists (_ ++ _), (_ ++ _). apply app_dentro.
  - destruct (ollama env _ llm _); reflexivity.
Qed.

Lemma generate_response_sem_fonte_witness :
  generate_response (mundo FileMissing backend_ok) (py "What is Wi-Fi 7?")
    (Some {| embedding_function := fun text => [inject_Z (Z.of_nat (length text))];
             index_entries :=
               [ ({| page_content := py "MLO"; meta_source := None; meta_page := None |},
                  [3%Q]) ] |})
    (Some (llm_rag (py "mistral"))) estado_inicial
  = (Raise (KeyError (py "source")), with_ticks (S (ticks estado_inicial)) estado_inicial)
  /\ invoked (with_ticks (S (ticks estado_inicial)) estado_inicial) = invoked estado_inicial
  /\ console (with_ticks (S (ticks estado_inicial)) estado_inicial) = console estado_inicial.
Proof.
  apply (generate_response_sem_fonte (mundo FileMissing backend_ok)).
  eexists. split; [left; reflexivity|reflexivity].
Defined.

Lemma generate_response_prompt_witness :
  exists p,
    invoked (snd (generate_response (mundo FileMissing backend_ok) (py "What is Wi-Fi 7?")
                    (Some indice_dois_chunks) (Some (llm_rag (py "mistral")))
                    estado_inicial))
    = invoked estado_inicial ++ [(llm_rag (py "mistral"), p)]
    /\ (exists antes, p = antes ++ py "What is Wi-Fi 7?")
    /\ (forall d, In d (similarity_search indice_dois_chunks (py "What is Wi-Fi 7?") 5) ->
          exists antes depois, p = antes ++ page_content d ++ depois)
    /\ console (snd (generate_response (mundo FileMissing backend_ok)
                       (py "What is Wi-Fi 7?") (Some indice_dois_chunks)
                       (Some (llm_rag (py "mistral"))) estado_inicial))
       = console estado_inicial.
Proof.
  apply (generate_response_prompt (mundo FileMissing backend_ok)).
  repeat constructor; discriminate.
Defined.

(* ================================================================== *)
(** ** The comparative mode: further properties *)
(* ================================================================== *)

Lemma strip_length (s : str) : length (strip s) <= length s.
Proof.
  unfold strip, rstrip. rewrite length_rev.
  pose proof (lstrip_length (rev (lstrip s))) as H1.
  pose proof (lstrip_length s) as H2. rewrite length_rev in H1. lia.
Qed.

(** X7.  The response stored by the comparative mode is the stripped
    response cut to 500 characters, but the "..." mark is decided on the
    length of the response before it is stripped.  A response of at most
    500 characters is stored whole, without the mark; a response longer
    than 500 characters only by the white space around it is stored whole
    and yet carries the mark; a response whose stripped text is longer
    than 500 characters is cut to 500 and carries the mark. *)
Theorem resposta_truncada_marca (response : str) :
  (length response <= 500 -> resposta_truncada response = strip response)
  /\ (500 < length response -> length (strip response) <= 500 ->
      resposta_truncada response = strip response ++ py "...")
  /\ (500 < length (strip response) ->
      resposta_truncada response = firstn 500 (strip response) ++ py "..."
      /\ length (resposta_truncada response) = 503).
Proof.
  pose proof (strip_length response) as Hs. unfold resposta_truncada.
  split; [|split].
  - intros H. rewrite firstn_all2 by lia.
    replace (500 <? length response) with false by (symmetry; apply Nat.ltb_ge; lia).
    apply app_nil_r.
  - intros H1 H2. rewrite firstn_all2 by lia.
    replace (500 <? length response) with true by (symmetry; apply Nat.ltb_lt; lia).
    reflexivity.
  - intros H.
    replace (500 <? length response) with true by (symmetry; apply Nat.ltb_lt; lia).
    split; [reflexivity|].
    rewrite length_app, length_firstn. change (length (py "...")) with 3. lia.
Qed.

Lemma resposta_truncada_marca_witness :
  resposta_truncada (repeat 97%N 400 ++ repeat 32%N 200) = repeat 97%N 400 ++ py "...".
Proof.
  change (repeat 97%N 400) with (strip (repeat 97%N 400 ++ repeat 32%N 200)) at 2.
  apply (proj1 (proj2 (resposta_truncada_marca (repeat 97%N 400 ++ repeat 32%N 200)))).
  - vm_compute. lia.
  - vm_compute. lia.
Defined.

Lemma responder_controle_invoked (env : Env) (question : str) (st : State) :
  invoked (snd (responder_controle env question st))
  = invoked st ++ [(llm_controle, question)].
Proof.
  unfold responder_controle, bind. rewrite generate_raw_response_default.
  destruct (ollama env (length (invoked st)) llm_controle question); reflexivity.
Qed.

Lemma responder_modelo_invoked (env : Env) (vs : FAISS)
      (question model_name nome_exibicao : str) (st : State) :
  Forall (fun e => meta_source (fst e) <> None) (index_entries vs) ->
  invoked (snd (responder_modelo env vs question model_name nome_exibicao st))
  = invoked st
    ++ [(llm_rag model_name,
         montar_prompt (join [LF; LF] (map trecho_texto (similarity_search vs question 5)))
                       question)].
Proof.
  intros Hsrc. pose proof (similarity_search_fontes vs question 5 Hsrc) as Hdocs.
  unfold responder_modelo, generate_response, bind, time_time, ret, lift, invoke.
  rewrite (map_M_trecho _ Hdocs). cbn [invoked with_ticks ticks].
  destruct (ollama env _ _ _); [|reflexivity].
  rewrite (juntar_fontes_ok _ Hdocs). reflexivity.
Qed.

Lemma testar_invoked (nome : str) (responder : M Row) (df : list Row) (st : State)
      (novas : list (Ollama * prompt)) :
  (forall st0, invoked (snd (responder st0)) = invoked st0 ++ novas) ->
  exists df' st',
    testar nome responder df st = (Ok df', st')
    /\ invoked st' = invoked st ++ novas.
Proof.
  intros H. rewrite testar_eq.
  specialize (H (with_console (console st ++ [PTestando nome]) st)).
  destruct (responder _) as [[linha|e] st1]; cbn [snd] in H;
    eexists _, _; (split; [reflexivity|]); autorewrite with estado in *; exact H.
Qed.

Lemma testar_modelos_invoked (env : Env) (vs : FAISS) (question : str)
      (modelos : list (str * str)) :
  Forall (fun e => meta_source (fst e) <> None) (index_entries vs) ->
  forall (df : list Row) (st : State),
  exists df' st',
    testar_modelos env vs question modelos df st = (Ok df', st')
    /\ invoked st'
       = invoked st
         ++ map (fun m =>
                   (llm_rag (fst m),
                    montar_prompt
                      (join [LF; LF] (map trecho_texto (similarity_search vs question 5)))
                      question)) modelos.
Proof.
  intros Hsrc. induction modelos as [|[model_name nome_exibicao] resto IH]; intros df st.
  - exists df, st. cbn [testar_modelos map]. now rewrite app_nil_r.
  - cbn [testar_modelos map fst]. unfold bind.
    destruct (testar_invoked nome_exibicao
                (responder_modelo env vs question model_name nome_exibicao) df st _
                (fun st0 => responder_modelo_invoked env vs question model_name
                              nome_exibicao st0 Hsrc))
      as (df1 & st1 & -> & Hinv1).
    destruct (IH df1 st1) as (df2 & st2 & -> & Hinv2).
    exists df2, st2. split; [reflexivity|].
    rewrite Hinv2, Hinv1, <- app_assoc. reflexivity.
Qed.

(** X8.  In the comparative mode one question costs exactly four
    invocations of the backend, whatever their outcomes, when every chunk
    of the index carries its source: the question alone to "llama2" under
    the control persona, then one and the same prompt (the retrieved
    context and the question) to "mistral", "llama2" and "tinyllama", in
    this order, each with 4 threads but "tinyllama", which has 2. *)
Theorem comparar_invoca_quatro (env : Env) (vs : FAISS) (question : str)
        (df : list Row) (st : State) :
  Forall (fun e => meta_source (fst e) <> None) (index_entries vs) ->
  exists df' st' p,
    comparar env vs question df st = (Ok df', st')
    /\ p = montar_prompt
             (join [LF; LF] (map trecho_texto (similarity_search vs question 5))) question
    /\ invoked st'
       = invoked st
         ++ [ (llm_controle, question); (llm_rag (py "mistral"), p);
              (llm_rag (py "llama2"), p); (llm_rag (py "tinyllama"), p) ]
    /\ map (fun c => (model (fst c), num_thread (fst c)))
           [ (llm_controle, question); (llm_rag (py "mistral"), p);
             (llm_rag (py "llama2"), p); (llm_rag (py "tinyllama"), p) ]
       = [ (py "llama2", None); (py "mistral", Some 4);
           (py "llama2", Some 4); (py "tinyllama", Some 2) ].
Proof.
  intros Hsrc. unfold comparar. unfold bind at 1. unfold print at 1. unfold bind at 1.
  destruct (testar_invoked (py "llama2 (CONTROLE)") (responder_controle env question) df
              (with_console (console st ++ [PProcessandoModelos]) st) _
              (responder_controle_invoked env question))
    as (df1 & st1 & -> & Hinv1).
  destruct (testar_modelos_invoked env vs question modelos_rag Hsrc df1 st1)
    as (df2 & st2 & -> & Hinv2).
  eexists df2, st2, _. split; [reflexivity|]. split; [reflexivity|].
  split.
  - rewrite Hinv2, Hinv1. autorewrite with estado. reflexivity.
  - reflexivity.
Qed.

Lemma comparar_invoca_quatro_witness :
  exists df' st' p,
    comparar (mundo FileMissing backend_sem_mistral) indice_dois_chunks
             (py "What is Wi-Fi 7?") [] estado_inicial
    = (Ok df', st')
    /\ p = montar_prompt
             (join [LF; LF]
                   (map trecho_texto
                        (similarity_search indice_dois_chunks (py "What is Wi-Fi 7?") 5)))
             (py "What is Wi-Fi 7?")
    /\ invoked st'
       = invoked estado_inicial
         ++ [ (llm_controle, py "What is Wi-Fi 7?"); (llm_rag (py "mistral"), p);
              (llm_rag (py "llama2"), p); (llm_rag (py "tinyllama"), p) ]
    /\ map (fun c => (model (fst c), num_thread (fst c)))
           [ (llm_controle, py "What is Wi-Fi 7?"); (llm_rag (py "mistral"), p);
             (llm_rag (py "llama2"), p); (llm_rag (py "tinyllama"), p) ]
       = [ (py "llama2", None); (py "mistral", Some 4);
           (py "llama2", Some 4); (py "tinyllama", Some 2) ].
Proof.
  apply (comparar_invoca_quatro (mundo FileMissing backend_sem_mistral)).
  repeat constructor; discriminate.
Defined.

Lemma loop_perguntas_sem_sair (env : Env) (vs : FAISS) (entrada : list str) :
  Forall (fun d => e_sair d = false) entrada ->
  forall (df : list Row) (st : State),
  exists msgs st',
    loop_perguntas env vs entrada df st = (Raise EOFError, st')
    /\ console st' = console st ++ msgs
    /\ map fst (desfechos msgs) = concat (map (fun _ => nomes_exibicao) entrada)
    /\ csv_files st' = csv_files st.
Proof.
  intros H. induction H as [|d entrada Hd _ IH]; intros df st.
  - exists [PDigitePergunta]. eexists. cbn [loop_perguntas]. unfold bind, print, raise.
    repeat split.
  - cbn [loop_perguntas]. unfold e_sair in Hd. rewrite Hd. unfold bind at 1 2.
    unfold print at 1.
    destruct (regista_comparar env vs (strip d) df
                (with_console (console st ++ [PDigitePergunta]) st))
      as (novas & msgs1 & st1 & -> & Hcon1 & Hn1 & _ & _ & Hcsv1).
    destruct (IH (df ++ novas) st1) as (msgs2 & st2 & -> & Hcon2 & Hn2 & Hcsv2).
    exists (PDigitePergunta :: msgs1 ++ msgs2), st2. split; [reflexivity|].
    autorewrite with estado in Hcon1, Hcsv1.
    split; [rewrite Hcon2, Hcon1; cbn [app]; now rewrite <- !app_assoc|].
    split; [|congruence].
    cbn [desfechos map concat]. now rewrite desfechos_app, map_app, Hn1, Hn2.
Qed.

(** X9.  In the comparative mode, when the input ends before a line that
    says "sair" was typed, every question typed has been put to the four
    configurations, and then [EOFError] is raised at the prompt: the
    function never reaches the export, so that no file is written and the
    rows collected are lost. *)
Theorem benchmark_interativo_sem_sair (env : Env) (st : State) (entrada : list str) :
  (forall e, saved_index st FAISS_INDEX <> Some (Raise e)) ->
  Forall (fun d => e_sair d = false) entrada ->
  exists msgs st',
    benchmark_interativo env entrada st = (Raise EOFError, st')
    /\ console st' = console st ++ msgs
    /\ map fst (desfechos msgs) = concat (map (fun _ => nomes_exibicao) entrada)
    /\ csv_files st' = csv_files st.
Proof.
  intros Hsaved Hent. unfold benchmark_interativo. unfold bind at 1.
  destruct (preparar_benchmark_total env st Hsaved)
    as (vs & msgs0 & st0 & -> & Hcon0 & Hsil0 & Hcsv0).
  unfold bind at 1.
  destruct (loop_perguntas_sem_sair env vs entrada Hent [] st0)
    as (msgs1 & st1 & -> & Hcon1 & Hn1 & Hcsv1).
  exists (msgs0 ++ msgs1), st1. split; [reflexivity|].
  split; [rewrite Hcon1, Hcon0; now rewrite <- app_assoc|].
  split; [|congruence].
  now rewrite desfechos_app, Hsil0.
Qed.

Lemma benchmark_interativo_sem_sair_witness :
  exists msgs st',
    benchmark_interativo (mundo FileMissing backend_ok) [py "O que e o Wi-Fi 7?"]
                         estado_inicial
    = (Raise EOFError, st')
    /\ console st' = console estado_inicial ++ msgs
    /\ map fst (desfechos msgs)
       = concat (map (fun _ => nomes_exibicao) [py "O que e o Wi-Fi 7?"])
    /\ csv_files st' = csv_files estado_inicial.
Proof.
  apply (benchmark_interativo_sem_sair (mundo FileMissing backend_ok)).
  - intros e. discriminate.
  - repeat constructor.
Defined.

(** X10.  In the comparative mode, when the first line typed says "sair"
    (in any letter case, with white space around it or not), no model is
    invoked, no file is written, and the session ends on the message
    "Nenhum dado foi coletado". *)
Theorem benchmark_interativo_so_sair (env : Env) (st : State) (digitado : str)
        (resto : list str) :
  (forall e, saved_index st FAISS_INDEX <> Some (Raise e)) ->
  e_sair digitado = true ->
  exists st',
    benchmark_interativo env (digitado :: resto) st = (Ok tt, st')
    /\ invoked st' = invoked st
    /\ csv_files st' = csv_files st
    /\ last (console st') PResultados = PNenhumDado.
Proof.
  intros Hsaved Hs. unfold benchmark_interativo. unfold bind at 1.
  assert (Hprep : exists vs st0, preparar_benchmark env st = (Ok vs, st0)
                                 /\ invoked st0 = invoked st
                                 /\ csv_files st0 = csv_files st).
  { destruct (saved_index st FAISS_INDEX) as [[snapshot|e]|] eqn:E.
    - destruct (preparar_benchmark_carrega env st snapshot E) as (msgs & ->).
      eexists _, _. repeat split.
    - now destruct (Hsaved e).
    - destruct (preparar_benchmark_cria env st E) as (msgs & ->).
      eexists _, _. repeat split. }
  destruct Hprep as (vs & st0 & -> & Hinv & Hcsv).
  cbn [loop_perguntas]. unfold e_sair in Hs. rewrite Hs.
  unfold bind, print, ret, salvar_benchmark.
  eexists. split; [reflexivity|].
  autorewrite with estado. repeat split; try assumption.
  rewrite app_assoc. apply last_last.
Qed.

Lemma benchmark_interativo_so_sair_witness :
  exists st',
    benchmark_interativo (mundo FileMissing backend_ok) (py "  SAIR " :: []) estado_inicial
    = (Ok tt, st')
    /\ invoked st' = invoked estado_inicial
    /\ csv_files st' = csv_files estado_inicial
    /\ last (console st') PResultados = PNenhumDado.
Proof.
  apply (benchmark_interativo_so_sair (mundo FileMissing backend_ok)).
  - intros e. discriminate.
  - reflexivity.
Defined.

(* ================================================================== *)
(** ** The batch mode: further properties *)
(* ================================================================== *)

(** X11.  In batch mode with a RAG model, when the index folder exists but
    cannot be read, the failure of the load is not caught by
    [executar_bateria_testes]: the exception leaves the function once the
    questions are loaded, before any question is put to the model, and no
    file is written. *)
Theorem executar_bateria_testes_indice_ilegivel (env : Env) (model_name : str)
        (st : State) (text : str) (e : exn) :
  perguntas_csv env = FileText text ->
  strip (readline text) = py "Perguntas" ->
  perguntas_do_texto text <> [] ->
  str_eqb model_name (py "llama2_raw") = false ->
  saved_index st FAISS_INDEX = Some (Raise e) ->
  exists st',
    executar_bateria_testes env model_name st = (Raise e, st')
    /\ invoked st' = invoked st
    /\ csv_files st' = csv_files st.
Proof.
  intros Hfile Hcab Hne Hraw Hsaved.
  destruct (carregar_perguntas_com_perguntas env st text Hfile Hcab Hne)
    as (p & ps & _ & Hc).
  unfold executar_bateria_testes. unfold bind at 1. rewrite Hc.
  unfold bind at 1. rewrite Hraw. unfold bind at 1.
  destruct (setup_rag_system_corrompido env model_name
              (with_console (console st ++ mensagens_do_texto text) st) e Hraw Hsaved)
    as (msgs & ->).
  eexists. repeat split.
Qed.

Lemma executar_bateria_testes_indice_ilegivel_witness :
  exists st',
    executar_bateria_testes
      (mundo (FileText texto_tres_perguntas) backend_ok) (py "mistral")
      (with_saved_index
         (fun path => if str_eqb path FAISS_INDEX
                      then Some (Raise (Exception (py "could not open index.faiss")))
                      else None)
         estado_inicial)
    = (Raise (Exception (py "could not open index.faiss")), st')
    /\ invoked st' = []
    /\ csv_files st' = [].
Proof.
  apply (executar_bateria_testes_indice_ilegivel
           (mundo (FileText texto_tres_perguntas) backend_ok) (py "mistral")
           (with_saved_index
              (fun path => if str_eqb path FAISS_INDEX
                           then Some (Raise (Exception (py "could not open index.faiss")))
                           else None)
              estado_inicial)
           texto_tres_perguntas).
  - reflexivity.
  - vm_compute. reflexivity.
  - vm_compute. discriminate.
  - reflexivity.
  - reflexivity.
Defined.

Lemma startswith_app (p s : str) : startswith (p ++ s) p = true.
Proof.
  induction p as [|x p IH]; [destruct s; reflexivity|].
  cbn [app startswith]. now rewrite N.eqb_refl, IH.
Qed.

Lemma bateria_so_falhas (responder : str -> M Row) (model_name : str) :
  (forall q st, exists e st', responder q st = (Raise e, st')) ->
  forall (perguntas : list str) (total i : nat) (resultados : list Row) (st : State),
  exists novas st',
    bateria responder model_name total i perguntas resultados st
    = (Ok (resultados ++ novas), st')
    /\ map Pergunta novas = perguntas
    /\ Forall (fun r => exists q e, r = linha_erro model_name q e) novas.
Proof.
  intros Hr perguntas.
  induction perguntas as [|pergunta resto IH]; intros total i resultados st.
  - exists [], st. cbn [bateria]. unfold ret. rewrite app_nil_r. repeat split. constructor.
  - destruct (Hr pergunta (anunciada total i pergunta st)) as (e & st1 & Hresp).
    rewrite (bateria_falha _ _ _ _ _ _ _ _ _ _ Hresp).
    destruct (IH total (S i) (resultados ++ [linha_erro model_name pergunta e])
                 (with_console (console st1 ++ [PErro (str_exn e)]) st1))
      as (novas & st' & -> & Hp & Hall).
    exists (linha_erro model_name pergunta e :: novas), st'.
    rewrite <- app_assoc. split; [reflexivity|].
    split; [cbn [map Pergunta linha_erro]; congruence|].
    constructor; [now exists pergunta, e|exact Hall].
Qed.

Lemma respondidas_so_falhas (model_name : str) (resultados : list Row) :
  Forall (fun r => exists q e, r = linha_erro model_name q e) resultados ->
  respondidas resultados = 0.
Proof.
  intros H. unfold respondidas. induction H as [|r rs (q & e & ->) _ IH]; [reflexivity|].
  cbn [filter]. rewrite linha_erro_marcada. exact IH.
Qed.

Lemma responder_raw_falha (env : Env) (model_name : str) :
  (forall n llm p, exists e, ollama env n llm p = Raise e) ->
  forall q st, exists e st', responder_raw env model_name q st = (Raise e, st').
Proof.
  intros Hfora q st. rewrite responder_raw_eq.
  destruct (Hfora (length (invoked st)) llm_controle q) as (e & ->).
  now eexists _, _.
Qed.

Lemma responder_rag_falha (env : Env) (model_name : str) (vectorstore : option FAISS)
      (llm : option Ollama) :
  (forall n llm p, exists e, ollama env n llm p = Raise e) ->
  forall q st, exists e st', responder_rag env model_name vectorstore llm q st = (Raise e, st').
Proof.
  intros Hfora q st.
  unfold responder_rag, generate_response, bind, time_time, ret, lift, raise, invoke.
  destruct vectorstore as [vs|]; [|now eexists _, _].
  destruct (map_M trecho (similarity_search vs q 5)) as [trechos|]; [|now eexists _, _].
  destruct llm as [llm|]; [|now eexists _, _].
  cbn [invoked with_ticks].
  destruct (Hfora (length (invoked st)) llm
              (montar_prompt (join [LF; LF] trechos) q)) as (e & ->).
  now eexists _, _.
Qed.

(** X12.  In batch mode, with either kind of model, when the backend
    answers no invocation the run is not interrupted: every question gets
    its row, each row carrying the error marker, the time 0 and the
    sources "N/A"; the export is written, and the run reports 0 answered
    out of the number of questions. *)
Theorem executar_bateria_testes_backend_fora (env : Env) (model_name : str)
        (st : State) (text : str) :
  perguntas_csv env = FileText text ->
  strip (readline text) = py "Perguntas" ->
  perguntas_do_texto text <> [] ->
  (forall e, saved_index st FAISS_INDEX <> Some (Raise e)) ->
  (forall n llm p, exists e, ollama env n llm p = Raise e) ->
  exists resultados st',
    executar_bateria_testes env model_name st = (Ok tt, st')
    /\ csv_files st' = csv_files st ++ [(nome_resultados env model_name, resultados)]
    /\ map Pergunta resultados = perguntas_do_texto text
    /\ Forall (fun r => Tempo r = 0%Q
                        /\ startswith (Resposta r) (py "ERRO: ") = true
                        /\ Fontes r = py "N/A") resultados
    /\ last (console st') PNenhumDado
       = PTotalRespondidas 0 (length (perguntas_do_texto text)).
Proof.
  intros Hfile Hcab Hne Hsaved Hfora.
  destruct (executar_bateria_testes_relatorio env model_name st (perguntas_do_texto text)
              (mensagens_do_texto text)
              (carregar_perguntas_texto env st text Hfile Hcab) Hne Hsaved)
    as (resultados & antes & st' & Hrun & Hcsv & Hperg & _ & _ & Hcon
        & responder & st0 & Hresp & Hbat).
  assert (Hfalha : forall q st1, exists e st2, responder q st1 = (Raise e, st2)).
  { destruct Hresp as [->|(vectorstore & llm & ->)];
      [now apply responder_raw_falha|now apply responder_rag_falha]. }
  destruct (bateria_so_falhas responder model_name Hfalha (perguntas_do_texto text)
              (length (perguntas_do_texto text)) 1 [] st0)
    as (novas & st2 & Hb & _ & Hall).
  rewrite Hb in Hbat. cbn [fst app] in Hbat. injection Hbat as <-.
  exists novas, st'. split; [exact Hrun|]. split; [exact Hcsv|]. split; [exact Hperg|].
  split.
  - eapply Forall_impl; [|exact Hall]. intros r (q & e & ->).
    split; [reflexivity|]. split; [|reflexivity].
    exact (startswith_app (py "ERRO: ") (str_exn e)).
  - rewrite Hcon, (respondidas_so_falhas model_name novas Hall).
    change (antes ++ [PArquivoSalvo (nome_resultados env model_name);
                      PTotalRespondidas 0 (length (perguntas_do_texto text))])
      with (antes ++ [PArquivoSalvo (nome_resultados env model_name)]
                  ++ [PTotalRespondidas 0 (length (perguntas_do_texto text))]).
    rewrite app_assoc. apply last_last.
Qed.

Lemma executar_bateria_testes_backend_fora_witness :
  exists resultados st',
    executar_bateria_testes (mundo (FileText texto_tres_perguntas) backend_fora)
                            (py "tinyllama") estado_inicial
    = (Ok tt, st')
    /\ csv_files st'
       = csv_files estado_inicial
         ++ [(nome_resultados (mundo (FileText texto_tres_perguntas) backend_fora)
                              (py "tinyllama"), resultados)]
    /\ map Pergunta resultados = perguntas_do_texto texto_tres_perguntas
    /\ Forall (fun r => Tempo r = 0%Q
                        /\ startswith (Resposta r) (py "ERRO: ") = true
                        /\ Fontes r = py "N/A") resultados
    /\ last (console st') PNenhumDado
       = PTotalRespondidas 0 (length (perguntas_do_texto texto_tres_perguntas)).
Proof.
  apply (executar_bateria_testes_backend_fora
           (mundo (FileText texto_tres_perguntas) backend_fora) (py "tinyllama")
           estado_inicial texto_tres_perguntas).
  - reflexivity.
  - vm_compute. reflexivity.
  - vm_compute. discriminate.
  - intros e. discriminate.
  - intros n llm p. eexists. reflexivity.
Defined.

Lemma startswith_firstn (n : nat) (s p : str) :
  length p <= n -> startswith (firstn n s) p = startswith s p.
Proof.
  revert n s. induction p as [|x p IH]; intros n s Hn.
  - destruct (firstn n s); destruct s; reflexivity.
  - destruct n as [|n]; [cbn [length] in Hn; lia|].
    destruct s as [|y s]; [reflexivity|].
    rewrite firstn_cons. cbn [startswith]. rewrite IH; [reflexivity|].
    cbn [length] in Hn. lia.
Qed.

Lemma bateria_raw_respostas (env : Env) (model_name : str) (resposta : str -> str) :
  (forall n p, ollama env n llm_controle p = Ok (resposta p)) ->
  forall (perguntas : list str) (total i : nat) (resultados : list Row) (st : State),
  exists novas st',
    bateria (responder_raw env model_name) model_name total i perguntas resultados st
    = (Ok (resultados ++ novas), st')
    /\ map Resposta novas = map (fun p => firstn 2000 (resposta p)) perguntas
    /\ csv_files st' = csv_files st.
Proof.
  intros Hok perguntas.
  induction perguntas as [|pergunta resto IH]; intros total i resultados st.
  - exists [], st. cbn [bateria]. unfold ret. now rewrite app_nil_r.
  - rewrite bateria_cons, responder_raw_eq, Hok.
    match goal with
    | |- context [bateria _ _ _ _ _ (resultados ++ [?linha]) ?st1] =>
      destruct (IH total (S i) (resultados ++ [linha]) st1)
        as (novas & st' & -> & Hresp & Hcsv);
      exists (linha :: novas), st'
    end.
    rewrite <- app_assoc. split; [reflexivity|].
    split; [cbn [map]; now rewrite Hresp|exact Hcsv].
Qed.

Lemma respondidas_respostas (resultados : list Row) (resposta : str -> str)
      (perguntas : list str) :
  map Resposta resultados = map (fun p => firstn 2000 (resposta p)) perguntas ->
  respondidas resultados
  = length (filter (fun p => negb (startswith (resposta p) (py "ERRO"))) perguntas).
Proof.
  unfold respondidas. revert perguntas.
  induction resultados as [|r rs IH]; intros [|p ps] H; try discriminate; [reflexivity|].
  cbn [map] in H. injection H as Hr Hrs. cbn [filter]. rewrite Hr.
  rewrite startswith_firstn by (vm_compute; lia).
  destruct (startswith (resposta p) (py "ERRO")); cbn [negb length]; now rewrite (IH ps).
Qed.

(** X13.  The count that ends a batch run looks at the text of the stored
    responses, not at what happened: in the "llama2_raw" branch, when the
    backend answers every question, the questions counted as answered are
    those whose answer does not begin with "ERRO"; an answer that begins
    with these four letters is stored like any other and is not
    counted. *)
Theorem executar_bateria_testes_conta_por_texto (env : Env) (st : State) (text : str)
        (resposta : str -> str) :
  perguntas_csv env = FileText text ->
  strip (readline text) = py "Perguntas" ->
  perguntas_do_texto text <> [] ->
  (forall n p, ollama env n llm_controle p = Ok (resposta p)) ->
  exists resultados st',
    executar_bateria_testes env (py "llama2_raw") st = (Ok tt, st')
    /\ csv_files st' = csv_files st ++ [(nome_resultados env (py "llama2_raw"), resultados)]
    /\ map Resposta resultados
       = map (fun p => firstn 2000 (resposta p)) (perguntas_do_texto text)
    /\ last (console st') PNenhumDado
       = PTotalRespondidas
           (length (filter (fun p => negb (startswith (resposta p) (py "ERRO")))
                           (perguntas_do_texto text)))
           (length (perguntas_do_texto text)).
Proof.
  intros Hfile Hcab Hne Hok.
  unfold executar_bateria_testes. unfold bind at 1.
  rewrite (carregar_perguntas_texto env st text Hfile Hcab).
  destruct (perguntas_do_texto text) as [|p ps] eqn:Hp; [congruence|].
  unfold bind at 1. rewrite str_eqb_refl.
  unfold bind at 1 2. unfold print at 1.
  set (st0 := with_console _ (with_console _ st)).
  destruct (bateria_raw_respostas env (py "llama2_raw") resposta Hok (p :: ps)
              (length (p :: ps)) 1 [] st0)
    as (novas & st2 & -> & Hresp & Hcsv).
  unfold ret at 1. rewrite executar_bateria_testes_fim.
  exists novas. eexists. split; [reflexivity|].
  cbn [csv_files console with_console with_csv_files app]. rewrite Hcsv.
  split; [reflexivity|]. split; [exact Hresp|].
  rewrite (respondidas_respostas novas resposta (p :: ps) Hresp).
  match goal with
  | |- last (?a ++ [?x; ?y]) _ = _ => change (a ++ [x; y]) with (a ++ [x] ++ [y])
  end.
  rewrite app_assoc. apply last_last.
Qed.

Lemma executar_bateria_testes_conta_por_texto_witness :
  exists resultados st',
    executar_bateria_testes
      (mundo (FileText texto_tres_perguntas)
             (fun _ _ p => Ok (if str_eqb p (py "O que e MLO?")
                               then py "ERRO comum: confundir MLO com MIMO."
                               else py "O Wi-Fi 7 e o padrao IEEE 802.11be.")))
      (py "llama2_raw") estado_inicial
    = (Ok tt, st')
    /\ csv_files st'
       = csv_files estado_inicial
         ++ [(nome_resultados
                (mundo (FileText texto_tres_perguntas)
                       (fun _ _ p => Ok (if str_eqb p (py "O que e MLO?")
                                         then py "ERRO comum: confundir MLO com MIMO."
                                         else py "O Wi-Fi 7 e o padrao IEEE 802.11be.")))
                (py "llama2_raw"), resultados)]
    /\ map Resposta resultados
       = map (fun p => firstn 2000
                         (if str_eqb p (py "O que e MLO?")
                          then py "ERRO comum: confundir MLO com MIMO."
                          else py "O Wi-Fi 7 e o padrao IEEE 802.11be."))
             (perguntas_do_texto texto_tres_perguntas)
    /\ last (console st') PNenhumDado
       = PTotalRespondidas
           (length (filter (fun p => negb (startswith
                                             (if str_eqb p (py "O que e MLO?")
                                              then py "ERRO comum: confundir MLO com MIMO."
                                              else py "O Wi-Fi 7 e o padrao IEEE 802.11be.")
                                             (py "ERRO")))
                           (perguntas_do_texto texto_tres_perguntas)))
           (length (perguntas_do_texto texto_tres_perguntas)).
Proof.
  apply (executar_bateria_testes_conta_por_texto
           (mundo (FileText texto_tres_perguntas)
                  (fun _ _ p => Ok (if str_eqb p (py "O que e MLO?")
                                    then py "ERRO comum: confundir MLO com MIMO."
                                    else py "O Wi-Fi 7 e o padrao IEEE 802.11be.")))
           estado_inicial texto_tres_perguntas
           (fun p => if str_eqb p (py "O que e MLO?")
                     then py "ERRO comum: confundir MLO com MIMO."
                     else py "O Wi-Fi 7 e o padrao IEEE 802.11be.")).
  - reflexivity.
  - vm_compute. reflexivity.
  - vm_compute. discriminate.
  - intros n p. reflexivity.
Defined.

Example conta_duas_de_tres :
  exists st',
    executar_bateria_testes
      (mundo (FileText texto_tres_perguntas)
             (fun _ _ p => Ok (if str_eqb p (py "O que e MLO?")
                               then py "ERRO comum: confundir MLO com MIMO."
                               else py "O Wi-Fi 7 e o padrao IEEE 802.11be.")))
      (py "llama2_raw") estado_inicial
    = (Ok tt, st')
    /\ last (console st') PNenhumDado = PTotalRespondidas 2 3.
Proof. eexists. vm_compute. split; reflexivity. Qed.

(* ================================================================== *)
(** ** The monad of the interactive functions *)
(* ================================================================== *)

Open Scope terminal_scope.

Lemma avanca_retT {A} (a : A) : avanca (retT a).
Proof. intros t st. now exists []. Qed.

Lemma avanca_exibir (m : exibido) : avanca (exibir m).
Proof. intros t st. now exists []. Qed.

Lemma avanca_correr {A} (c : M A) : avanca (correr c).
Proof. intros t st. exists []. unfold correr. now destruct (c st). Qed.

Lemma avanca_input (prompt : exibido) : avanca (input prompt).
Proof.
  intros t st. unfold input. cbn [teclado with_tela].
  destruct (teclado t) as [|l resto] eqn:E; cbn [terminal_de fst snd teclado with_tela with_teclado].
  - exists []. now rewrite E.
  - now exists [l].
Qed.

Lemma avanca_bindT {A B} (m : T A) (k : A -> T B) :
  avanca m -> (forall a, avanca (k a)) -> avanca (bindT m k).
Proof.
  intros Hm Hk t st. unfold bindT. destruct (Hm t st) as [l1 H1].
  destruct (m t st) as [[[a|e] t1] st1]; cbn [terminal_de fst snd] in *.
  - destruct (Hk a t1 st1) as [l2 H2]. exists (l1 ++ l2). now rewrite <- app_assoc, <- H2.
  - now exists l1.
Qed.

Lemma avanca_try_exceptT {A} (body : T A) (handler : exn -> T A) :
  avanca body -> (forall e, avanca (handler e)) -> avanca (try_exceptT body handler).
Proof.
  intros Hb Hh t st. unfold try_exceptT. destruct (Hb t st) as [l1 H1].
  destruct (body t st) as [[[a|e] t1] st1]; cbn [terminal_de fst snd] in *.
  - now exists l1.
  - destruct (Hh e t1 st1) as [l2 H2]. exists (l1 ++ l2). now rewrite <- app_assoc, <- H2.
Qed.

Lemma avanca_whenT (cond : bool) (body : T unit) : avanca body -> avanca (whenT cond body).
Proof. intros H. destruct cond; [exact H|apply avanca_retT]. Qed.

Lemma avanca_para_cada {A} (body : A -> T unit) (xs : list A) :
  (forall x, avanca (body x)) -> avanca (para_cada body xs).
Proof.
  intros H. induction xs as [|x resto IH]; cbn [para_cada].
  - apply avanca_retT.
  - apply avanca_bindT; [apply H|intros _; exact IH].
Qed.

Lemma avanca_voltas {A} (rounds : nat) (body : T (option A)) :
  avanca body -> avanca (voltas rounds body).
Proof.
  intros H. induction rounds as [|rounds IH]; cbn [voltas].
  - intros t st. now exists [].
  - apply avanca_bindT; [exact H|]. intros [a|]; [apply avanca_retT|exact IH].
Qed.

Lemma avanca_while_True {A} (body : T (option A)) : avanca body -> avanca (while_True body).
Proof. intros H t st. unfold while_True. apply (avanca_voltas _ _ H). Qed.

Lemma avanca_length {A} (c : T A) (t : Terminal) (st : State) :
  avanca c -> length (teclado (terminal_de (c t st))) <= length (teclado t).
Proof. intros H. destruct (H t st) as [lidas ->]. rewrite length_app. lia. Qed.

(** A body that begins by reading a line has read one when it returns. *)
Lemma consome_input {A} (prompt : exibido) (k : str -> T A) :
  (forall l, avanca (k l)) -> consome (bindT (input prompt) k).
Proof.
  intros Hk t st a t' st'. unfold bindT, input. cbn [teclado with_tela].
  destruct (teclado t) as [|l resto] eqn:E; [discriminate|].
  intros H.
  pose proof (avanca_length (k l) (with_teclado resto
                (with_tela (tela t ++ [(length (console st), prompt)]) t)) st (Hk l)) as Hlen.
  rewrite H in Hlen. cbn [terminal_de fst snd teclado with_teclado length] in *. lia.
Qed.

(** Rounds beyond the lines of the keyboard are never run: a loop whose
    body reads a line each round runs the same with any number of rounds
    greater than the number of lines. *)
Lemma voltas_bastam {A} (body : T (option A)) :
  consome body ->
  forall (n m : nat) (t : Terminal) (st : State),
    length (teclado t) < n -> length (teclado t) < m ->
    voltas n body t st = voltas m body t st.
Proof.
  intros Hc. induction n as [|n IH]; intros m t st Hn Hm; [lia|].
  destruct m as [|m]; [lia|]. cbn [voltas]. unfold bindT.
  destruct (body t st) as [[[[a|]|e] t1] st1] eqn:Hb; try reflexivity.
  apply Hc in Hb. apply IH; lia.
Qed.

Lemma while_True_voltas {A} (body : T (option A)) (n : nat) (t : Terminal) (st : State) :
  consome body -> length (teclado t) < n -> while_True body t st = voltas n body t st.
Proof. intros Hc Hn. unfold while_True. apply voltas_bastam; [exact Hc|lia|exact Hn]. Qed.

(** The three ways a round ends. *)
Lemma while_True_continue {A} (body : T (option A)) (t t' : Terminal) (st st' : State) :
  consome body ->
  body t st = (Ok None, t', st') ->
  while_True body t st = while_True body t' st'.
Proof.
  intros Hc Hb. unfold while_True at 1. cbn [voltas]. unfold bindT. rewrite Hb.
  symmetry. apply while_True_voltas; [exact Hc|]. apply Hc in Hb. exact Hb.
Qed.

Lemma while_True_sai {A} (body : T (option A)) (a : A) (t t' : Terminal) (st st' : State) :
  body t st = (Ok (Some a), t', st') -> while_True body t st = (Ok a, t', st').
Proof. intros Hb. unfold while_True. cbn [voltas]. unfold bindT. now rewrite Hb. Qed.

Lemma while_True_raise {A} (body : T (option A)) (e : exn) (t t' : Terminal)
      (st st' : State) :
  body t st = (Raise e, t', st') -> while_True body t st = (Raise e, t', st').
Proof. intros Hb. unfold while_True. cbn [voltas]. unfold bindT. now rewrite Hb. Qed.

Lemma input_cons (prompt : exibido) (t : Terminal) (st : State) (l : str) (resto : list str) :
  teclado t = l :: resto ->
  input prompt t st
  = (Ok l, with_teclado resto (with_tela (tela t ++ [(length (console st), prompt)]) t), st).
Proof. intros H. unfold input. cbn [teclado with_tela]. now rewrite H. Qed.

Lemma input_nil (prompt : exibido) (t : Terminal) (st : State) :
  teclado t = [] ->
  input prompt t st
  = (Raise EOFError, with_tela (tela t ++ [(length (console st), prompt)]) t, st).
Proof. intros H. unfold input. cbn [teclado with_tela]. now rewrite H. Qed.

(* ================================================================== *)
(** ** select_model *)
(* ================================================================== *)

Section SelectModel.

Variable teste : nat -> str -> outcome str.
Variable interp : Interpreter.

(** One round of the loop, on a keyboard that is not exhausted. *)
Lemma escolher_cons (t : Terminal) (st : State) (l : str) (resto : list str) :
  teclado t = l :: resto ->
  let n := length (console st) in
  let t1 := with_teclado resto (with_tela (tela t ++ [(n, ESelecione 4)]) t) in
  (escolher teste interp) t st
  = match int interp l with
    | None => (Ok None, with_tela (tela t1 ++ [(n, EApenasNumeros)]) t1, st)
    | Some choice =>
      if ((1 <=? choice) && (choice <=? 4))%Z then
        let selected := nth (Z.to_nat (choice - 1)) (map fst AVAILABLE_MODELS) [] in
        if str_eqb selected (py "llama2_raw") then (Ok (Some selected), t1, st)
        else
          match teste (length (testados t)) selected with
          | Ok _ => (Ok (Some selected), with_testados (testados t ++ [selected]) t1, st)
          | Raise _ =>
            (Ok None,
             with_tela (tela t1 ++ [(n, ENaoEncontrado selected)])
                       (with_testados (testados t ++ [selected]) t1), st)
          end
      else (Ok None, with_tela (tela t1 ++ [(n, EOpcaoInvalida)]) t1, st)
    end.
Proof.
  intros Ht n t1. unfold escolher. unfold bindT at 1.
  rewrite (input_cons _ t st l resto Ht).
  change (length AVAILABLE_MODELS) with 4. change (Z.of_nat 4) with 4%Z.
  fold n. fold t1.
  destruct (int interp l) as [choice|]; [|reflexivity].
  destruct ((1 <=? choice) && (choice <=? 4))%Z; [|reflexivity].
  cbv zeta.
  destruct (str_eqb (nth (Z.to_nat (choice - 1)) (map fst AVAILABLE_MODELS) [])
                    (py "llama2_raw")); [reflexivity|].
  unfold try_exceptT, bindT, invoke_Teste, sair_com, continue, retT, exibir.
  change (testados t1) with (testados t).
  destruct (teste (length (testados t)) _); reflexivity.
Qed.

Lemma escolher_nil (t : Terminal) (st : State) :
  teclado t = [] ->
  (escolher teste interp) t st
  = (Raise EOFError, with_tela (tela t ++ [(length (console st), ESelecione 4)]) t, st).
Proof.
  intros Ht. unfold escolher. unfold bindT at 1.
  now rewrite (input_nil _ t st Ht).
Qed.

Lemma avanca_escolher : avanca (escolher teste interp).
Proof.
  unfold escolher. apply avanca_bindT; [apply avanca_input|]. intros l.
  destruct (int interp l) as [choice|].
  - destruct ((1 <=? choice) && _)%Z.
    + cbv zeta. destruct (str_eqb _ _); [apply avanca_retT|].
      apply avanca_try_exceptT.
      * apply avanca_bindT; [|intros _; apply avanca_retT].
        intros t st. now exists [].
      * intros _. apply avanca_bindT; [apply avanca_exibir|intros _; apply avanca_retT].
    + apply avanca_bindT; [apply avanca_exibir|intros _; apply avanca_retT].
  - apply avanca_bindT; [apply avanca_exibir|intros _; apply avanca_retT].
Qed.

Lemma consome_escolher : consome (escolher teste interp).
Proof.
  unfold escolher. apply consome_input. intros l.
  destruct (int interp l) as [choice|].
  - destruct ((1 <=? choice) && _)%Z.
    + cbv zeta. destruct (str_eqb _ _); [apply avanca_retT|].
      apply avanca_try_exceptT.
      * apply avanca_bindT; [|intros _; apply avanca_retT].
        intros t st. now exists [].
      * intros _. apply avanca_bindT; [apply avanca_exibir|intros _; apply avanca_retT].
    + apply avanca_bindT; [apply avanca_exibir|intros _; apply avanca_retT].
  - apply avanca_bindT; [apply avanca_exibir|intros _; apply avanca_retT].
Qed.

(** [select_model] lists the models and enters its loop. *)
Lemma select_model_eq (t : Terminal) (st : State) :
  (select_model teste interp) t st
  = while_True (escolher teste interp)
      (with_tela (tela t ++ lista_de_modelos (length (console st))) t) st.
Proof.
  unfold select_model, bindT, exibir, lista_de_modelos.
  cbn [enumerate AVAILABLE_MODELS para_cada map]. unfold bindT, exibir, retT.
  cbn [tela with_tela teclado testados]. unfold with_tela. cbn [tela teclado testados].
  rewrite <- !app_assoc. reflexivity.
Qed.

Lemma escolhido_listado (choice : Z) :
  ((1 <=? choice) && (choice <=? 4))%Z = true ->
  In (nth (Z.to_nat (choice - 1)) (map fst AVAILABLE_MODELS) []) (map fst AVAILABLE_MODELS).
Proof.
  intros H. apply andb_true_iff in H as [H1 H2].
  apply Z.leb_le in H1, H2. apply nth_In.
  change (length (map fst AVAILABLE_MODELS)) with 4. lia.
Qed.

Lemma escolha_feita_depois (t t1 t' : Terminal) (r : outcome str) (f1 : list str) :
  (exists lidas, teclado t = lidas ++ teclado t1) ->
  testados t1 = testados t ++ f1 ->
  (forall i m, nth_error f1 i = Some m ->
     exists e, teste (length (testados t) + i) m = Raise e) ->
  (escolha_feita teste) t1 r t' -> (escolha_feita teste) t r t'.
Proof.
  intros [l1 H1] Ht1 Hf1 [[l2 H2] (f2 & Hf2 & Hr)]. split.
  - exists (l1 ++ l2). now rewrite <- app_assoc, <- H2.
  - exists (f1 ++ f2). rewrite Ht1 in Hf2, Hr. rewrite ?length_app in Hf2, Hr. split.
    + intros i m Hi. destruct (Nat.lt_ge_cases i (length f1)) as [Hlt|Hge].
      * rewrite nth_error_app1 in Hi by exact Hlt. now apply Hf1.
      * rewrite nth_error_app2 in Hi by exact Hge.
        destruct (Hf2 _ _ Hi) as [e He]. exists e. rewrite <- He. f_equal. lia.
    + destruct r as [name|e].
      * destruct Hr as [Hin Hr]. split; [exact Hin|].
        destruct (str_eqb name (py "llama2_raw")).
        -- now rewrite Hr, <- app_assoc.
        -- destruct Hr as [Hr [resposta Hresp]]. split; [now rewrite Hr, <- !app_assoc|].
           exists resposta. rewrite <- Hresp, length_app. f_equal. lia.
      * destruct Hr as (-> & Hk & Hr). repeat split; [exact Hk|now rewrite Hr, <- app_assoc].
Qed.

Lemma voltas_escolher (rounds : nat) :
  forall (t : Terminal) (st : State),
    length (teclado t) < rounds ->
    exists r t', voltas rounds (escolher teste interp) t st = (r, t', st) /\ (escolha_feita teste) t r t'.
Proof.
  induction rounds as [|rounds IH]; intros t st Hlen; [lia|].
  cbn [voltas]. unfold bindT at 1.
  destruct (teclado t) as [|l resto] eqn:Ht.
  - rewrite (escolher_nil t st Ht). eexists _, _. split; [reflexivity|].
    split; [exists []; cbn [teclado with_tela]; now rewrite Ht|].
    exists []. split; [intros [|i] m Hi; discriminate|].
    cbn [teclado testados with_tela]. rewrite app_nil_r. auto.
  - rewrite (escolher_cons t st l resto Ht). cbv zeta.
    set (n := length (console st)).
    set (t1 := with_teclado resto (with_tela (tela t ++ [(n, ESelecione 4)]) t)).
    assert (Hsuf : forall s m, exists lidas,
               teclado t = lidas ++ teclado (with_tela s (with_testados m t1))).
    { intros s m. exists [l]. cbn [teclado with_tela with_testados with_teclado t1].
      now rewrite Ht. }
    assert (Hrounds : forall s m, length (teclado (with_tela s (with_testados m t1))) < rounds).
    { intros s m. cbn [teclado with_tela with_testados with_teclado t1].
      cbn [length] in Hlen. lia. }
    destruct (int interp l) as [choice|].
    + destruct ((1 <=? choice) && (choice <=? 4))%Z eqn:Hrange.
      * pose proof (escolhido_listado choice Hrange) as Hin.
        set (selected := nth (Z.to_nat (choice - 1)) (map fst AVAILABLE_MODELS) []) in *.
        destruct (str_eqb selected (py "llama2_raw")) eqn:Hraw.
        -- unfold retT. eexists _, _. split; [reflexivity|].
           split; [exists [l]; cbn [teclado with_teclado t1]; now rewrite Ht|].
           exists []. split; [intros [|i] m Hi; discriminate|].
           split; [exact Hin|]. rewrite Hraw. cbn [testados with_tela with_teclado t1].
           now rewrite app_nil_r.
        -- destruct (teste (length (testados t)) selected) as [resposta|e] eqn:Hteste.
           ++ unfold retT. eexists _, _. split; [reflexivity|].
              split; [exists [l]; cbn [teclado with_teclado with_testados t1]; now rewrite Ht|].
              exists []. split; [intros [|i] m Hi; discriminate|].
              split; [exact Hin|]. rewrite Hraw.
              cbn [testados with_tela with_teclado with_testados t1 app length].
              split; [reflexivity|]. exists resposta. now rewrite Nat.add_0_r.
           ++ destruct (IH (with_tela (tela t1 ++ [(n, ENaoEncontrado selected)])
                              (with_testados (testados t ++ [selected]) t1)) st
                           (Hrounds _ _))
                as (r & t' & -> & Hfeita).
              exists r, t'. split; [reflexivity|].
              refine (escolha_feita_depois t _ t' r [selected] (Hsuf _ _) eq_refl _ Hfeita).
              intros [|i] m Hi; [|destruct i; discriminate].
              injection Hi as <-. exists e. now rewrite Nat.add_0_r.
      * destruct (IH (with_tela (tela t1 ++ [(n, EOpcaoInvalida)]) t1) st)
          as (r & t' & -> & Hfeita).
        { cbn [teclado with_tela with_teclado t1]. cbn [length] in Hlen. lia. }
        exists r, t'. split; [reflexivity|].
        refine (escolha_feita_depois t _ t' r [] _ _ _ Hfeita);
          [exists [l]; cbn [teclado with_tela with_teclado t1]; now rewrite Ht
          |cbn [testados with_tela with_teclado t1]; now rewrite app_nil_r
          |intros [|i] m Hi; discriminate].
    + destruct (IH (with_tela (tela t1 ++ [(n, EApenasNumeros)]) t1) st)
        as (r & t' & -> & Hfeita).
      { cbn [teclado with_tela with_teclado t1]. cbn [length] in Hlen. lia. }
      exists r, t'. split; [reflexivity|].
      refine (escolha_feita_depois t _ t' r [] _ _ _ Hfeita);
        [exists [l]; cbn [teclado with_tela with_teclado t1]; now rewrite Ht
        |cbn [testados with_tela with_teclado t1]; now rewrite app_nil_r
        |intros [|i] m Hi; discriminate].
Qed.

End SelectModel.

(** X14.  [select_model] changes nothing but the terminal, and ends in one
    of two ways whatever is typed: it returns one of the keys of
    [AVAILABLE_MODELS], or the keyboard is exhausted and [EOFError] leaves
    it.  The models it tested before its last round were all found
    missing; the model it returns was tested in the last round and
    answered, unless it is "llama2_raw", which is returned untested. *)
Theorem select_model_devolve (teste : nat -> str -> outcome str)
        (interp : Interpreter) (t : Terminal) (st : State) :
  exists r t' falhos,
    select_model teste interp t st = (r, t', st)
    /\ (exists lidas, teclado t = lidas ++ teclado t')
    /\ (forall i m, nth_error falhos i = Some m ->
          exists e, teste (length (testados t) + i) m = Raise e)
    /\ match r with
       | Raise e => e = EOFError /\ teclado t' = [] /\ testados t' = testados t ++ falhos
       | Ok name =>
         In name [py "mistral"; py "llama2"; py "tinyllama"; py "llama2_raw"]
         /\ if str_eqb name (py "llama2_raw")
            then testados t' = testados t ++ falhos
            else testados t' = testados t ++ falhos ++ [name]
                 /\ exists resposta,
                     teste (length (testados t) + length falhos) name = Ok resposta
       end.
Proof.
  rewrite select_model_eq.
  destruct (voltas_escolher teste interp _
              (with_tela (tela t ++ lista_de_modelos (length (console st))) t) st
              (Nat.lt_succ_diag_r _))
    as (r & t' & Hrun & Hsuf & falhos & Hfalhos & Hr).
  exists r, t', falhos. split; [exact Hrun|]. split; [exact Hsuf|]. split; [exact Hfalhos|].
  exact Hr.
Qed.

(** X15.  The three ways [select_model] turns a line down.  A line that
    [int] does not read as a number is answered by "Digite apenas
    números!"; a number outside 1..4 by "Opção inválida!"; the number of a
    model whose test fails by "Modelo ... não encontrado", the test being
    counted.  In each case the prompt comes again and the loop goes on
    with the lines that follow, the state being left as it was. *)
Theorem select_model_recusa (teste : nat -> str -> outcome str)
        (interp : Interpreter) (t : Terminal) (st : State)
        (l : str) (resto : list str) :
  teclado t = l :: resto ->
  let n := length (console st) in
  let t1 := with_teclado resto (with_tela (tela t ++ [(n, ESelecione 4)]) t) in
  (int interp l = None ->
   while_True (escolher teste interp) t st
   = while_True (escolher teste interp)
       (with_tela (tela t1 ++ [(n, EApenasNumeros)]) t1) st)
  /\ (forall choice,
        int interp l = Some choice -> (choice < 1 \/ 4 < choice)%Z ->
        while_True (escolher teste interp) t st
        = while_True (escolher teste interp)
            (with_tela (tela t1 ++ [(n, EOpcaoInvalida)]) t1) st)
  /\ (forall choice e,
        int interp l = Some choice -> (1 <= choice <= 3)%Z ->
        let selected := nth (Z.to_nat (choice - 1)) (map fst AVAILABLE_MODELS) [] in
        teste (length (testados t)) selected = Raise e ->
        while_True (escolher teste interp) t st
        = while_True (escolher teste interp)
            (with_tela (tela t1 ++ [(n, ENaoEncontrado selected)])
                       (with_testados (testados t ++ [selected]) t1)) st).
Proof.
  intros Ht n t1.
  pose proof (escolher_cons teste interp t st l resto Ht) as Hrodada.
  cbv zeta in Hrodada. fold n in Hrodada. fold t1 in Hrodada.
  split; [|split].
  - intros Hint. rewrite Hint in Hrodada.
    exact (while_True_continue _ _ _ _ _ (consome_escolher teste interp) Hrodada).
  - intros choice Hint Hfora. rewrite Hint in Hrodada.
    replace ((1 <=? choice) && (choice <=? 4))%Z with false in Hrodada.
    + exact (while_True_continue _ _ _ _ _ (consome_escolher teste interp) Hrodada).
    + symmetry. apply andb_false_iff.
      destruct Hfora; [left; apply Z.leb_gt|right; apply Z.leb_gt]; lia.
  - intros choice e Hint Hdentro selected Hteste. rewrite Hint in Hrodada.
    replace ((1 <=? choice) && (choice <=? 4))%Z with true in Hrodada
      by (symmetry; apply andb_true_iff; split; apply Z.leb_le; lia).
    cbv zeta in Hrodada. fold selected in Hrodada.
    assert (Hraw : str_eqb selected (py "llama2_raw") = false).
    { assert (Hc : choice = 1%Z \/ choice = 2%Z \/ choice = 3%Z) by lia.
      unfold selected. destruct Hc as [->|[->| ->]]; reflexivity. }
    rewrite Hraw, Hteste in Hrodada.
    exact (while_True_continue _ _ _ _ _ (consome_escolher teste interp) Hrodada).
Qed.

Lemma select_model_recusa_witness :
  while_True (escolher teste_fora so_ascii)
    (terminal_inicial [py "um"; py "7"; py "2"]) estado_inicial
  = while_True (escolher teste_fora so_ascii)
      (with_tela [(0, ESelecione 4); (0, EApenasNumeros)] (terminal_inicial [py "7"; py "2"]))
      estado_inicial.
Proof.
  apply (proj1 (select_model_recusa teste_fora so_ascii
                  (terminal_inicial [py "um"; py "7"; py "2"]) estado_inicial
                  (py "um") [py "7"; py "2"] eq_refl)).
  reflexivity.
Defined.

(** X16.  The two ways [select_model] takes a line.  The number 4, however
    written ([int] reads " 4 ", "+4" and "04" alike), returns
    "llama2_raw" without a test; a number from 1 to 3 returns the model of
    that rank in [AVAILABLE_MODELS] when the test of the model answers,
    the test being counted.  The lines that follow are left on the
    keyboard and the state is left as it was. *)
Theorem select_model_aceita (teste : nat -> str -> outcome str)
        (interp : Interpreter) (t : Terminal) (st : State)
        (l : str) (resto : list str) (choice : Z) :
  teclado t = l :: resto ->
  int interp l = Some choice ->
  let t1 := with_teclado resto
              (with_tela (tela t ++ lista_de_modelos (length (console st))
                          ++ [(length (console st), ESelecione 4)]) t) in
  (choice = 4%Z ->
   select_model teste interp t st = (Ok (py "llama2_raw"), t1, st))
  /\ (forall resposta,
        (1 <= choice <= 3)%Z ->
        let selected := nth (Z.to_nat (choice - 1))
                            [py "mistral"; py "llama2"; py "tinyllama"] [] in
        teste (length (testados t)) selected = Ok resposta ->
        select_model teste interp t st
        = (Ok selected, with_testados (testados t ++ [selected]) t1, st)).
Proof.
  intros Ht Hint t1. rewrite select_model_eq.
  pose proof (escolher_cons teste interp
                (with_tela (tela t ++ lista_de_modelos (length (console st))) t) st
                l resto Ht) as Hrodada.
  cbv zeta in Hrodada. rewrite Hint in Hrodada.
  cbn [tela testados with_tela] in Hrodada. rewrite <- app_assoc in Hrodada.
  split.
  - intros ->. apply while_True_sai. exact Hrodada.
  - intros resposta Hdentro selected Hteste.
    replace ((1 <=? choice) && (choice <=? 4))%Z with true in Hrodada
      by (symmetry; apply andb_true_iff; split; apply Z.leb_le; lia).
    assert (Hsel : nth (Z.to_nat (choice - 1)) (map fst AVAILABLE_MODELS) [] = selected
                   /\ str_eqb selected (py "llama2_raw") = false).
    { assert (Hc : choice = 1%Z \/ choice = 2%Z \/ choice = 3%Z) by lia.
      unfold selected. destruct Hc as [->|[->| ->]]; split; reflexivity. }
    destruct Hsel as [Hsel Hraw]. rewrite Hsel, Hraw, Hteste in Hrodada.
    apply while_True_sai. exact Hrodada.
Qed.

Lemma select_model_aceita_witness :
  select_model teste_ok so_ascii (terminal_inicial [py " 4 "; py "sair"]) estado_inicial
  = (Ok (py "llama2_raw"),
     with_teclado [py "sair"]
       (with_tela ([] ++ lista_de_modelos 0 ++ [(0, ESelecione 4)])
                  (terminal_inicial [py " 4 "; py "sair"])),
     estado_inicial).
Proof.
  apply (proj1 (select_model_aceita teste_ok so_ascii
                  (terminal_inicial [py " 4 "; py "sair"]) estado_inicial
                  (py " 4 ") [py "sair"] 4%Z eq_refl eq_refl)).
  reflexivity.
Defined.

Example int_le_quatro :
  map (int so_ascii) [py " 4 "; py "+4"; py "04"; py "4_"; py "quatro"; py "4.0"; py ""]
  = [Some 4%Z; Some 4%Z; Some 4%Z; None; None; None; None].
Proof. vm_compute. reflexivity. Qed.

(* ================================================================== *)
(** ** main *)
(* ================================================================== *)

Ltac compara_literais :=
  repeat match goal with
         | |- context [str_eqb (py ?a) (py ?b)] =>
           let v := eval vm_compute in (str_eqb (py a) (py b)) in
           change (str_eqb (py a) (py b)) with v
         end.

Lemma depois_de_sair_sufixo (entrada : list str) :
  exists lidas, entrada = lidas ++ depois_de_sair entrada.
Proof.
  induction entrada as [|d resto [lidas IH]]; [now exists []|].
  cbn [depois_de_sair]. destruct (str_eqb _ _).
  - now exists [d].
  - exists (d :: lidas). cbn [app]. now rewrite <- IH.
Qed.

Lemma depois_de_sair_app (perguntas : list str) (digitado : str) (resto : list str) :
  Forall (fun d => e_sair d = false) perguntas ->
  e_sair digitado = true ->
  depois_de_sair (perguntas ++ digitado :: resto) = resto.
Proof.
  intros Hp Hs. induction Hp as [|d perguntas Hd _ IH]; cbn [app depois_de_sair].
  - unfold e_sair in Hs. now rewrite Hs.
  - unfold e_sair in Hd. now rewrite Hd.
Qed.

Section Main.

Variable env : Env.
Variable teste : nat -> str -> outcome str.
Variable interp : Interpreter.

Lemma avanca_select_model : avanca (select_model teste interp).
Proof.
  unfold select_model. apply avanca_bindT; [apply avanca_exibir|]. intros _.
  apply avanca_bindT.
  - apply avanca_para_cada. intros [i [name desc]]. apply avanca_exibir.
  - intros _. apply avanca_while_True, avanca_escolher.
Qed.

Lemma avanca_resposta {A} (body : T A) :
  avanca body ->
  avanca (try_exceptT (body ;; retT tt) (fun e => exibir (EErro (str_exn e)) ;; exibir EDica)
          ;; @continue unit).
Proof.
  intros H. apply avanca_bindT; [|intros _; apply avanca_retT].
  apply avanca_try_exceptT.
  - apply avanca_bindT; [exact H|intros _; apply avanca_retT].
  - intros e. apply avanca_bindT; [apply avanca_exibir|intros _; apply avanca_exibir].
Qed.

Lemma avanca_perguntar_raw_resto (question : str) :
  avanca (try_exceptT
            (exibir EProcessando ;;
             ' (response, time_sec) <- correr (generate_raw_response env question None) ;;
             exibir (EResposta time_sec) ;;
             exibir (ETexto response))
            (fun e => exibir (EErro (str_exn e)) ;; exibir EDica) ;;
          @continue unit).
Proof.
  apply avanca_bindT; [|intros _; apply avanca_retT].
  apply avanca_try_exceptT.
  - apply avanca_bindT; [apply avanca_exibir|intros _].
    apply avanca_bindT; [apply avanca_correr|intros [response time_sec]].
    apply avanca_bindT; [apply avanca_exibir|intros _; apply avanca_exibir].
  - intros e. apply avanca_bindT; [apply avanca_exibir|intros _; apply avanca_exibir].
Qed.

Lemma avanca_exibir_fonte (doc : Document) : avanca (exibir_fonte doc).
Proof.
  unfold exibir_fonte. apply avanca_bindT; [apply avanca_correr|intros s; apply avanca_exibir].
Qed.

Lemma avanca_perguntar_rag_resto (vectorstore : option FAISS) (llm : option Ollama)
      (question : str) :
  avanca (try_exceptT
            (exibir EProcessando ;;
             ' (response, docs, time_sec) <-
               correr (generate_response env question vectorstore llm) ;;
             exibir (EResposta time_sec) ;;
             exibir (ETexto response) ;;
             exibir EFontesUtilizadas ;;
             para_cada exibir_fonte docs)
            (fun e => exibir (EErro (str_exn e)) ;; exibir EDica) ;;
          @continue unit).
Proof.
  apply avanca_bindT; [|intros _; apply avanca_retT].
  apply avanca_try_exceptT.
  - apply avanca_bindT; [apply avanca_exibir|intros _].
    apply avanca_bindT; [apply avanca_correr|intros [[response docs] time_sec]].
    apply avanca_bindT; [apply avanca_exibir|intros _].
    apply avanca_bindT; [apply avanca_exibir|intros _].
    apply avanca_bindT; [apply avanca_exibir|intros _].
    apply avanca_para_cada, avanca_exibir_fonte.
  - intros e. apply avanca_bindT; [apply avanca_exibir|intros _; apply avanca_exibir].
Qed.

Lemma avanca_perguntar_raw : avanca (perguntar_raw env).
Proof.
  unfold perguntar_raw. apply avanca_bindT; [apply avanca_input|]. intros l. cbv zeta.
  destruct (str_eqb _ _); [apply avanca_retT|apply avanca_perguntar_raw_resto].
Qed.

Lemma consome_perguntar_raw : consome (perguntar_raw env).
Proof.
  unfold perguntar_raw. apply consome_input. intros l. cbv zeta.
  destruct (str_eqb _ _); [apply avanca_retT|apply avanca_perguntar_raw_resto].
Qed.

Lemma avanca_perguntar_rag (vectorstore : option FAISS) (llm : option Ollama) :
  avanca (perguntar_rag env vectorstore llm).
Proof.
  unfold perguntar_rag. apply avanca_bindT; [apply avanca_input|]. intros l. cbv zeta.
  destruct (str_eqb _ _); [apply avanca_retT|apply avanca_perguntar_rag_resto].
Qed.

Lemma consome_perguntar_rag (vectorstore : option FAISS) (llm : option Ollama) :
  consome (perguntar_rag env vectorstore llm).
Proof.
  unfold perguntar_rag. apply consome_input. intros l. cbv zeta.
  destruct (str_eqb _ _); [apply avanca_retT|apply avanca_perguntar_rag_resto].
Qed.

Lemma avanca_modo_normal : avanca (modo_normal env teste interp).
Proof.
  unfold modo_normal. apply avanca_bindT; [apply avanca_exibir|intros _].
  apply avanca_bindT; [apply avanca_select_model|intros model_name].
  destruct (str_eqb _ _).
  - apply avanca_bindT; [apply avanca_exibir|intros _].
    apply avanca_bindT; [apply avanca_exibir|intros _].
    apply avanca_while_True, avanca_perguntar_raw.
  - apply avanca_bindT; [apply avanca_correr|intros [vectorstore llm]].
    apply avanca_bindT; [apply avanca_exibir|intros _].
    apply avanca_bindT; [apply avanca_exibir|intros _].
    apply avanca_while_True, avanca_perguntar_rag.
Qed.

Lemma avanca_modo_benchmark : avanca (modo_benchmark env).
Proof.
  intros t st. unfold modo_benchmark.
  destruct (benchmark_interativo env (teclado t) st) as [r st'].
  cbn [terminal_de fst snd teclado with_teclado]. apply depois_de_sair_sufixo.
Qed.

Lemma avanca_modo_bateria : avanca (modo_bateria env teste interp).
Proof.
  unfold modo_bateria. apply avanca_bindT; [apply avanca_select_model|intros model_name].
  apply avanca_try_exceptT; [apply avanca_correr|]. intros e.
  apply avanca_bindT; [apply avanca_exibir|intros _]. apply avanca_whenT.
  repeat (apply avanca_bindT; [apply avanca_exibir|intros _]). apply avanca_exibir.
Qed.

Lemma avanca_menu_resto (l : str) :
  avanca (let escolha := strip l in
          if str_eqb escolha (py "1") then modo_normal env teste interp ;; continue
          else if str_eqb escolha (py "2") then modo_benchmark env ;; continue
          else if str_eqb escolha (py "3")
               then modo_bateria env teste interp ;; continue
          else if str_eqb escolha (py "4") then exibir EEncerrando ;; sair_com tt
          else exibir EModoInvalido ;; continue).
Proof.
  cbv zeta.
  repeat (destruct (str_eqb (strip l) _);
          [apply avanca_bindT;
           [first [apply avanca_modo_normal | apply avanca_modo_benchmark
                  | apply avanca_modo_bateria | apply avanca_exibir]
           |intros _; apply avanca_retT]|]).
  apply avanca_bindT; [apply avanca_exibir|intros _; apply avanca_retT].
Qed.

Lemma avanca_menu : avanca (menu env teste interp).
Proof.
  unfold menu. apply avanca_bindT; [apply avanca_input|]. exact avanca_menu_resto.
Qed.

Lemma consome_menu : consome (menu env teste interp).
Proof. unfold menu. apply consome_input. exact avanca_menu_resto. Qed.

(** One round of the menu, on a keyboard that is not exhausted. *)
Lemma menu_cons (t : Terminal) (st : State) (l : str) (resto : list str) :
  teclado t = l :: resto ->
  menu env teste interp t st
  = (let escolha := strip l in
     if str_eqb escolha (py "1") then modo_normal env teste interp ;; continue
     else if str_eqb escolha (py "2") then modo_benchmark env ;; continue
     else if str_eqb escolha (py "3")
          then modo_bateria env teste interp ;; continue
     else if str_eqb escolha (py "4") then exibir EEncerrando ;; sair_com tt
     else exibir EModoInvalido ;; continue)
      (with_teclado resto (with_tela (tela t ++ [(length (console st), EDigiteModo)]) t)) st.
Proof.
  intros Ht. unfold menu. unfold bindT at 1. now rewrite (input_cons _ t st l resto Ht).
Qed.

Lemma main_eq (t : Terminal) (st : State) :
  main env teste interp t st
  = while_True (menu env teste interp)
      (with_tela (tela t ++ abertura (length (console st))) t) st.
Proof.
  unfold main, bindT, exibir, abertura. cbn [tela with_tela teclado testados map].
  unfold with_tela. cbn [tela teclado testados]. rewrite <- !app_assoc. reflexivity.
Qed.

Lemma modo_invalido_falso (l : str) :
  modo_invalido l = true ->
  str_eqb (strip l) (py "1") = false /\ str_eqb (strip l) (py "2") = false
  /\ str_eqb (strip l) (py "3") = false /\ str_eqb (strip l) (py "4") = false.
Proof.
  unfold modo_invalido. cbn [existsb]. intros H. apply negb_true_iff in H.
  repeat (apply orb_false_iff in H as [? H]). auto.
Qed.

(** The end of the session: the choice "4". *)
Lemma menu_sair (t : Terminal) (st : State) (l : str) (resto : list str) :
  teclado t = l :: resto ->
  strip l = py "4" ->
  menu env teste interp t st
  = (Ok (Some tt),
     with_teclado resto
       (with_tela (tela t ++ [(length (console st), EDigiteModo);
                              (length (console st), EEncerrando)]) t), st).
Proof.
  intros Ht Hl. rewrite (menu_cons t st l resto Ht). cbv zeta. rewrite Hl.
  compara_literais. cbv iota. unfold bindT, exibir, sair_com, retT.
  unfold with_tela, with_teclado. cbn [tela teclado testados].
  now rewrite <- app_assoc.
Qed.

Lemma menu_invalido (t : Terminal) (st : State) (l : str) (resto : list str) :
  teclado t = l :: resto ->
  modo_invalido l = true ->
  menu env teste interp t st
  = (Ok None,
     with_teclado resto
       (with_tela (tela t ++ [(length (console st), EDigiteModo);
                              (length (console st), EModoInvalido)]) t), st).
Proof.
  intros Ht Hl. rewrite (menu_cons t st l resto Ht). cbv zeta.
  destruct (modo_invalido_falso l Hl) as (-> & -> & -> & ->).
  unfold bindT, exibir, continue, retT.
  unfold with_tela, with_teclado. cbn [tela teclado testados].
  now rewrite <- app_assoc.
Qed.

(** The menu loop on lines that are no choice, followed by the choice "4". *)
Lemma menu_invalidas_e_sair (invalidas : list str) (l4 : str) (resto : list str) :
  Forall (fun l => modo_invalido l = true) invalidas ->
  strip l4 = py "4" ->
  forall (t : Terminal) (st : State),
    teclado t = invalidas ++ l4 :: resto ->
    while_True (menu env teste interp) t st
    = (Ok tt,
       with_teclado resto
         (with_tela
            (tela t
             ++ flat_map (fun _ => [(length (console st), EDigiteModo);
                                    (length (console st), EModoInvalido)]) invalidas
             ++ [(length (console st), EDigiteModo); (length (console st), EEncerrando)])
            t), st).
Proof.
  intros Hinv H4. induction Hinv as [|l invalidas Hl _ IH]; intros t st Ht.
  - cbn [app flat_map] in *. apply while_True_sai. exact (menu_sair t st l4 resto Ht H4).
  - cbn [app flat_map] in *.
    rewrite (while_True_continue _ _ _ _ _ consome_menu (menu_invalido t st l _ Ht Hl)).
    rewrite IH by reflexivity.
    unfold with_tela, with_teclado. cbn [tela teclado testados app].
    now rewrite <- !app_assoc.
Qed.

(** The menu loop returns only by the choice "4". *)
Lemma menu_sai_com_4 (t t' : Terminal) (st st' : State) (a : unit) :
  menu env teste interp t st = (Ok (Some a), t', st') ->
  exists l resto, teclado t = l :: resto /\ strip l = py "4".
Proof.
  destruct (teclado t) as [|l resto] eqn:Ht.
  - unfold menu. unfold bindT at 1. rewrite (input_nil _ t st Ht). discriminate.
  - rewrite (menu_cons t st l resto Ht). cbv zeta. intros H.
    exists l, resto. split; [reflexivity|].
    assert (Hcont : forall (c : T unit) t0 st0,
               (c ;; @continue unit) t0 st0 <> (Ok (Some a), t', st')).
    { intros c t0 st0. unfold bindT, continue, retT.
      destruct (c t0 st0) as [[[[]|e] t1] st1]; discriminate. }
    destruct (str_eqb (strip l) (py "1")); [now apply Hcont in H|].
    destruct (str_eqb (strip l) (py "2")); [now apply Hcont in H|].
    destruct (str_eqb (strip l) (py "3")); [now apply Hcont in H|].
    destruct (str_eqb (strip l) (py "4")) eqn:E4; [now apply str_eqb_eq|].
    now apply Hcont in H.
Qed.

Lemma voltas_menu_sem_4 (rounds : nat) :
  forall (t : Terminal) (st : State),
    (forall l, In l (teclado t) -> strip l <> py "4") ->
    exists e t' st', voltas rounds (menu env teste interp) t st = (Raise e, t', st').
Proof.
  induction rounds as [|rounds IH]; intros t st Hsem.
  - now exists EOFError, t, st.
  - cbn [voltas]. unfold bindT.
    destruct (menu env teste interp t st) as [[[[a|]|e] t1] st1] eqn:Hm.
    + destruct (menu_sai_com_4 t t1 st st1 a Hm) as (l & resto & Ht & Hl).
      exfalso. apply (Hsem l); [rewrite Ht; now left|exact Hl].
    + apply IH. intros l Hl. apply Hsem.
      destruct (avanca_menu t st) as [lidas Hlidas]. rewrite Hm in Hlidas.
      cbn [terminal_de fst snd] in Hlidas. rewrite Hlidas. apply in_or_app. now right.
    + now exists e, t1, st1.
Qed.

End Main.

Section Sessoes.

Variable env : Env.
Variable teste : nat -> str -> outcome str.
Variable interp : Interpreter.

(** A line that selects a model ends [select_model]. *)
Lemma select_model_escolhido (t : Terminal) (st : State) (l name : str)
      (resto : list str) :
  teclado t = l :: resto ->
  escolhe teste interp t l name ->
  select_model teste interp t st
  = (Ok name,
     with_testados
       (testados t ++ (if str_eqb name (py "llama2_raw") then [] else [name]))
       (with_teclado resto
          (with_tela (tela t ++ lista_de_modelos (length (console st))
                      ++ [(length (console st), ESelecione 4)]) t)),
     st).
Proof.
  intros Ht (choice & Hint & Hrange & Hname & Hteste). rewrite select_model_eq.
  pose proof (escolher_cons teste interp
                (with_tela (tela t ++ lista_de_modelos (length (console st))) t) st
                l resto Ht) as Hrodada.
  cbv zeta in Hrodada. rewrite Hint in Hrodada.
  cbn [tela testados with_tela] in Hrodada. rewrite <- app_assoc in Hrodada.
  replace ((1 <=? choice) && (choice <=? 4))%Z with true in Hrodada
    by (symmetry; apply andb_true_iff; split; apply Z.leb_le; lia).
  rewrite <- Hname in Hrodada. apply while_True_sai. rewrite Hrodada.
  destruct (str_eqb name (py "llama2_raw")) eqn:Hraw.
  - unfold with_testados, with_teclado, with_tela. cbn [teclado tela testados].
    now rewrite app_nil_r.
  - destruct Hteste as [resposta ->]; [now apply str_eqb_neq|reflexivity].
Qed.

(** One question of the individual mode without documents: the model is
    invoked once, and its failure, if any, is caught. *)
Lemma perguntar_raw_pergunta (t : Terminal) (st : State) (d : str) (resto : list str) :
  teclado t = d :: resto ->
  e_sair d = false ->
  exists t' st',
    perguntar_raw env t st = (Ok None, t', st')
    /\ teclado t' = resto
    /\ testados t' = testados t
    /\ invoked st' = invoked st ++ [(llm_controle, strip d)]
    /\ console st' = console st
    /\ csv_files st' = csv_files st.
Proof.
  intros Ht Hd. unfold perguntar_raw. unfold bindT at 1.
  rewrite (input_cons _ t st d resto Ht). cbv zeta. unfold e_sair in Hd. rewrite Hd.
  unfold bindT at 1. unfold try_exceptT. unfold bindT at 1. unfold exibir at 1.
  unfold bindT at 1. unfold correr. rewrite generate_raw_response_default.
  destruct (ollama env (length (invoked st)) llm_controle (strip d)) as [response|e];
    unfold bindT, exibir, continue, retT; eexists _, _; (split; [reflexivity|]);
    repeat split.
Qed.

Lemma perguntar_raw_sair (t : Terminal) (st : State) (d : str) (resto : list str) :
  teclado t = d :: resto ->
  e_sair d = true ->
  perguntar_raw env t st
  = (Ok (Some tt),
     with_teclado resto (with_tela (tela t ++ [(length (console st), EPergunta)]) t), st).
Proof.
  intros Ht Hd. unfold perguntar_raw. unfold bindT at 1.
  rewrite (input_cons _ t st d resto Ht). cbv zeta. unfold e_sair in Hd. now rewrite Hd.
Qed.

Lemma while_perguntar_raw (perguntas : list str) (digitado : str) (resto : list str) :
  Forall (fun d => e_sair d = false) perguntas ->
  e_sair digitado = true ->
  forall (t : Terminal) (st : State),
    teclado t = perguntas ++ digitado :: resto ->
    exists t' st',
      while_True (perguntar_raw env) t st = (Ok tt, t', st')
      /\ teclado t' = resto
      /\ testados t' = testados t
      /\ invoked st' = invoked st ++ map (fun d => (llm_controle, strip d)) perguntas
      /\ console st' = console st
      /\ csv_files st' = csv_files st.
Proof.
  intros Hp Hs. induction Hp as [|d perguntas Hd _ IH]; intros t st Ht; cbn [app] in Ht.
  - rewrite (while_True_sai _ _ _ _ _ _ (perguntar_raw_sair t st digitado resto Ht Hs)).
    eexists _, _. split; [reflexivity|]. cbn [map]. rewrite app_nil_r. repeat split.
  - destruct (perguntar_raw_pergunta t st d _ Ht Hd)
      as (t1 & st1 & Hrodada & Ht1 & Htest1 & Hinv1 & Hcon1 & Hcsv1).
    rewrite (while_True_continue _ _ _ _ _ (consome_perguntar_raw env) Hrodada).
    destruct (IH t1 st1 Ht1) as (t2 & st2 & -> & Ht2 & Htest2 & Hinv2 & Hcon2 & Hcsv2).
    exists t2, st2. split; [reflexivity|]. cbn [map].
    rewrite Hinv2, Hinv1, <- app_assoc. repeat split; congruence.
Qed.

End Sessoes.

(** X17.  [main] prints its banner and the list of modes once, then asks
    for a mode until the answer is "4".  A line that is none of "1", "2",
    "3" and "4" once stripped is answered by "Opção inválida! Digite um
    número entre 1 e 4." and changes nothing; the line that says "4" ends
    the program with its farewell, the lines that follow being left
    unread.  No model is tested or invoked and no file is written. *)
Theorem main_encerra (env : Env) (teste : nat -> str -> outcome str)
        (interp : Interpreter) (t : Terminal) (st : State)
        (invalidas : list str) (l4 : str) (resto : list str) :
  teclado t = invalidas ++ l4 :: resto ->
  Forall (fun l => modo_invalido l = true) invalidas ->
  strip l4 = py "4" ->
  let n := length (console st) in
  main env teste interp t st
  = (Ok tt,
     with_teclado resto
       (with_tela
          (tela t ++ abertura n
           ++ flat_map (fun _ => [(n, EDigiteModo); (n, EModoInvalido)]) invalidas
           ++ [(n, EDigiteModo); (n, EEncerrando)]) t),
     st).
Proof.
  intros Ht Hinv H4 n. rewrite main_eq.
  rewrite (menu_invalidas_e_sair env teste interp invalidas l4 resto Hinv H4
             (with_tela (tela t ++ abertura (length (console st))) t) st Ht).
  unfold with_tela, with_teclado. cbn [tela teclado testados]. fold n.
  now rewrite <- !app_assoc.
Qed.

Lemma main_encerra_witness :
  main (mundo FileMissing backend_ok) teste_ok so_ascii
       (terminal_inicial [py "5"; py "sair"; py " 4 "; py "1"]) estado_inicial
  = (Ok tt,
     with_teclado [py "1"]
       (with_tela
          (tela (terminal_inicial [py "5"; py "sair"; py " 4 "; py "1"])
           ++ abertura 0
           ++ flat_map (fun _ => [(0, EDigiteModo); (0, EModoInvalido)]) [py "5"; py "sair"]
           ++ [(0, EDigiteModo); (0, EEncerrando)])
          (terminal_inicial [py "5"; py "sair"; py " 4 "; py "1"])),
     estado_inicial).
Proof.
  apply (main_encerra (mundo FileMissing backend_ok) teste_ok so_ascii
           (terminal_inicial [py "5"; py "sair"; py " 4 "; py "1"]) estado_inicial
           [py "5"; py "sair"] (py " 4 ") [py "1"]).
  - reflexivity.
  - repeat constructor.
  - reflexivity.
Defined.

(** X18.  [main] returns only by the choice "4": on a keyboard none of
    whose lines says "4", the program does not end normally, whatever
    happens in the modes chosen; an exception leaves it ([EOFError] once
    the lines are exhausted, if none came before). *)
Theorem main_so_encerra_com_4 (env : Env) (teste : nat -> str -> outcome str)
        (interp : Interpreter) (t : Terminal) (st : State) :
  (forall l, In l (teclado t) -> strip l <> py "4") ->
  exists e t' st', main env teste interp t st = (Raise e, t', st').
Proof.
  intros Hsem. rewrite main_eq. unfold while_True.
  apply voltas_menu_sem_4. exact Hsem.
Qed.

Lemma main_so_encerra_com_4_witness :
  exists e t' st',
    main (mundo FileMissing backend_ok) teste_ok so_ascii
         (terminal_inicial [py "0"; py "2"; py "sair"]) estado_inicial
    = (Raise e, t', st').
Proof.
  apply (main_so_encerra_com_4 (mundo FileMissing backend_ok) teste_ok so_ascii
           (terminal_inicial [py "0"; py "2"; py "sair"]) estado_inicial).
  intros l [<-|[<-|[<-|[]]]]; vm_compute; discriminate.
Defined.

(** X19.  In mode 3 of [main] no failure of the batch run ends the
    program.  Once a model is selected, [executar_bateria_testes] is run
    on the state as it is; an exception that leaves it is caught and
    reported by "Falha durante os testes", followed by the list of
    possible causes unless the model is "llama2_raw"; and the menu asks
    again, so that the choice "4" ends the program normally. *)
Theorem main_bateria_volta_ao_menu (env : Env) (teste : nat -> str -> outcome str)
        (interp : Interpreter) (t : Terminal) (st : State)
        (l3 lm l4 : str) (resto : list str) (model_name : str) :
  teclado t = l3 :: lm :: l4 :: resto ->
  strip l3 = py "3" ->
  escolhe teste interp t lm model_name ->
  strip l4 = py "4" ->
  exists t',
    main env teste interp t st
    = (Ok tt, t', snd (executar_bateria_testes env model_name st))
    /\ teclado t' = resto
    /\ map snd (tela t')
       = map snd (tela t)
         ++ map snd (abertura 0) ++ [EDigiteModo]
         ++ map snd (lista_de_modelos 0) ++ [ESelecione 4]
         ++ relato_da_bateria model_name (fst (executar_bateria_testes env model_name st))
         ++ [EDigiteModo; EEncerrando].
Proof.
  intros Ht H3 Hesc H4. rewrite main_eq.
  set (t0 := with_tela (tela t ++ abertura (length (console st))) t).
  assert (Hrodada : exists t1,
             menu env teste interp t0 st
             = (Ok None, t1, snd (executar_bateria_testes env model_name st))
             /\ teclado t1 = l4 :: resto
             /\ map snd (tela t1)
                = map snd (tela t)
                  ++ map snd (abertura 0) ++ [EDigiteModo]
                  ++ map snd (lista_de_modelos 0) ++ [ESelecione 4]
                  ++ relato_da_bateria model_name
                       (fst (executar_bateria_testes env model_name st))).
  { rewrite (menu_cons env teste interp t0 st l3 (lm :: l4 :: resto) Ht).
    cbv zeta. rewrite H3. compara_literais. cbv iota.
    unfold bindT at 1. unfold modo_bateria. unfold bindT at 1.
    rewrite (select_model_escolhido teste interp
               (with_teclado (lm :: l4 :: resto)
                  (with_tela (tela t0 ++ [(length (console st), EDigiteModo)]) t0))
               st lm model_name (l4 :: resto) eq_refl Hesc).
    unfold try_exceptT, correr.
    destruct (executar_bateria_testes env model_name st) as [[[]|e] st1];
      cbn [fst snd relato_da_bateria].
    - unfold continue, retT. eexists. split; [reflexivity|]. split; [reflexivity|].
      cbn [tela with_tela with_teclado with_testados t0].
      rewrite !map_app. cbn [map snd]. rewrite <- !app_assoc. reflexivity.
    - unfold bindT, exibir, whenT.
      destruct (str_eqb model_name (py "llama2_raw")); cbn [negb];
        unfold bindT, exibir, continue, retT;
        (eexists; split; [reflexivity|]; split; [reflexivity|]);
        cbn [tela with_tela with_teclado with_testados t0];
        rewrite !map_app; cbn [map snd app]; rewrite <- !app_assoc; reflexivity. }
  destruct Hrodada as (t1 & Hrodada & Ht1 & Htela1).
  rewrite (while_True_continue _ _ _ _ _ (consome_menu env teste interp) Hrodada).
  rewrite (while_True_sai _ _ _ _ _ _
             (menu_sair env teste interp t1 _ l4 resto Ht1 H4)).
  eexists. split; [reflexivity|]. split; [reflexivity|].
  cbn [tela with_tela with_teclado]. rewrite map_app, Htela1. cbn [map snd].
  rewrite <- !app_assoc. reflexivity.
Qed.

Lemma main_bateria_volta_ao_menu_witness :
  exists t',
    main (mundo (FileText texto_tres_perguntas) backend_ok) teste_ok so_ascii
         (terminal_inicial [py "3"; py "1"; py "4"])
         (with_saved_index
            (fun path => if str_eqb path FAISS_INDEX
                         then Some (Raise (Exception (py "could not open index.faiss")))
                         else None)
            estado_inicial)
    = (Ok tt, t',
       snd (executar_bateria_testes
              (mundo (FileText texto_tres_perguntas) backend_ok) (py "mistral")
              (with_saved_index
                 (fun path => if str_eqb path FAISS_INDEX
                              then Some (Raise (Exception (py "could not open index.faiss")))
                              else None)
                 estado_inicial)))
    /\ teclado t' = []
    /\ map snd (tela t')
       = map snd (tela (terminal_inicial [py "3"; py "1"; py "4"]))
         ++ map snd (abertura 0) ++ [EDigiteModo]
         ++ map snd (lista_de_modelos 0) ++ [ESelecione 4]
         ++ relato_da_bateria (py "mistral")
              (fst (executar_bateria_testes
                      (mundo (FileText texto_tres_perguntas) backend_ok) (py "mistral")
                      (with_saved_index
                         (fun path =>
                            if str_eqb path FAISS_INDEX
                            then Some (Raise (Exception (py "could not open index.faiss")))
                            else None)
                         estado_inicial)))
         ++ [EDigiteModo; EEncerrando].
Proof.
  apply (main_bateria_volta_ao_menu
           (mundo (FileText texto_tres_perguntas) backend_ok) teste_ok so_ascii
           (terminal_inicial [py "3"; py "1"; py "4"]) _ (py "3") (py "1") (py "4") []
           (py "mistral")).
  - reflexivity.
  - reflexivity.
  - exists 1%Z. split; [reflexivity|]. split; [lia|]. split; [reflexivity|].
    intros _. eexists. reflexivity.
  - reflexivity.
Defined.

Example bateria_falha_e_menu_continua :
  exists t' st',
    main (mundo (FileText texto_tres_perguntas) backend_ok) teste_ok so_ascii
         (terminal_inicial [py "3"; py "1"; py "4"])
         (with_saved_index
            (fun path => if str_eqb path FAISS_INDEX
                         then Some (Raise (Exception (py "could not open index.faiss")))
                         else None)
            estado_inicial)
    = (Ok tt, t', st')
    /\ skipn 15 (map snd (tela t'))
       = [EFalhaTestes (py "could not open index.faiss"); EPossiveisCausas;
          ECausaDocumentos; ECausaIndice; ECausaOllama; EDigiteModo; EEncerrando]
    /\ csv_files st' = [].
Proof. eexists _, _. vm_compute. repeat split. Qed.

(** X20.  In mode 1 of [main] the set-up of the RAG system is not
    guarded: when a model with documents is selected and the index folder
    exists but cannot be read, the exception of the load leaves [main],
    and the program ends without asking for a question. *)
Theorem main_modo_normal_indice_ilegivel (env : Env) (teste : nat -> str -> outcome str)
        (interp : Interpreter) (t : Terminal) (st : State)
        (l1 lm : str) (resto : list str) (model_name : str) (e : exn) :
  teclado t = l1 :: lm :: resto ->
  strip l1 = py "1" ->
  escolhe teste interp t lm model_name ->
  model_name <> py "llama2_raw" ->
  saved_index st FAISS_INDEX = Some (Raise e) ->
  exists t' st',
    main env teste interp t st = (Raise e, t', st')
    /\ teclado t' = resto
    /\ invoked st' = invoked st.
Proof.
  intros Ht H1 Hesc Hraw Hsaved. rewrite main_eq.
  set (t0 := with_tela (tela t ++ abertura (length (console st))) t).
  apply str_eqb_neq in Hraw.
  destruct (setup_rag_system_corrompido env model_name st e Hraw Hsaved) as (msgs & Hsetup).
  eexists _, _. split.
  - apply while_True_raise.
    rewrite (menu_cons env teste interp t0 st l1 (lm :: resto) Ht).
    cbv zeta. rewrite H1. compara_literais. cbv iota.
    unfold bindT at 1. unfold modo_normal. unfold bindT at 1. unfold exibir at 1.
    unfold bindT at 1.
    rewrite (select_model_escolhido teste interp
               (with_tela
                  (tela (with_teclado (lm :: resto)
                           (with_tela (tela t0 ++ [(length (console st), EDigiteModo)]) t0))
                   ++ [(length (console st), EConfiguracao)])
                  (with_teclado (lm :: resto)
                     (with_tela (tela t0 ++ [(length (console st), EDigiteModo)]) t0)))
               st lm model_name resto eq_refl Hesc).
    rewrite Hraw. unfold bindT at 1. unfold correr. rewrite Hsetup. reflexivity.
  - split; reflexivity.
Qed.

Lemma main_modo_normal_indice_ilegivel_witness :
  exists t' st',
    main (mundo FileMissing backend_ok) teste_ok so_ascii
         (terminal_inicial [py "1"; py "3"; py "O que e MLO?"])
         (with_saved_index
            (fun path => if str_eqb path FAISS_INDEX
                         then Some (Raise (Exception (py "could not open index.faiss")))
                         else None)
            estado_inicial)
    = (Raise (Exception (py "could not open index.faiss")), t', st')
    /\ teclado t' = [py "O que e MLO?"]
    /\ invoked st'
       = invoked (with_saved_index
                    (fun path =>
                       if str_eqb path FAISS_INDEX
                       then Some (Raise (Exception (py "could not open index.faiss")))
                       else None)
                    estado_inicial).
Proof.
  apply (main_modo_normal_indice_ilegivel (mundo FileMissing backend_ok) teste_ok so_ascii
           (terminal_inicial [py "1"; py "3"; py "O que e MLO?"]) _
           (py "1") (py "3") [py "O que e MLO?"] (py "tinyllama")).
  - reflexivity.
  - reflexivity.
  - exists 3%Z. split; [reflexivity|]. split; [lia|]. split; [reflexivity|].
    intros _. eexists. reflexivity.
  - vm_compute. discriminate.
  - reflexivity.
Defined.

(** X21.  A conversation in mode 1 of [main] with the model "llama2_raw":
    every line typed until one says "sair" is stripped and put to "llama2"
    under the control persona, once, whether the backend answers or
    fails; a failure is reported and does not end the conversation.  The
    line "sair" brings the menu back, where "4" ends the program.  Nothing
    is printed on the console of the harness and no file is written. *)
Theorem main_conversa_sem_documentos (env : Env) (teste : nat -> str -> outcome str)
        (interp : Interpreter) (t : Terminal) (st : State)
        (l1 lm : str) (perguntas : list str) (lsair l4 : str) (resto : list str) :
  teclado t = l1 :: lm :: perguntas ++ lsair :: l4 :: resto ->
  strip l1 = py "1" ->
  escolhe teste interp t lm (py "llama2_raw") ->
  Forall (fun d => e_sair d = false) perguntas ->
  e_sair lsair = true ->
  strip l4 = py "4" ->
  exists t' st',
    main env teste interp t st = (Ok tt, t', st')
    /\ teclado t' = resto
    /\ testados t' = testados t
    /\ invoked st' = invoked st ++ map (fun d => (llm_controle, strip d)) perguntas
    /\ console st' = console st
    /\ csv_files st' = csv_files st.
Proof.
  intros Ht H1 Hesc Hp Hs H4. rewrite main_eq.
  set (t0 := with_tela (tela t ++ abertura (length (console st))) t).
  assert (Hrodada : exists t1 st1,
             menu env teste interp t0 st = (Ok None, t1, st1)
             /\ teclado t1 = l4 :: resto
             /\ testados t1 = testados t
             /\ invoked st1 = invoked st ++ map (fun d => (llm_controle, strip d)) perguntas
             /\ console st1 = console st
             /\ csv_files st1 = csv_files st).
  { rewrite (menu_cons env teste interp t0 st l1
               (lm :: perguntas ++ lsair :: l4 :: resto) Ht).
    cbv zeta. rewrite H1. compara_literais. cbv iota.
    unfold bindT at 1. unfold modo_normal. unfold bindT at 1. unfold exibir at 1.
    unfold bindT at 1.
    rewrite (select_model_escolhido teste interp
               (with_tela
                  (tela (with_teclado (lm :: perguntas ++ lsair :: l4 :: resto)
                           (with_tela (tela t0 ++ [(length (console st), EDigiteModo)]) t0))
                   ++ [(length (console st), EConfiguracao)])
                  (with_teclado (lm :: perguntas ++ lsair :: l4 :: resto)
                     (with_tela (tela t0 ++ [(length (console st), EDigiteModo)]) t0)))
               st lm (py "llama2_raw") (perguntas ++ lsair :: l4 :: resto) eq_refl Hesc).
    compara_literais. cbv iota.
    unfold bindT at 1. unfold exibir at 1. unfold bindT at 1. unfold exibir at 1.
    match goal with
    | |- context [while_True (perguntar_raw env) ?ta ?sa] =>
      destruct (while_perguntar_raw env perguntas lsair (l4 :: resto) Hp Hs ta sa eq_refl)
        as (t1 & st1 & -> & Ht1 & Htest1 & Hinv1 & Hcon1 & Hcsv1)
    end.
    unfold continue, retT. exists t1, st1. split; [reflexivity|].
    cbn [testados with_testados with_tela with_teclado t0] in Htest1.
    rewrite app_nil_r in Htest1. repeat split; assumption. }
  destruct Hrodada as (t1 & st1 & Hrodada & Ht1 & Htest1 & Hinv1 & Hcon1 & Hcsv1).
  rewrite (while_True_continue _ _ _ _ _ (consome_menu env teste interp) Hrodada).
  rewrite (while_True_sai _ _ _ _ _ _
             (menu_sair env teste interp t1 st1 l4 resto Ht1 H4)).
  eexists _, _. split; [reflexivity|]. repeat split; assumption.
Qed.

Lemma main_conversa_sem_documentos_witness :
  exists t' st',
    main (mundo FileMissing backend_fora) teste_fora so_ascii
         (terminal_inicial
            (py "1" :: py "4" :: [py " O que e MLO? "; py ""] ++ py "SAIR" :: py "4" :: []))
         estado_inicial
    = (Ok tt, t', st')
    /\ teclado t' = []
    /\ testados t'
       = testados (terminal_inicial
                     (py "1" :: py "4" :: [py " O que e MLO? "; py ""]
                         ++ py "SAIR" :: py "4" :: []))
    /\ invoked st'
       = invoked estado_inicial
         ++ map (fun d => (llm_controle, strip d)) [py " O que e MLO? "; py ""]
    /\ console st' = console estado_inicial
    /\ csv_files st' = csv_files estado_inicial.
Proof.
  apply (main_conversa_sem_documentos (mundo FileMissing backend_fora) teste_fora so_ascii
           (terminal_inicial
              (py "1" :: py "4" :: [py " O que e MLO? "; py ""] ++ py "SAIR" :: py "4" :: []))
           estado_inicial (py "1") (py "4") [py " O que e MLO? "; py ""]
           (py "SAIR") (py "4") []).
  - reflexivity.
  - reflexivity.
  - exists 4%Z. split; [reflexivity|]. split; [lia|]. split; [reflexivity|].
    intros H. now destruct H.
  - repeat constructor.
  - reflexivity.
  - reflexivity.
Defined.

(** X22.  In mode 2 of [main] the comparative mode reads the lines up to
    the first that says "sair" and no further: when its index, if any,
    can be read, it runs on those lines as [benchmark_interativo] does,
    and the menu takes the line that follows, so that "4" ends the
    program. *)
Theorem main_benchmark_devolve_o_teclado (env : Env) (teste : nat -> str -> outcome str)
        (interp : Interpreter) (t : Terminal) (st : State)
        (l2 : str) (perguntas : list str) (lsair l4 : str) (resto : list str) :
  teclado t = l2 :: perguntas ++ lsair :: l4 :: resto ->
  strip l2 = py "2" ->
  (forall e, saved_index st FAISS_INDEX <> Some (Raise e)) ->
  Forall (fun d => e_sair d = false) perguntas ->
  e_sair lsair = true ->
  strip l4 = py "4" ->
  exists t',
    main env teste interp t st
    = (Ok tt, t', snd (benchmark_interativo env (perguntas ++ lsair :: l4 :: resto) st))
    /\ fst (benchmark_interativo env (perguntas ++ lsair :: l4 :: resto) st) = Ok tt
    /\ teclado t' = resto
    /\ testados t' = testados t.
Proof.
  intros Ht H2 Hsaved Hp Hs H4. rewrite main_eq.
  set (t0 := with_tela (tela t ++ abertura (length (console st))) t).
  destruct (benchmark_interativo_relatorio env st perguntas lsair (l4 :: resto) Hsaved Hp Hs)
    as (df & msgs & st1 & Hbench & _).
  assert (Hrodada :
            menu env teste interp t0 st
            = (Ok None,
               with_teclado (l4 :: resto)
                 (with_tela (tela t0 ++ [(length (console st), EDigiteModo)]) t0), st1)).
  { rewrite (menu_cons env teste interp t0 st l2
               (perguntas ++ lsair :: l4 :: resto) Ht).
    cbv zeta. rewrite H2. compara_literais. cbv iota.
    unfold bindT, modo_benchmark. cbn [teclado with_teclado].
    rewrite Hbench, (depois_de_sair_app perguntas lsair (l4 :: resto) Hp Hs).
    reflexivity. }
  rewrite (while_True_continue _ _ _ _ _ (consome_menu env teste interp) Hrodada).
  rewrite (while_True_sai _ _ _ _ _ _
             (menu_sair env teste interp
                (with_teclado (l4 :: resto)
                   (with_tela (tela t0 ++ [(length (console st), EDigiteModo)]) t0))
                st1 l4 resto eq_refl H4)).
  rewrite Hbench. eexists. split; [reflexivity|]. repeat split.
Qed.

Lemma main_benchmark_devolve_o_teclado_witness :
  exists t',
    main (mundo FileMissing backend_ok) teste_ok so_ascii
         (terminal_inicial (py "2" :: [py "O que e MLO?"] ++ py "sair" :: py "4" :: []))
         estado_inicial
    = (Ok tt, t',
       snd (benchmark_interativo (mundo FileMissing backend_ok)
              ([py "O que e MLO?"] ++ py "sair" :: py "4" :: []) estado_inicial))
    /\ fst (benchmark_interativo (mundo FileMissing backend_ok)
              ([py "O que e MLO?"] ++ py "sair" :: py "4" :: []) estado_inicial)
       = Ok tt
    /\ teclado t' = []
    /\ testados t'
       = testados (terminal_inicial
                     (py "2" :: [py "O que e MLO?"] ++ py "sair" :: py "4" :: [])).
Proof.
  apply (main_benchmark_devolve_o_teclado (mundo FileMissing backend_ok) teste_ok so_ascii
           (terminal_inicial (py "2" :: [py "O que e MLO?"] ++ py "sair" :: py "4" :: []))
           estado_inicial (py "2") [py "O que e MLO?"] (py "sair") (py "4") []).
  - reflexivity.
  - reflexivity.
  - intros e. discriminate.
  - repeat constructor.
  - reflexivity.
  - reflexivity.
Defined.

Lemma para_cada_fontes (docs : list Document) (t : Terminal) (st : State) :
  Forall (fun d => meta_source d <> None) docs ->
  para_cada exibir_fonte docs t st
  = (Ok tt,
     with_tela (tela t ++ map (fun doc => (length (console st), fonte_exibida doc)) docs) t,
     st).
Proof.
  intros H. revert t. induction H as [|doc docs Hdoc _ IH]; intros t.
  - cbn [para_cada map]. unfold retT, with_tela. rewrite app_nil_r. now destruct t.
  - cbn [para_cada map]. unfold bindT at 1. unfold exibir_fonte, bindT, correr, lift,
      metadata_source, exibir, fonte_exibida.
    destruct (meta_source doc) as [source|]; [|congruence].
    rewrite IH. unfold with_tela. cbn [tela teclado testados].
    now rewrite <- app_assoc.
Qed.

(** X23.  One question in mode 1 of [main] with a model with documents,
    when every chunk of the index carries its source and the model
    answers: the time and the answer are printed, then "Fontes
    utilizadas" and one line for each chunk that [generate_response]
    retrieved, in the order of retrieval, with the base name of its source
    and its page; the model was invoked once, and the loop goes on. *)
Theorem perguntar_rag_mostra_fontes (env : Env) (vs : FAISS) (llm : Ollama)
        (t : Terminal) (st : State) (d : str) (resto : list str) (response : str) :
  teclado t = d :: resto ->
  e_sair d = false ->
  Forall (fun e => meta_source (fst e) <> None) (index_entries vs) ->
  let docs := similarity_search vs (strip d) 5 in
  let p := montar_prompt (join [LF; LF] (map trecho_texto docs)) (strip d) in
  ollama env (length (invoked st)) llm p = Ok response ->
  exists t' st',
    perguntar_rag env (Some vs) (Some llm) t st = (Ok None, t', st')
    /\ teclado t' = resto
    /\ map snd (tela t')
       = map snd (tela t)
         ++ [EPergunta; EProcessando;
             EResposta (Py.round (clock env (S (ticks st)) - clock env (ticks st)) 2);
             ETexto response; EFontesUtilizadas]
         ++ map fonte_exibida docs
    /\ invoked st' = invoked st ++ [(llm, p)].
Proof.
  intros Ht Hd Hsrc docs p Hresp. unfold perguntar_rag. unfold bindT at 1.
  rewrite (input_cons _ t st d resto Ht). cbv zeta. unfold e_sair in Hd. rewrite Hd.
  unfold bindT at 1. unfold try_exceptT. unfold bindT at 1. unfold exibir at 1.
  unfold bindT at 1. unfold correr.
  rewrite (generate_response_ok env (strip d) vs llm st response Hsrc Hresp).
  fold docs. fold p.
  unfold bindT at 1. unfold exibir at 1. unfold bindT at 1. unfold exibir at 1.
  unfold bindT at 1. unfold exibir at 1.
  rewrite (para_cada_fontes docs _ _ (similarity_search_fontes vs (strip d) 5 Hsrc)).
  unfold continue, retT. eexists _, _. split; [reflexivity|]. split; [reflexivity|].
  split; [|reflexivity].
  cbn [tela with_tela with_teclado]. rewrite !map_app, map_map. cbn [map snd app].
  rewrite <- !app_assoc. reflexivity.
Qed.

Lemma perguntar_rag_mostra_fontes_witness :
  exists t' st',
    perguntar_rag (mundo FileMissing backend_ok) (Some indice_dois_chunks)
                  (Some (llm_rag (py "mistral")))
                  (terminal_inicial [py "What is Wi-Fi 7?"; py "sair"]) estado_inicial
    = (Ok None, t', st')
    /\ teclado t' = [py "sair"]
    /\ map snd (tela t')
       = map snd (tela (terminal_inicial [py "What is Wi-Fi 7?"; py "sair"]))
         ++ [EPergunta; EProcessando;
             EResposta (Py.round (clock (mundo FileMissing backend_ok)
                                         (S (ticks estado_inicial))
                                  - clock (mundo FileMissing backend_ok)
                                          (ticks estado_inicial)) 2);
             ETexto (py "O Wi-Fi 7 e o padrao IEEE 802.11be."); EFontesUtilizadas]
         ++ map fonte_exibida
                (similarity_search indice_dois_chunks (strip (py "What is Wi-Fi 7?")) 5)
    /\ invoked st'
       = invoked estado_inicial
         ++ [(llm_rag (py "mistral"),
              montar_prompt
                (join [LF; LF]
                      (map trecho_texto
                           (similarity_search indice_dois_chunks
                                              (strip (py "What is Wi-Fi 7?")) 5)))
                (strip (py "What is Wi-Fi 7?")))].
Proof.
  apply (perguntar_rag_mostra_fontes (mundo FileMissing backend_ok) indice_dois_chunks
           (llm_rag (py "mistral")) (terminal_inicial [py "What is Wi-Fi 7?"; py "sair"])
           estado_inicial (py "What is Wi-Fi 7?") [py "sair"]
           (py "O Wi-Fi 7 e o padrao IEEE 802.11be.")).
  - reflexivity.
  - reflexivity.
  - repeat constructor; discriminate.
  - reflexivity.
Defined.

Example fontes_na_ordem_da_busca :
  map fonte_exibida (similarity_search indice_dois_chunks (py "What is Wi-Fi 7?") 5)
  = [EFonte (py "doc1.pdf") (py "1"); EFonte (py "doc2.pdf") (py "2")].
Proof. vm_compute. reflexivity. Qed.

Lemma para_cada_fontes_estado (docs : list Document) (t : Terminal) (st : State) :
  exists r t',
    para_cada exibir_fonte docs t st = (r, t', st)
    /\ teclado t' = teclado t
    /\ testados t' = testados t.
Proof.
  revert t. induction docs as [|doc docs IH]; intros t.
  - exists (Ok tt), t. repeat split.
  - cbn [para_cada]. unfold bindT at 1. unfold exibir_fonte at 1.
    unfold bindT, correr, lift, metadata_source, exibir.
    destruct (meta_source doc) as [source|].
    + destruct (IH (with_tela
                      (tela t ++ [(length (console st),
                                   EFonte (basename source) (metadata_page doc))]) t))
        as (r & t' & -> & Hk & Hm).
      exists r, t'. repeat split; assumption.
    + eexists _, _. repeat split.
Qed.

Lemma generate_response_invoked_le (env : Env) (question : str) (vectorstore : option FAISS)
      (llm : option Ollama) (st : State) :
  length (invoked (snd (generate_response env question vectorstore llm st)))
  <= S (length (invoked st)).
Proof.
  unfold generate_response, bind, time_time, lift, raise, ret, invoke.
  destruct vectorstore as [vs|]; cbn [snd invoked with_ticks]; [|lia].
  destruct (map_M trecho (similarity_search vs question 5)); cbn [snd invoked with_ticks];
    [|lia].
  destruct llm as [llm|]; cbn [snd invoked with_ticks]; [|lia].
  destruct (ollama env _ llm _); cbn [snd invoked with_ticks with_invoked];
    rewrite length_app; cbn [length]; lia.
Qed.

Section Conversa.

Variable env : Env.
Variable vectorstore : option FAISS.
Variable llm : option Ollama.

(** One question of the individual mode with documents: whatever
    [generate_response] and the printing of the sources come to, the
    round ends and the loop goes on. *)
Lemma perguntar_rag_pergunta (t : Terminal) (st : State) (d : str) (resto : list str) :
  teclado t = d :: resto ->
  e_sair d = false ->
  exists t',
    perguntar_rag env vectorstore llm t st
    = (Ok None, t', snd (generate_response env (strip d) vectorstore llm st))
    /\ teclado t' = resto
    /\ testados t' = testados t.
Proof.
  intros Ht Hd. unfold perguntar_rag. unfold bindT at 1.
  rewrite (input_cons _ t st d resto Ht). cbv zeta. unfold e_sair in Hd. rewrite Hd.
  unfold bindT at 1. unfold try_exceptT. unfold bindT at 1. unfold exibir at 1.
  unfold bindT at 1. unfold correr.
  destruct (generate_response env (strip d) vectorstore llm st)
    as [[[[response docs] time_sec]|e] st1]; cbn [snd].
  - unfold bindT at 1. unfold exibir at 1. unfold bindT at 1. unfold exibir at 1.
    unfold bindT at 1. unfold exibir at 1.
    match goal with
    | |- context [para_cada exibir_fonte docs ?ta st1] =>
      destruct (para_cada_fontes_estado docs ta st1) as ([[]|e] & t' & -> & Hk & Hm)
    end;
      unfold bindT, exibir, continue, retT; eexists; (split; [reflexivity|]);
      cbn [teclado testados with_tela with_teclado] in *; split; assumption.
  - unfold bindT, exibir, continue, retT. eexists. split; [reflexivity|]. split; reflexivity.
Qed.

Lemma perguntar_rag_sair (t : Terminal) (st : State) (d : str) (resto : list str) :
  teclado t = d :: resto ->
  e_sair d = true ->
  perguntar_rag env vectorstore llm t st
  = (Ok (Some tt),
     with_teclado resto (with_tela (tela t ++ [(length (console st), EPergunta)]) t), st).
Proof.
  intros Ht Hd. unfold perguntar_rag. unfold bindT at 1.
  rewrite (input_cons _ t st d resto Ht). cbv zeta. unfold e_sair in Hd. now rewrite Hd.
Qed.

Lemma while_perguntar_rag (perguntas : list str) (digitado : str) (resto : list str) :
  Forall (fun d => e_sair d = false) perguntas ->
  e_sair digitado = true ->
  forall (t : Terminal) (st : State),
    teclado t = perguntas ++ digitado :: resto ->
    exists t' st',
      while_True (perguntar_rag env vectorstore llm) t st = (Ok tt, t', st')
      /\ teclado t' = resto
      /\ testados t' = testados t
      /\ mesmo_disco st st'
      /\ console st' = console st
      /\ length (invoked st') <= length (invoked st) + length perguntas.
Proof.
  intros Hp Hs. induction Hp as [|d perguntas Hd _ IH]; intros t st Ht; cbn [app] in Ht.
  - rewrite (while_True_sai _ _ _ _ _ _ (perguntar_rag_sair t st digitado resto Ht Hs)).
    eexists _, _. split; [reflexivity|]. cbn [length].
    repeat split; try reflexivity. lia.
  - destruct (perguntar_rag_pergunta t st d _ Ht Hd) as (t1 & Hrodada & Ht1 & Htest1).
    rewrite (while_True_continue _ _ _ _ _
               (consome_perguntar_rag env vectorstore llm) Hrodada).
    destruct (IH t1 (snd (generate_response env (strip d) vectorstore llm st)) Ht1)
      as (t2 & st2 & -> & Ht2 & Htest2 & Hd2 & Hcon2 & Hinv2).
    exists t2, st2. split; [reflexivity|].
    pose proof (generate_response_disco env (strip d) vectorstore llm st) as Hd1.
    pose proof (generate_response_quieto env (strip d) vectorstore llm st) as [Hcon1 _].
    pose proof (generate_response_invoked_le env (strip d) vectorstore llm st) as Hinv1.
    split; [exact Ht2|]. split; [congruence|].
    split; [exact (mesmo_disco_trans _ _ _ Hd1 Hd2)|].
    split; [congruence|]. cbn [length]. lia.
Qed.

End Conversa.

(** X24.  A conversation in mode 1 of [main] with a model with documents,
    on a disk whose index, if any, can be read: the RAG system is set up,
    then every line typed until one says "sair" is answered or its
    failure reported, none ending the conversation, with at most one
    invocation of the model for each; the line "sair" brings the menu
    back, where "4" ends the program.  Mode 1 writes no file. *)
Theorem main_conversa_com_documentos (env : Env) (teste : nat -> str -> outcome str)
        (interp : Interpreter) (t : Terminal) (st : State)
        (l1 lm : str) (model_name : str) (perguntas : list str) (lsair l4 : str)
        (resto : list str) :
  teclado t = l1 :: lm :: perguntas ++ lsair :: l4 :: resto ->
  strip l1 = py "1" ->
  escolhe teste interp t lm model_name ->
  model_name <> py "llama2_raw" ->
  (forall e, saved_index st FAISS_INDEX <> Some (Raise e)) ->
  Forall (fun d => e_sair d = false) perguntas ->
  e_sair lsair = true ->
  strip l4 = py "4" ->
  exists t' st',
    main env teste interp t st = (Ok tt, t', st')
    /\ teclado t' = resto
    /\ csv_files st' = csv_files st
    /\ length (invoked st') <= length (invoked st) + length perguntas.
Proof.
  intros Ht H1 Hesc Hraw Hsaved Hp Hs H4. rewrite main_eq.
  set (t0 := with_tela (tela t ++ abertura (length (console st))) t).
  apply str_eqb_neq in Hraw.
  destruct (setup_rag_system_total env model_name st Hraw Hsaved)
    as (vectorstore & llm & st0 & Hsetup & Hcsv0 & Hinv0).
  assert (Hrodada : exists t1 st1,
             menu env teste interp t0 st = (Ok None, t1, st1)
             /\ teclado t1 = l4 :: resto
             /\ csv_files st1 = csv_files st
             /\ length (invoked st1) <= length (invoked st) + length perguntas).
  { rewrite (menu_cons env teste interp t0 st l1
               (lm :: perguntas ++ lsair :: l4 :: resto) Ht).
    cbv zeta. rewrite H1. compara_literais. cbv iota.
    unfold bindT at 1. unfold modo_normal. unfold bindT at 1. unfold exibir at 1.
    unfold bindT at 1.
    rewrite (select_model_escolhido teste interp
               (with_tela
                  (tela (with_teclado (lm :: perguntas ++ lsair :: l4 :: resto)
                           (with_tela (tela t0 ++ [(length (console st), EDigiteModo)]) t0))
                   ++ [(length (console st), EConfiguracao)])
                  (with_teclado (lm :: perguntas ++ lsair :: l4 :: resto)
                     (with_tela (tela t0 ++ [(length (console st), EDigiteModo)]) t0)))
               st lm model_name (perguntas ++ lsair :: l4 :: resto) eq_refl Hesc).
    rewrite Hraw. unfold bindT at 1. unfold correr at 1. rewrite Hsetup.
    unfold bindT at 1. unfold exibir at 1. unfold bindT at 1. unfold exibir at 1.
    match goal with
    | |- context [while_True (perguntar_rag env vectorstore llm) ?ta ?sa] =>
      destruct (while_perguntar_rag env vectorstore llm perguntas lsair (l4 :: resto)
                  Hp Hs ta sa eq_refl)
        as (t1 & st1 & -> & Ht1 & _ & Hd1 & _ & Hinv1)
    end.
    unfold continue, retT. exists t1, st1. split; [reflexivity|].
    destruct Hd1 as (Hcsv1 & _).
    split; [exact Ht1|]. split; [congruence|]. rewrite <- Hinv0. exact Hinv1. }
  destruct Hrodada as (t1 & st1 & Hrodada & Ht1 & Hcsv1 & Hinv1).
  rewrite (while_True_continue _ _ _ _ _ (consome_menu env teste interp) Hrodada).
  rewrite (while_True_sai _ _ _ _ _ _
             (menu_sair env teste interp t1 st1 l4 resto Ht1 H4)).
  eexists _, _. split; [reflexivity|]. repeat split; assumption.
Qed.

Lemma main_conversa_com_documentos_witness :
  exists t' st',
    main (mundo FileMissing backend_fora) teste_ok so_ascii
         (terminal_inicial
            (py "1" :: py "2" :: [py "O que e MLO?"; py "E o OFDMA?"]
                ++ py "sair" :: py "4" :: []))
         estado_inicial
    = (Ok tt, t', st')
    /\ teclado t' = []
    /\ csv_files st' = csv_files estado_inicial
    /\ length (invoked st')
       <= length (invoked estado_inicial) + length [py "O que e MLO?"; py "E o OFDMA?"].
Proof.
  apply (main_conversa_com_documentos (mundo FileMissing backend_fora) teste_ok so_ascii
           (terminal_inicial
              (py "1" :: py "2" :: [py "O que e MLO?"; py "E o OFDMA?"]
                  ++ py "sair" :: py "4" :: []))
           estado_inicial (py "1") (py "2") (py "llama2")
           [py "O que e MLO?"; py "E o OFDMA?"] (py "sair") (py "4") []).
  - reflexivity.
  - reflexivity.
  - exists 2%Z. split; [reflexivity|]. split; [lia|]. split; [reflexivity|].
    intros _. eexists. reflexivity.
  - vm_compute. discriminate.
  - intros e. discriminate.
  - repeat constructor.
  - reflexivity.
  - reflexivity.
Defined.

Example conversa_com_backend_fora :
  exists t' st',
    main (mundo FileMissing backend_fora) teste_ok so_ascii
         (terminal_inicial [py "1"; py "2"; py "O que e MLO?"; py "sair"; py "4"])
         estado_inicial
    = (Ok tt, t', st')
    /\ skipn 18 (map snd (tela t'))
       = [EPergunta; EProcessando; EErro (py "connection refused"); EDica;
          EPergunta; EDigiteModo; EEncerrando]
    /\ length (invoked st') = 1.
Proof. eexists _, _. vm_compute. repeat split. Qed.

Close Scope terminal_scope.
